(** * fair-data-protocol: pods, directories and files over a chunk store

    A shallow embedding of the storage layer: the feed writers
    (feed/api), the parent-listing maintenance (content-items/handler),
    directory creation and reading (directory/handler), file upload,
    download and sharing (file/handler, file/file), the directory class
    with the upload of a local directory (directory/directory), the pod
    list (pod/personal-storage), the encrypted mnemonic of an account and
    the postage batch helpers (utils/batch), followed by the properties of
    section 8 of the specification and by further properties of the code.

    Asynchronous functions become computations in a state-and-exception
    monad over the state of the chunk store; [throw] is a JavaScript
    [throw], [tryCatch] a [try]/[catch]. *)

From Stdlib Require Import ZArith List Ascii Lia.
From Stdlib Require String DecimalString.
From Stdlib Require Import DecimalFacts DecimalNat.
From Stdlib.Strings Require Import Byte.
From stdpp Require Import base option list gmap strings countable.

(* ===================================================================== *)
(** * Values *)
(* ===================================================================== *)

#[global] Instance byte_eq_dec : EqDecision byte := Byte.byte_eq_dec.
#[global] Instance byte_countable : Countable byte :=
  inj_countable Byte.to_N Byte.of_N Byte.of_to_N.

(** [Uint8Array] contents. *)
Abbreviation bytes := (list byte) (only parsing).
(** bee-js [Reference]: a hex string. *)
Abbreviation Reference := string (only parsing).
(** An Ethereum address (hex string) and a private key (hex string). *)
Abbreviation EthAddress := string (only parsing).
Abbreviation PrivateKey := string (only parsing).
(** [PodPasswordBytes]: the symmetric key of one pod. *)
Abbreviation PodPasswordBytes := (list byte) (only parsing).

(** What a JavaScript [throw] carries: an [Error] object with its
    message, or any other value. *)
Inductive Thrown : Type :=
  | ErrorObj (message : string)
  | NonError (value : string).

#[global] Instance Thrown_eq_dec : EqDecision Thrown.
Proof. solve_decision. Defined.

Inductive Outcome (A : Type) : Type :=
  | Returns (a : A)
  | Throws (e : Thrown).
Arguments Returns {A} a.
Arguments Throws {A} e.

(** An awaited computation over the state [W] of the outside world. *)
Definition M (W A : Type) : Type := W -> Outcome A * W.

Definition ret {W A} (a : A) : M W A := fun w => (Returns a, w).

Definition throw {W A} (e : Thrown) : M W A := fun w => (Throws e, w).

Definition bind {W A B} (m : M W A) (k : A -> M W B) : M W B :=
  fun w =>
    match m w with
    | (Returns a, w') => k a w'
    | (Throws e, w') => (Throws e, w')
    end.

Definition tryCatch {W A} (m : M W A) (handler : Thrown -> M W A) : M W A :=
  fun w =>
    match m w with
    | (Returns a, w') => (Returns a, w')
    | (Throws e, w') => handler e w'
    end.

Notation "'let*' x ':=' c1 'in' c2" := (bind c1 (fun x => c2))
  (at level 10, x pattern, c1 at level 100, c2 at level 200).

(** [assert*] helpers are synchronous: they return or throw. *)
Definition liftOutcome {W A} (o : Outcome A) : M W A := fun w => (o, w).

(** ** Epochs and feed identifiers *)

Record Epoch : Type := mkEpoch { level : Z; time : Z }.

#[global] Instance Epoch_eq_dec : EqDecision Epoch.
Proof. solve_decision. Defined.

(** The identifier [getId(topicHash, time, level)] of a single-owner
    chunk.  feed/handler is not under src: the identifier is kept as the
    triple it is computed from. *)
Record Identifier : Type :=
  mkIdentifier { id_topicHash : bytes; id_time : Z; id_level : Z }.

#[global] Instance Identifier_eq_dec : EqDecision Identifier.
Proof. solve_decision. Defined.

Definition getId (topicHash : bytes) (time : Z) (level : Z) : Identifier :=
  mkIdentifier topicHash time level.

(** [LookupAnswer]: the payload found and the epoch it was stored under. *)
Record LookupAnswer : Type := mkLookupAnswer { la_data : bytes; la_epoch : Epoch }.

(** ** Metadata records (pod/types.ts) *)

Record Pod : Type := mkPod {
  pod_name : string;
  pod_index : nat;
  pod_password : option PodPasswordBytes
}.

Record DirectoryMeta : Type := mkDirectoryMeta {
  Version : Z;
  Path : string;
  Name : string;
  CreationTime : Z;
  ModificationTime : Z;
  AccessTime : Z
}.

Record RawDirectoryMetadata : Type := mkRawDirectoryMetadata {
  Meta : DirectoryMeta;
  FileOrDirNames : option (list string)
}.

(** [FileMetadata]; the fields after [blocksReference] are the ones only
    some call sites fill in ([mode] in file/handler, [podAddress],
    [podName] and [sharedPassword] in file/file). *)
Record FileMetadata : Type := mkFileMetadata {
  version : Z;
  filePath : string;
  fileName : string;
  fileSize : nat;
  blockSize : nat;
  contentType : string;
  compression : string;
  creationTime : Z;
  accessTime : Z;
  modificationTime : Z;
  blocksReference : Reference;
  mode : option Z;
  podAddress : option EthAddress;
  podName : option string;
  sharedPassword : option string
}.

(** One entry of the block manifest (file/types). *)
Record Block : Type := mkBlock {
  block_name : option string;
  block_size : nat;
  block_compressedSize : nat;
  block_reference : Reference
}.

Record Blocks : Type := mkBlocks { blocks : list Block }.

(** What [JSON.parse] can yield on a stored payload: the metadata are
    duck-typed JSON objects, told apart by the [assert*] helpers. *)
Inductive Document : Type :=
  | DocDirectory (d : RawDirectoryMetadata)
  | DocFile (f : FileMetadata)
  | DocBlocks (b : Blocks)
  | DocPods (pods : list Pod).

(** [extractPathInfo] result (file/utils). *)
Record PathInfo : Type := mkPathInfo { pi_path : string; pi_filename : string }.

(** An HD wallet node: [address] is derived from the key. *)
Record HDNode : Type := mkHDNode { privateKey : PrivateKey }.

(* ===================================================================== *)
(** * Collaborators *)
(* ===================================================================== *)

(** Pure functions of the repository and of its libraries that are not
    under src, taken as parameters: the cipher (utils/encryption), JSON
    and the adapters built on it, hashing, key derivation, the epoch
    arithmetic (feed/lookup/epoch), path handling (directory/utils,
    file/utils), input validation and constants. *)
Class Externals : Type := {
  encryptBytes : PodPasswordBytes -> bytes -> bytes;
  decryptBytes : PodPasswordBytes -> bytes -> option bytes;
  (** [stringToBytes(JSON.stringify(_))] and its inverse direction. *)
  stringify : Document -> bytes;
  stringToBytes : string -> bytes;
  parse : bytes -> option Document;
  bmtHashString : string -> bytes;
  (** address under which the store files uploaded data *)
  dataAddress : bytes -> Reference;
  getBmtDataAddress : bytes -> Reference;
  socAddress : EthAddress -> Identifier -> Reference;
  addressOfKey : PrivateKey -> EthAddress;
  getWalletByIndex : PrivateKey -> nat -> HDNode;
  HIGHEST_LEVEL : Z;
  epoch_getNextEpoch : Epoch -> Z -> Epoch;
  getFirstEpoch : Z -> Epoch;
  (** [getNextEpoch] of feed/lookup/utils, on an optional epoch *)
  getNextEpoch : option Epoch -> Epoch;
  (** the reading of the clock, the same throughout one operation *)
  getUnixTimestamp : Z;
  (** variadic [combine(...parts)] and [splitPath] of directory/utils *)
  combine : list string -> string;
  splitPath : string -> list string;
  extractPathInfo : string -> PathInfo;
  getPathParts : string -> list string;
  getPathFromParts : list string -> nat -> string;
  assertFullPathWithName : string -> Outcome unit;
  assertPartsLength : list string -> Outcome unit;
  assertDirectoryName : string -> Outcome unit;
  META_VERSION : Z;
  DEFAULT_FILE_MODE : Z;
  DEFAULT_BLOCK_SIZE : nat;
  DEFAULT_CONTENT_TYPE : string;
  CHUNK_ALREADY_EXISTS_ERROR : string;
  MAX_POD_NAME_LENGTH : nat;
  MAX_PODS_COUNT : nat
}.

(** The store client: bee-js [Bee], as the methods the code calls. *)
Record SOCWriter (W : Type) : Type := mkSOCWriter {
  soc_upload : string -> Identifier -> bytes -> M W Reference
}.
Arguments soc_upload {W} _ _ _ _.

Record Bee (W : Type) : Type := mkBee {
  bee_uploadData : string -> bytes -> M W Reference;
  bee_downloadData : Reference -> M W bytes;
  (** [lookup(0, (epoch, time) => bee.downloadChunk(..))]: feed/lookup is
      not under src; one request answering with the latest version. *)
  bee_lookupChunk : EthAddress -> bytes -> M W LookupAnswer;
  makeSOCWriter : PrivateKey -> SOCWriter W
}.
Arguments bee_uploadData {W} _ _ _.
Arguments bee_downloadData {W} _ _.
Arguments bee_lookupChunk {W} _ _ _.
Arguments makeSOCWriter {W} _ _.

Record Connection (W : Type) : Type := mkConnection {
  bee : Bee W;
  postageBatchId : string
}.
Arguments bee {W} _.
Arguments postageBatchId {W} _.

Record AccountData (W : Type) : Type := mkAccountData {
  connection : Connection W;
  wallet : option HDNode;
  seed : PrivateKey
}.
Arguments connection {W} _.
Arguments wallet {W} _.
Arguments seed {W} _.

Definition address `{Externals} (w : HDNode) : EthAddress :=
  addressOfKey (privateKey w).

(** [prepareEthAddress] / [preparePrivateKey] (utils/wallet) only change
    the representation. *)
Definition prepareEthAddress (a : EthAddress) : EthAddress := a.
Definition preparePrivateKey (k : PrivateKey) : PrivateKey := k.

(* ===================================================================== *)
(** * utils/error *)
(* ===================================================================== *)

(** Modelled from the spec: utils/error is not under src.  [getError]
    yields the thrown value when it is an [Error]; [errorStartWith]
    tests the beginning of its message. *)
Definition getError (e : Thrown) : option string :=
  match e with
  | ErrorObj message => Some message
  | NonError _ => None
  end.

Definition errorStartWith (e : Thrown) (text : string) : bool :=
  match getError e with
  | Some message => String.prefix text message
  | None => false
  end.

(** The double-quote character of the messages. *)
Definition quote : string := String (ascii_of_nat 34) EmptyString.

(** [x || y] on strings: the empty string is falsy. *)
Definition js_or (x : option string) (y : string) : string :=
  match x with
  | Some s => if decide (s = EmptyString) then y else s
  | None => y
  end.

(* ===================================================================== *)
(** * feed/api *)
(* ===================================================================== *)

(** The version with [writeFeedDataRaw] (private key argument, store
    conflicts absorbed). *)
Module FeedRaw.
Section FeedRaw.
Context `{Externals} {W : Type}.

Definition getFeedData (bee : Bee W) (topic : string) (address : EthAddress)
  : M W LookupAnswer :=
  let topicHash := bmtHashString topic in
  bee_lookupChunk bee address topicHash.

Definition writeFeedDataRaw (connection : Connection W) (topic : string)
  (data : bytes) (privateKey : PrivateKey) (epoch : option Epoch)
  : M W Reference :=
  let epoch :=
    match epoch with
    | Some e => e
    | None => mkEpoch HIGHEST_LEVEL getUnixTimestamp
    end in
  let topicHash := bmtHashString topic in
  let id := getId topicHash (time epoch) (level epoch) in
  let socWriter := makeSOCWriter (bee connection) privateKey in
  tryCatch
    (soc_upload socWriter (postageBatchId connection) id data)
    (fun e =>
       if errorStartWith e CHUNK_ALREADY_EXISTS_ERROR
       then ret (getBmtDataAddress data)
       else throw (ErrorObj (js_or (getError e) "Unknown error"))).

Definition writeFeedData (connection : Connection W) (topic : string)
  (data : bytes) (privateKey : PrivateKey) (podPassword : PodPasswordBytes)
  (epoch : option Epoch) : M W Reference :=
  let data := encryptBytes podPassword data in
  writeFeedDataRaw connection topic data privateKey epoch.

End FeedRaw.
End FeedRaw.

(** src/feed/api.ts: the version taking the owner's wallet. *)
Module FeedApi.
Section FeedApi.
Context `{Externals} {W : Type}.

Definition DELETE_FEED_MAGIC_WORD : string := "__Fair__".

Definition getFeedData (bee : Bee W) (topic : string) (address : EthAddress)
  : M W LookupAnswer :=
  let topicHash := bmtHashString topic in
  bee_lookupChunk bee address topicHash.

Definition writeFeedData (connection : Connection W) (topic : string)
  (data : bytes) (wallet : HDNode) (podPassword : PodPasswordBytes)
  (epoch : option Epoch) : M W Reference :=
  let epoch :=
    match epoch with
    | Some e => e
    | None => mkEpoch HIGHEST_LEVEL getUnixTimestamp
    end in
  let data := encryptBytes podPassword data in
  let topicHash := bmtHashString topic in
  let id := getId topicHash (time epoch) (level epoch) in
  let socWriter := makeSOCWriter (bee connection) (privateKey wallet) in
  soc_upload socWriter (postageBatchId connection) id data.

End FeedApi.
End FeedApi.

(* ===================================================================== *)
(** * content-items *)
(* ===================================================================== *)

Module ContentItems.
Section ContentItems.
Context `{Externals} {W : Type}.

(** ** content-items/utils *)

Record RawMetadataWithEpoch : Type := mkRawMetadataWithEpoch {
  metadata : RawDirectoryMetadata + FileMetadata;
  epoch : Epoch
}.

(** Modelled from the spec: content-items/utils is not under src.
    [getRawMetadata] fetches the latest version stored under the path,
    decrypts it with the pod password and decodes it as directory or file
    metadata (4.5: fails when the path has no metadata). *)
Definition getRawMetadata (bee : Bee W) (path : string) (address : EthAddress)
  (podPassword : PodPasswordBytes) : M W RawMetadataWithEpoch :=
  let* feedData := FeedRaw.getFeedData bee path address in
  match decryptBytes podPassword (la_data feedData) with
  | None => throw (ErrorObj "Decryption failed")
  | Some data =>
      match parse data with
      | Some (DocDirectory d) => ret (mkRawMetadataWithEpoch (inl d) (la_epoch feedData))
      | Some (DocFile f) => ret (mkRawMetadataWithEpoch (inr f) (la_epoch feedData))
      | _ => throw (ErrorObj "Invalid metadata")
      end
  end.

(** Modelled from the spec: the direct existence probe of 4.5, a fetch of
    the full path that succeeds exactly when something is stored there. *)
Definition isItemExists (bee : Bee W) (fullPath : string) (address : EthAddress)
  : M W bool :=
  tryCatch
    (let* _ := FeedRaw.getFeedData bee fullPath address in ret true)
    (fun _ => ret false).

Definition alreadyUploaded (contentType fullPath : string) : string :=
  contentType +:+ " " +:+ quote +:+ fullPath +:+ quote
    +:+ " already uploaded to the network".

Definition assertItemIsNotExists (contentType : string) (bee : Bee W)
  (fullPath : string) (address : EthAddress) : M W unit :=
  let* exists_ := isItemExists bee fullPath address in
  if (exists_ : bool)
  then throw (ErrorObj (alreadyUploaded contentType fullPath))
  else ret tt.

(** Modelled from the spec: the optional lookup of the path about to be
    written (4.1, write side). *)
Definition getCreationPathInfo (bee : Bee W) (fullPath : string)
  (address : EthAddress) : M W (option LookupAnswer) :=
  tryCatch
    (let* answer := FeedRaw.getFeedData bee fullPath address in ret (Some answer))
    (fun _ => ret None).

(** ** directory/utils, directory/adapter *)

Definition assertRawDirectoryMetadata (value : RawDirectoryMetadata + FileMetadata)
  : Outcome RawDirectoryMetadata :=
  match value with
  | inl d => Returns d
  | inr _ => Throws (ErrorObj "Invalid raw directory metadata")
  end.

Definition assertRawFileMetadata (value : RawDirectoryMetadata + FileMetadata)
  : Outcome FileMetadata :=
  match value with
  | inr f => Returns f
  | inl _ => Throws (ErrorObj "Invalid raw file metadata")
  end.

Definition getRawDirectoryMetadataBytes (data : RawDirectoryMetadata) : bytes :=
  stringify (DocDirectory data).

(** ** content-items/handler *)

Definition FILE_TOKEN : string := "_F_".
Definition DIRECTORY_TOKEN : string := "_D_".

Definition setModificationTime (m : DirectoryMeta) (t : Z) : DirectoryMeta :=
  mkDirectoryMeta (Version m) (Path m) (Name m) (CreationTime m) t (AccessTime m).

Definition addEntryToDirectory (connection : Connection W) (wallet : HDNode)
  (podPassword : PodPasswordBytes) (parentPath entryPath : string)
  (isFile : bool) : M W Reference :=
  if decide (parentPath = EmptyString) then throw (ErrorObj "Incorrect parent path")
  else if decide (entryPath = EmptyString) then throw (ErrorObj "Incorrect entry path")
  else
    let address := prepareEthAddress (address wallet) in
    let itemText := if isFile then "File" else "Directory" in
    let fullPath := combine [parentPath; entryPath] in
    let* _ := assertItemIsNotExists itemText (bee connection) fullPath address in
    let* found :=
      tryCatch
        (let* metadataWithEpoch :=
           getRawMetadata (bee connection) parentPath address podPassword in
         let* parentData :=
           liftOutcome (assertRawDirectoryMetadata (metadata metadataWithEpoch)) in
         ret (metadataWithEpoch, parentData))
        (fun _ => throw (ErrorObj "Parent directory does not exist")) in
    let metadataWithEpoch := fst found in
    let parentData := snd found in
    let itemToAdd := (if isFile then FILE_TOKEN else DIRECTORY_TOKEN) +:+ entryPath in
    let names := default [] (FileOrDirNames parentData) in
    if bool_decide (itemToAdd ∈ names)
    then throw (ErrorObj (itemText +:+ " already listed in the parent directory list"))
    else
      let names := names ++ [itemToAdd] in
      let parentData :=
        mkRawDirectoryMetadata
          (setModificationTime (Meta parentData) getUnixTimestamp) (Some names) in
      FeedRaw.writeFeedData connection parentPath
        (getRawDirectoryMetadataBytes parentData) (privateKey wallet) podPassword
        (Some (epoch_getNextEpoch (epoch metadataWithEpoch) getUnixTimestamp)).

Definition removeEntryFromDirectory (connection : Connection W) (wallet : HDNode)
  (podPassword : PodPasswordBytes) (parentPath entryPath : string)
  (isFile : bool) : M W Reference :=
  let* metadataWithEpoch :=
    getRawMetadata (bee connection) parentPath
      (prepareEthAddress (address wallet)) podPassword in
  let* parentData :=
    liftOutcome (assertRawDirectoryMetadata (metadata metadataWithEpoch)) in
  let itemToRemove := (if isFile then FILE_TOKEN else DIRECTORY_TOKEN) +:+ entryPath in
  let parentData :=
    match FileOrDirNames parentData with
    | Some names =>
        mkRawDirectoryMetadata (Meta parentData)
          (Some (filter (fun name => name ≠ itemToRemove) names))
    | None => parentData
    end in
  FeedRaw.writeFeedData connection parentPath
    (getRawDirectoryMetadataBytes parentData) (privateKey wallet) podPassword
    (Some (epoch_getNextEpoch (epoch metadataWithEpoch) getUnixTimestamp)).

End ContentItems.
End ContentItems.

(* ===================================================================== *)
(** * directory/handler *)
(* ===================================================================== *)

(** Modelled from the spec: content-items/directory-item and file-item
    are not under src.  An item of a directory tree carries the metadata
    record it was made from; a directory item also carries its content,
    empty when the item is made ([fromRawDirectoryMetadata]). *)
#[warnings="-register-all"] Inductive Item : Type :=
  | FileItem (raw : FileMetadata)
  | DirectoryItem (raw : RawDirectoryMetadata) (content : list Item).

Definition item_content (item : Item) : list Item :=
  match item with
  | DirectoryItem _ content => content
  | FileItem _ => []
  end.

(** [String.prototype.substring(n)]. *)
Definition substringFrom (n : nat) (s : string) : string :=
  String.substring n (String.length s - n) s.

Module DirectoryHandler.
Section DirectoryHandler.
Context `{Externals} {W : Type}.

(** [createRawDirectoryMetadata] (pod/utils, not under src): the bytes of
    a directory record with no children yet. *)
Definition createRawDirectoryMetadata (version : Z) (path name : string)
  (creationTime modificationTime accessTime : Z) : bytes :=
  ContentItems.getRawDirectoryMetadataBytes
    (mkRawDirectoryMetadata
       (mkDirectoryMeta version path name creationTime modificationTime accessTime)
       None).

Definition createDirectoryInfo (connection : Connection W) (path name : string)
  (podPassword : PodPasswordBytes) (privateKey : PrivateKey) : M W Reference :=
  let now := getUnixTimestamp in
  let metadata := createRawDirectoryMetadata META_VERSION path name now now now in
  FeedRaw.writeFeedData connection (combine (splitPath path ++ [name])) metadata
    privateKey podPassword None.

Definition createRootDirectory (connection : Connection W)
  (podPassword : PodPasswordBytes) (privateKey : PrivateKey) : M W Reference :=
  createDirectoryInfo connection EmptyString "/" podPassword privateKey.

Definition createDirectory (connection : Connection W) (fullPath : string)
  (podWallet : HDNode) (podPassword : PodPasswordBytes) : M W unit :=
  let parts := getPathParts fullPath in
  let* _ := liftOutcome (assertPartsLength parts) in
  let name := List.last parts EmptyString in
  let* _ := liftOutcome (assertDirectoryName name) in
  let privateKey := preparePrivateKey (privateKey podWallet) in
  let parentPath := getPathFromParts parts 1 in
  let* _ :=
    ContentItems.addEntryToDirectory connection podWallet podPassword parentPath
      name false in
  let* _ := createDirectoryInfo connection parentPath name podPassword privateKey in
  ret tt.

(** The loop of [readDirectory] over the listed names.  [descend] is the
    recursive call of [readDirectory] on a subdirectory; it answers [None]
    when the depth allowed to the recursion is used up. *)
Fixpoint readItems (bee : Bee W) (path : string) (address : EthAddress)
  (podPassword : PodPasswordBytes) (isRecursive : bool)
  (descend : string -> M W (option Item)) (names : list string) (content : list Item)
  : M W (option (list Item)) :=
  match names with
  | [] => ret (Some content)
  | item :: rest =>
      let isFile := String.prefix ContentItems.FILE_TOKEN item in
      let isDirectory := String.prefix ContentItems.DIRECTORY_TOKEN item in
      if isFile then
        let item :=
          combine (splitPath path
                     ++ [substringFrom (String.length ContentItems.FILE_TOKEN) item]) in
        let* raw := ContentItems.getRawMetadata bee item address podPassword in
        let* data :=
          liftOutcome (ContentItems.assertRawFileMetadata (ContentItems.metadata raw)) in
        readItems bee path address podPassword isRecursive descend rest
          (content ++ [FileItem data])
      else if isDirectory then
        let item :=
          combine (splitPath path
                     ++ [substringFrom (String.length ContentItems.DIRECTORY_TOKEN) item]) in
        let* raw := ContentItems.getRawMetadata bee item address podPassword in
        let* data :=
          liftOutcome (ContentItems.assertRawDirectoryMetadata (ContentItems.metadata raw)) in
        if isRecursive then
          let* sub := descend item in
          match sub with
          | None => ret None
          | Some sub =>
              readItems bee path address podPassword isRecursive descend rest
                (content ++ [DirectoryItem data (item_content sub)])
          end
        else
          readItems bee path address podPassword isRecursive descend rest
            (content ++ [DirectoryItem data []])
      else readItems bee path address podPassword isRecursive descend rest content
  end.

(** [readDirectory].  This file and pod/types spell the fields of
    [RawDirectoryMetadata] as [meta] and [fileOrDirNames], content-items/handler
    as [Meta] and [FileOrDirNames]: they are the fields of the one record
    type, named here as content-items/handler names them.  The recursion
    follows the tree stored on the network, so the model bounds its depth
    by [fuel]: [None] is the answer of a read that needed more. *)
Fixpoint readDirectory (fuel : nat) (bee : Bee W) (path : string)
  (address : EthAddress) (podPassword : PodPasswordBytes) (isRecursive : bool)
  : M W (option Item) :=
  match fuel with
  | 0 => ret None
  | S fuel' =>
      let* raw := ContentItems.getRawMetadata bee path address podPassword in
      let* parentRawDirectoryMetadata :=
        liftOutcome (ContentItems.assertRawDirectoryMetadata (ContentItems.metadata raw)) in
      match FileOrDirNames parentRawDirectoryMetadata with
      | None => ret (Some (DirectoryItem parentRawDirectoryMetadata []))
      | Some names =>
          let* content :=
            readItems bee path address podPassword isRecursive
              (fun item => readDirectory fuel' bee item address podPassword isRecursive)
              names [] in
          ret (DirectoryItem parentRawDirectoryMetadata <$> content)
      end
  end.

End DirectoryHandler.
End DirectoryHandler.

(* ===================================================================== *)
(** * pod/utils, pod/api, account/utils *)
(* ===================================================================== *)

(** [String.prototype.trim], on the ASCII white space characters (tab,
    line feed, vertical tab, form feed, carriage return, space). *)
Definition is_whitespace (c : ascii) : bool :=
  let n := nat_of_ascii c in
  ((n =? 9) || (n =? 10) || (n =? 11) || (n =? 12) || (n =? 13) || (n =? 32))%nat.

Fixpoint trimStart (s : string) : string :=
  match s with
  | EmptyString => EmptyString
  | String c s' => if is_whitespace c then trimStart s' else s
  end.

Fixpoint trimEnd (s : string) : string :=
  match s with
  | EmptyString => EmptyString
  | String c s' =>
      match trimEnd s' with
      | EmptyString => if is_whitespace c then EmptyString else String c EmptyString
      | t => String c t
      end
  end.

Definition trim (s : string) : string := trimEnd (trimStart s).

Fixpoint includes (c : ascii) (s : string) : bool :=
  match s with
  | EmptyString => false
  | String c' s' => if decide (c = c') then true else includes c s'
  end.

Module PodUtils.
Section PodUtils.
Context `{Externals} {W : Type}.

Definition POD_TOPIC : string := "Pods".

Record PodsInfo : Type := mkPodsInfo {
  pods : list Pod;
  lookupAnswer : option LookupAnswer
}.

(** Modelled from the spec: account/utils and utils/type are not under
    src.  An account is usable when its wallet is set; the three
    assertions differ by their call sites only. *)
Definition assertWallet (value : option HDNode) : Outcome HDNode :=
  match value with
  | Some w => Returns w
  | None => Throws (ErrorObj "Account wallet not found")
  end.

Definition assertActiveAccount (accountData : AccountData W) : Outcome HDNode :=
  assertWallet (wallet accountData).

Definition assertAccount (accountData : AccountData W) : Outcome HDNode :=
  assertWallet (wallet accountData).

(** Modelled from the spec: pod/utils is not under src.  Pod names are
    non-empty, at most [MAX_POD_NAME_LENGTH] long and free of commas
    (section 6); the messages are the ones the tests expect. *)
Definition assertPodName (value : string) : Outcome unit :=
  if decide (String.length value = 0) then Throws (ErrorObj "Pod name is too short")
  else if decide (MAX_POD_NAME_LENGTH < String.length value)
  then Throws (ErrorObj "Pod name is too long")
  else if includes "," value then Throws (ErrorObj "Pod name cannot contain commas")
  else Returns tt.

(** Modelled from the spec: [TooManyPods] above the cap (4.4). *)
Definition assertPodsLength (value : nat) : Outcome unit :=
  if decide (MAX_PODS_COUNT < value)
  then Throws (ErrorObj "The maximum number of pods for the account has been reached")
  else Returns tt.

Definition podExists (name : string) : string :=
  "Pod with name " +:+ quote +:+ name +:+ quote +:+ " already exists".

Definition podDoesNotExist (name : string) : string :=
  "Pod " +:+ quote +:+ name +:+ quote +:+ " does not exist".

(** Modelled from the spec: [AlreadyExists] when a pod of the list
    carries the name (4.4). *)
Definition assertPodNameAvailable (pods : list Pod) (name : string) : Outcome unit :=
  if existsb (fun item => bool_decide (pod_name item = name)) pods
  then Throws (ErrorObj (podExists name))
  else Returns tt.

Definition podListToBytes (pods : list Pod) : bytes := stringify (DocPods pods).

(** Modelled from the spec: pod/api is not under src.  [getPodsList]
    fetches and decodes the pod-list topic of the account; an account
    without a list has no pods, which is not an error (4.4). *)
Definition getPodsList (bee : Bee W) (address : EthAddress) : M W PodsInfo :=
  let* found :=
    tryCatch
      (let* answer := FeedRaw.getFeedData bee POD_TOPIC address in ret (Some answer))
      (fun _ => ret None) in
  match found with
  | None => ret (mkPodsInfo [] None)
  | Some answer =>
      match parse (la_data answer) with
      | Some (DocPods pods) => ret (mkPodsInfo pods (Some answer))
      | _ => throw (ErrorObj "Invalid pods list")
      end
  end.

(** Modelled from the spec: the pod of that name in the list of the
    account, with the wallet derived for its index (4.3). *)
Definition getExtendedPodsListByAccountData (accountData : AccountData W)
  (podName : string) : M W (HDNode * Pod * PodPasswordBytes) :=
  let* wallet := liftOutcome (assertActiveAccount accountData) in
  let* podsInfo :=
    getPodsList (bee (connection accountData)) (prepareEthAddress (address wallet)) in
  match find (fun item => bool_decide (pod_name item = podName)) (pods podsInfo) with
  | None => throw (ErrorObj (podDoesNotExist podName))
  | Some pod =>
      match pod_password pod with
      | None => throw (ErrorObj "Expected a pod password bytes")
      | Some password =>
          ret (getWalletByIndex (seed accountData) (pod_index pod), pod, password)
      end
  end.

(** [getWritablePodInfo] of directory/directory resolves the pod the same
    way. *)
Definition getWritablePodInfo (accountData : AccountData W) (podName : string)
  : M W (HDNode * Pod * PodPasswordBytes) :=
  getExtendedPodsListByAccountData accountData podName.

(** Modelled from the spec: [getReadablePodInfo] of pod/utils is not under
    src; a pod is resolved by its name in the list of the account (4.3),
    as for writing, and the address it answers with is the one of the pod
    wallet. *)
Definition getReadablePodInfo (accountData : AccountData W) (podName : string)
  : M W (HDNode * Pod * PodPasswordBytes) :=
  getExtendedPodsListByAccountData accountData podName.

End PodUtils.
End PodUtils.

(* ===================================================================== *)
(** * pod/personal-storage *)
(* ===================================================================== *)

Module PersonalStorage.
Section PersonalStorage.
Context `{Externals} {W : Type}.

(** This file calls [writeFeedData] with five arguments (no pod
    password) and [createRootDirectory] with two: the writer without
    encryption, and a root record written without a pod password. *)
Definition writeFeedData (connection : Connection W) (topic : string)
  (data : bytes) (privateKey : PrivateKey) (epoch : option Epoch) : M W Reference :=
  FeedRaw.writeFeedDataRaw connection topic data privateKey epoch.

(** Modelled from the spec: the root directory record (path empty, name
    "/") written under the identity of the new pod (4.4). *)
Definition createRootDirectory (connection : Connection W)
  (privateKey : PrivateKey) : M W Reference :=
  let now := getUnixTimestamp in
  writeFeedData connection (combine (splitPath EmptyString ++ ["/"]))
    (DirectoryHandler.createRawDirectoryMetadata META_VERSION EmptyString "/" now now now)
    privateKey None.

Definition list_ (accountData : AccountData W) : M W (list Pod) :=
  let* wallet := liftOutcome (PodUtils.assertActiveAccount accountData) in
  let* podsInfo :=
    PodUtils.getPodsList (bee (connection accountData))
      (prepareEthAddress (address wallet)) in
  ret (PodUtils.pods podsInfo).

Definition create (accountData : AccountData W) (name : string) : M W Pod :=
  let* wallet := liftOutcome (PodUtils.assertActiveAccount accountData) in
  let name := trim name in
  let* _ := liftOutcome (PodUtils.assertPodName name) in
  let* podsInfo :=
    PodUtils.getPodsList (bee (connection accountData))
      (prepareEthAddress (address wallet)) in
  let nextIndex := length (PodUtils.pods podsInfo) + 1 in
  let* _ := liftOutcome (PodUtils.assertPodsLength nextIndex) in
  let* _ := liftOutcome (PodUtils.assertPodNameAvailable (PodUtils.pods podsInfo) name) in
  let currentTime := getUnixTimestamp in
  let epoch :=
    match PodUtils.lookupAnswer podsInfo with
    | Some answer => epoch_getNextEpoch (la_epoch answer) currentTime
    | None => getFirstEpoch currentTime
    end in
  let newPod := mkPod name nextIndex None in
  let pods := PodUtils.pods podsInfo ++ [newPod] in
  let allPodsData := PodUtils.podListToBytes pods in
  let* _ :=
    writeFeedData (connection accountData) PodUtils.POD_TOPIC allPodsData
      (privateKey wallet) (Some epoch) in
  let podWallet := getWalletByIndex (privateKey wallet) nextIndex in
  let* _ := createRootDirectory (connection accountData) (privateKey podWallet) in
  ret newPod.

Definition delete (accountData : AccountData W) (name : string) : M W unit :=
  let* wallet := liftOutcome (PodUtils.assertActiveAccount accountData) in
  let name := trim name in
  let* podsInfo :=
    PodUtils.getPodsList (bee (connection accountData))
      (prepareEthAddress (address wallet)) in
  let* _ := liftOutcome (PodUtils.assertPodsLength (length (PodUtils.pods podsInfo))) in
  match find (fun item => bool_decide (pod_name item = name)) (PodUtils.pods podsInfo) with
  | None => throw (ErrorObj (PodUtils.podDoesNotExist name))
  | Some pod =>
      let podsFiltered :=
        filter (fun item => pod_name item ≠ name) (PodUtils.pods podsInfo) in
      let allPodsData := PodUtils.podListToBytes podsFiltered in
      match PodUtils.lookupAnswer podsInfo with
      | None => throw (ErrorObj "Cannot read properties of undefined")
      | Some answer =>
          let* _ :=
            writeFeedData (connection accountData) PodUtils.POD_TOPIC allPodsData
              (privateKey wallet)
              (Some (epoch_getNextEpoch (la_epoch answer) getUnixTimestamp)) in
          ret tt
      end
  end.

End PersonalStorage.
End PersonalStorage.

(* ===================================================================== *)
(** * file/utils, file/adapter *)
(* ===================================================================== *)

(** [Uint8Array.prototype.slice(start, end)] for indices within range
    or beyond the end. *)
Definition slice (data : bytes) (start end_ : nat) : bytes :=
  drop start (take end_ data).

(** [Math.ceil(a / b)] for a positive integer [b]. *)
Definition ceilDiv (a b : nat) : nat := (a + (b - 1)) / b.

(** [TypedArray.prototype.set(data, offset)]: a [RangeError] when the
    source does not fit. *)
Definition Uint8Array_set (result data : bytes) (offset : nat) : Outcome bytes :=
  if decide (offset + length data <= length result)
  then Returns (take offset result ++ data ++ drop (offset + length data) result)
  else Throws (ErrorObj "offset is out of bounds").

(** [new Uint8Array(n)]: zero-filled. *)
Definition new_Uint8Array (n : nat) : bytes := repeat x00 n.

Module FileUtils.
Section FileUtils.
Context `{Externals} {W : Type}.

Record DataUploadOptions : Type := mkDataUploadOptions {
  opt_blockSize : option nat;
  opt_contentType : option string
}.

(** Modelled from the spec: file/utils is not under src.  [uploadBytes]
    hands the bytes it is given to the store (section 6, [putChunk]). *)
Definition uploadBytes (connection : Connection W) (data : bytes) : M W Reference :=
  bee_uploadData (bee connection) (postageBatchId connection) data.

(** Modelled from the spec: the manifest is fetched by its reference and
    decoded (4.6, download). *)
Definition downloadBlocksManifest (bee : Bee W) (reference : Reference) : M W Blocks :=
  let* data := bee_downloadData bee reference in
  match parse data with
  | Some (DocBlocks b) => ret b
  | _ => throw (ErrorObj "Incorrect blocks manifest")
  end.

(** file/adapter: the manifest and the file metadata as bytes. *)
Definition blocksToManifestBytes (b : Blocks) : bytes := stringify (DocBlocks b).

Definition getFileMetadataRawBytes (meta : FileMetadata) : bytes :=
  stringify (DocFile meta).

Definition rawFileMetadataToFileMetadata (data : FileMetadata) : FileMetadata := data.

End FileUtils.
End FileUtils.

(* ===================================================================== *)
(** * file/handler *)
(* ===================================================================== *)

Module FileHandler.
Section FileHandler.
Context `{Externals} {W : Type}.

Definition FILE_TOKEN : string := "_F_".
Definition DIRECTORY_TOKEN : string := "_D_".

Definition getFileMetadata (bee : Bee W) (path : string) (address : EthAddress)
  (podPassword : PodPasswordBytes) : M W FileMetadata :=
  let* raw := ContentItems.getRawMetadata bee path address podPassword in
  let* data := liftOutcome (ContentItems.assertRawFileMetadata (ContentItems.metadata raw)) in
  ret (FileUtils.rawFileMetadataToFileMetadata data).

(** The second loop of [downloadData]: one fetch per block, in the order
    of the manifest, each written at the running offset. *)
Fixpoint downloadBlocks (bee : Bee W) (blocks : list Block) (result : bytes)
  (offset : nat) : M W bytes :=
  match blocks with
  | [] => ret result
  | block :: rest =>
      let* data := bee_downloadData bee (block_reference block) in
      let* result := liftOutcome (Uint8Array_set result data offset) in
      downloadBlocks bee rest result (offset + length data)
  end.

Definition downloadData (bee : Bee W) (fullPath : string) (address : EthAddress)
  (podPassword : PodPasswordBytes) : M W bytes :=
  let* fileMetadata := getFileMetadata bee fullPath address podPassword in
  if decide (compression fileMetadata ≠ EmptyString)
  then throw (ErrorObj "Compressed data is not supported yet")
  else
    let* manifest := FileUtils.downloadBlocksManifest bee (blocksReference fileMetadata) in
    let totalLength :=
      fold_left (fun total block => total + block_size block) (blocks manifest) 0 in
    let result := new_Uint8Array totalLength in
    downloadBlocks bee (blocks manifest) result 0.

(** [padStart] and [Number.prototype.toString] for a natural number. *)
Definition padStart (s : string) (targetLength : nat) (c : ascii) : string :=
  String.string_of_list_ascii (repeat c (targetLength - String.length s)) +:+ s.

Definition toString (n : nat) : string :=
  DecimalString.NilEmpty.string_of_uint (Nat.to_uint n).

Definition generateBlockName (blockNumber : nat) : string :=
  "block-" +:+ padStart (toString blockNumber) 5 "0".

(** The block loop of [uploadData]: [count] iterations remain, [i] is the
    loop index. *)
Fixpoint uploadBlocks (connection : Connection W) (data : bytes) (blockSize : nat)
  (count i : nat) (blocks : list Block) : M W (list Block) :=
  match count with
  | 0 => ret blocks
  | S count' =>
      let currentBlock := slice data (i * blockSize) ((i + 1) * blockSize) in
      let* result := FileUtils.uploadBytes connection currentBlock in
      uploadBlocks connection data blockSize count' (S i)
        (blocks ++ [mkBlock None (length currentBlock) (length currentBlock) result])
  end.

Definition uploadData (podName fullPath : string) (data : bytes + string)
  (accountData : AccountData W) (options : FileUtils.DataUploadOptions)
  : M W FileMetadata :=
  let* _ := liftOutcome (PodUtils.assertPodName podName) in
  let* _ := liftOutcome (assertFullPathWithName fullPath) in
  let* _ := liftOutcome (PodUtils.assertPodName podName) in
  let* _ := liftOutcome (PodUtils.assertWallet (wallet accountData)) in
  let blockSize := default DEFAULT_BLOCK_SIZE (FileUtils.opt_blockSize options) in
  let contentType := default DEFAULT_CONTENT_TYPE (FileUtils.opt_contentType options) in
  let data := match data with inl b => b | inr s => stringToBytes s end in
  let connection := connection accountData in
  let* found := PodUtils.getExtendedPodsListByAccountData accountData podName in
  let podWallet := fst (fst found) in
  let podPassword := snd found in
  let* fullPathInfo :=
    ContentItems.getCreationPathInfo (bee connection) fullPath
      (prepareEthAddress (address podWallet)) in
  let pathInfo := extractPathInfo fullPath in
  let now := getUnixTimestamp in
  let totalBlocks := ceilDiv (length data) blockSize in
  let* blocks := uploadBlocks connection data blockSize totalBlocks 0 [] in
  let manifestBytes := FileUtils.blocksToManifestBytes (mkBlocks blocks) in
  let* blocksReference := FileUtils.uploadBytes connection manifestBytes in
  let meta :=
    mkFileMetadata META_VERSION (pi_path pathInfo) (pi_filename pathInfo)
      (length data) blockSize contentType EmptyString now now now blocksReference
      (Some DEFAULT_FILE_MODE) None None None in
  let* _ :=
    ContentItems.addEntryToDirectory connection podWallet podPassword
      (pi_path pathInfo) (pi_filename pathInfo) true in
  let* _ :=
    FeedApi.writeFeedData connection fullPath (FileUtils.getFileMetadataRawBytes meta)
      podWallet podPassword (Some (getNextEpoch (la_epoch <$> fullPathInfo))) in
  ret meta.

End FileHandler.
End FileHandler.

(* ===================================================================== *)
(** * file/file and directory/directory *)
(* ===================================================================== *)

(** The capsule of a shared file.  Modelled from the spec: file/types is
    not under src; the capsule holds the metadata record of the file, with
    the password embedded in it (4.7). *)
Record FileShareInfo : Type := mkFileShareInfo { si_meta : FileMetadata }.

(** Helpers of the sharing methods that are not under src (utils/hex,
    file/utils), taken as parameters: the hexadecimal form of bytes, the
    check of a share reference, [JSON.stringify] of a capsule and the
    parsing that [getSharedFileInfo] applies to the fetched bytes, and the
    re-targeting of a metadata record to a pod, a parent path and a name. *)
Class SharingExternals : Type := {
  bytesToHex : bytes -> string;
  assertEncryptedReference : string -> Outcome unit;
  stringifyShareInfo : FileShareInfo -> string;
  parseShareInfo : bytes -> option FileShareInfo;
  updateFileMetadata :
    FileMetadata -> string -> string -> string -> EthAddress -> FileMetadata
}.

Module FileClass.
Section FileClass.
Context `{Externals} {W : Type}.

(** [defaultUploadOptions]: a block size of 1000000 bytes and an empty
    content type. *)
Definition defaultBlockSize : nat := 1000 * 1000.

Definition defaultUploadOptions : FileUtils.DataUploadOptions :=
  FileUtils.mkDataUploadOptions (Some defaultBlockSize) (Some EmptyString).

(** The block loop of [File.uploadData]: each block is encrypted with the
    pod password before [uploadBytes]. *)
Fixpoint uploadBlocks (connection : Connection W) (podPassword : PodPasswordBytes)
  (data : bytes) (blockSize : nat) (count i : nat) (blocks : list Block)
  : M W (list Block) :=
  match count with
  | 0 => ret blocks
  | S count' =>
      let currentBlock := slice data (i * blockSize) ((i + 1) * blockSize) in
      let* result :=
        FileUtils.uploadBytes connection (encryptBytes podPassword currentBlock) in
      uploadBlocks connection podPassword data blockSize count' (S i)
        (blocks ++ [mkBlock (Some (FileHandler.generateBlockName i))
                      (length currentBlock) (length currentBlock) result])
  end.

Definition uploadData (accountData : AccountData W) (podName fullPath : string)
  (data : bytes + string) (options : option FileUtils.DataUploadOptions)
  : M W FileMetadata :=
  (* options = { ...this.defaultUploadOptions, ...options } *)
  let blockSize :=
    default defaultBlockSize (options ≫= FileUtils.opt_blockSize) in
  let contentType :=
    default EmptyString (options ≫= FileUtils.opt_contentType) in
  let* _ := liftOutcome (PodUtils.assertAccount accountData) in
  let* _ := liftOutcome (PodUtils.assertPodName podName) in
  let* _ := liftOutcome (assertFullPathWithName fullPath) in
  let* _ := liftOutcome (PodUtils.assertPodName podName) in
  let data := match data with inl b => b | inr s => stringToBytes s end in
  let connection := connection accountData in
  let* found := PodUtils.getExtendedPodsListByAccountData accountData podName in
  let podWallet := fst (fst found) in
  let podPassword := snd found in
  (* podAddress, returned with the pod: the address of the pod wallet *)
  let podAddress := prepareEthAddress (address podWallet) in
  let pathInfo := extractPathInfo fullPath in
  let now := getUnixTimestamp in
  let blocksCount := ceilDiv (length data) blockSize in
  let* blocks := uploadBlocks connection podPassword data blockSize blocksCount 0 [] in
  let manifestBytes :=
    encryptBytes podPassword (FileUtils.blocksToManifestBytes (mkBlocks blocks)) in
  let* blocksReference := FileUtils.uploadBytes connection manifestBytes in
  let meta :=
    mkFileMetadata META_VERSION (pi_path pathInfo) (pi_filename pathInfo)
      (length data) blockSize contentType EmptyString now now now blocksReference
      None (Some podAddress) (Some podName) (Some EmptyString) in
  let* _ :=
    ContentItems.addEntryToDirectory connection podWallet podPassword
      (pi_path pathInfo) (pi_filename pathInfo) true in
  let* _ :=
    FeedRaw.writeFeedData connection fullPath (FileUtils.getFileMetadataRawBytes meta)
      (privateKey podWallet) podPassword None in
  ret meta.

Definition downloadData (accountData : AccountData W) (podName fullPath : string)
  : M W bytes :=
  let* _ := liftOutcome (PodUtils.assertAccount accountData) in
  let* _ := liftOutcome (PodUtils.assertPodName podName) in
  let* _ := liftOutcome (assertFullPathWithName fullPath) in
  let* _ := liftOutcome (PodUtils.assertPodName podName) in
  let* found := PodUtils.getExtendedPodsListByAccountData accountData podName in
  FileHandler.downloadData (bee (connection accountData)) fullPath
    (prepareEthAddress (address (fst (fst found)))) (snd found).

Definition delete (accountData : AccountData W) (podName fullPath : string)
  : M W unit :=
  let* _ := liftOutcome (PodUtils.assertAccount accountData) in
  let* _ := liftOutcome (assertFullPathWithName fullPath) in
  let* _ := liftOutcome (PodUtils.assertPodName podName) in
  let pathInfo := extractPathInfo fullPath in
  let* found := PodUtils.getExtendedPodsListByAccountData accountData podName in
  let* _ :=
    ContentItems.removeEntryFromDirectory (connection accountData) (fst (fst found))
      (snd found) (pi_path pathInfo) (pi_filename pathInfo) true in
  ret tt.

Context `{SharingExternals}.

(** Modelled from the spec: [createFileShareInfo] wraps the record, and
    [getSharedFileInfo] fetches the capsule and parses it (4.7). *)
Definition createFileShareInfo (meta : FileMetadata) : FileShareInfo :=
  mkFileShareInfo meta.

Definition getSharedFileInfo (bee : Bee W) (reference : string) : M W FileShareInfo :=
  let* data := bee_downloadData bee reference in
  match parseShareInfo data with
  | Some info => ret info
  | None => throw (ErrorObj "Incorrect shared file info")
  end.

(** [meta.shared_password = value]. *)
Definition setSharedPassword (meta : FileMetadata) (value : string) : FileMetadata :=
  mkFileMetadata (version meta) (filePath meta) (fileName meta) (fileSize meta)
    (blockSize meta) (contentType meta) (compression meta) (creationTime meta)
    (accessTime meta) (modificationTime meta) (blocksReference meta) (mode meta)
    (podAddress meta) (podName meta) (Some value).

Definition share (accountData : AccountData W) (podName fullPath : string)
  : M W Reference :=
  let* _ := liftOutcome (PodUtils.assertAccount accountData) in
  let* _ := liftOutcome (assertFullPathWithName fullPath) in
  let* _ := liftOutcome (PodUtils.assertPodName podName) in
  let connection := connection accountData in
  let* found := PodUtils.getExtendedPodsListByAccountData accountData podName in
  let podAddress := address (fst (fst found)) in
  let* raw :=
    ContentItems.getRawMetadata (bee connection) fullPath podAddress (snd found) in
  let* meta :=
    liftOutcome (ContentItems.assertRawFileMetadata (ContentItems.metadata raw)) in
  let meta := setSharedPassword meta (bytesToHex (snd found)) in
  let data := stringifyShareInfo (createFileShareInfo meta) in
  FileUtils.uploadBytes connection (stringToBytes data).

Definition getSharedInfo (accountData : AccountData W) (reference : string)
  : M W FileShareInfo :=
  let* _ := liftOutcome (PodUtils.assertAccount accountData) in
  let* _ := liftOutcome (assertEncryptedReference reference) in
  getSharedFileInfo (bee (connection accountData)) reference.

(** [options?.name] is the only option [saveShared] reads. *)
Definition saveShared (accountData : AccountData W) (podName parentPath : string)
  (reference : string) (name : option string) : M W FileMetadata :=
  let* _ := liftOutcome (PodUtils.assertPodName podName) in
  let* sharedInfo := getSharedInfo accountData reference in
  let connection := connection accountData in
  let* found := PodUtils.getExtendedPodsListByAccountData accountData podName in
  let podWallet := fst (fst found) in
  let podAddress := address podWallet in
  let meta := FileUtils.rawFileMetadataToFileMetadata (si_meta sharedInfo) in
  let fileName := default (fileName (si_meta sharedInfo)) name in
  let meta := updateFileMetadata meta podName parentPath fileName podAddress in
  let fullPath := combine [parentPath; fileName] in
  let* _ :=
    ContentItems.addEntryToDirectory connection podWallet (snd found) parentPath
      fileName true in
  let* _ :=
    FeedRaw.writeFeedData connection fullPath (FileUtils.getFileMetadataRawBytes meta)
      (privateKey podWallet) (snd found) None in
  ret meta.

End FileClass.
End FileClass.

(** Options of [Directory.upload]; each one is optional and has a default
    ([DEFAULT_UPLOAD_DIRECTORY_OPTIONS]). *)
Record UploadDirectoryOptions : Type := mkUploadDirectoryOptions {
  udo_uploadOptions : option FileUtils.DataUploadOptions;
  udo_isRecursive : option bool;
  udo_excludeDotFiles : option bool;
  udo_isIncludeDirectoryName : option bool
}.

(** What [Directory.upload] takes from directory/utils, directory/types,
    file/utils and shim/utils, none of them under src, as parameters: the
    descriptions of the local files (a [FileList] of the browser, or the
    files under a path of Node.js) with their relative paths, the reading
    of their content, the directories a list of relative paths requires,
    and the path a file is uploaded to.  The local files do not change
    during an upload, so reading them is a function. *)
Class UploadExternals : Type := {
  FileList : Type;
  BrowserFile : Type;
  FileInfo : Type;
  relativePath : FileInfo -> string;
  relativePathWithBase : FileInfo -> string;
  fileInfo_fullPath : FileInfo -> string;
  browserFile : FileInfo -> BrowserFile;
  isNode : bool;
  getNodeFileInfoList : string -> bool -> Outcome (list FileInfo);
  assertBrowserFilesWithPath : FileList -> Outcome unit;
  browserFileListToFileInfoList : FileList -> list FileInfo;
  filterBrowserRecursiveFiles : list FileInfo -> list FileInfo;
  filterDotFiles : list FileInfo -> list FileInfo;
  getDirectoriesToCreate : list string -> list string;
  assertNodeFileInfo : FileInfo -> Outcome unit;
  isBrowserFileInfo : FileInfo -> bool;
  getNodeFileContent : string -> Outcome bytes;
  readBrowserFileAsBytes : BrowserFile -> Outcome bytes;
  getUploadPath : FileInfo -> bool -> string;
  DEFAULT_UPLOAD_OPTIONS : FileUtils.DataUploadOptions
}.

(** [filesSource: string | FileList]. *)
Inductive FilesSource `{UploadExternals} : Type :=
  | NodePath (path : string)
  | BrowserFiles (files : FileList).

(** [String.prototype.includes]. *)
Definition includesString (needle s : string) : bool :=
  match String.index 0 needle s with
  | Some _ => true
  | None => false
  end.

Module DirectoryClass.
Section DirectoryClass.
Context `{Externals} {W : Type}.

Definition read (fuel : nat) (accountData : AccountData W) (podName path : string)
  (isRecursive : bool) : M W (option Item) :=
  let* _ := liftOutcome (PodUtils.assertAccount accountData) in
  let* _ := liftOutcome (PodUtils.assertPodName podName) in
  let* found := PodUtils.getReadablePodInfo accountData podName in
  DirectoryHandler.readDirectory fuel (bee (connection accountData)) path
    (address (fst (fst found))) (snd found) isRecursive.

Definition create (accountData : AccountData W) (podName fullPath : string)
  : M W unit :=
  let* _ := liftOutcome (PodUtils.assertAccount accountData) in
  let* _ := liftOutcome (PodUtils.assertPodName podName) in
  let* found := PodUtils.getWritablePodInfo accountData podName in
  DirectoryHandler.createDirectory (connection accountData) fullPath
    (fst (fst found)) (snd found).

Definition delete (accountData : AccountData W) (podName fullPath : string)
  : M W unit :=
  let* _ := liftOutcome (PodUtils.assertAccount accountData) in
  let* _ := liftOutcome (PodUtils.assertPodName podName) in
  let pathInfo := extractPathInfo fullPath in
  let connection := connection accountData in
  let* found := PodUtils.getWritablePodInfo accountData podName in
  let* _ :=
    ContentItems.removeEntryFromDirectory connection (fst (fst found)) (snd found)
      (pi_path pathInfo) (pi_filename pathInfo) false in
  ret tt.

Context `{UploadExternals}.

(** The first loop of [upload]: a failure of [createDirectory] is passed
    over when its message includes the text below, and thrown again as a
    new [Error] with the same message otherwise.  A thrown value that is no
    [Error] has no [message], and [includes] on it is a [TypeError]. *)
Definition ALREADY_LISTED : string := "already listed in the parent directory list".

Fixpoint createDirectories (connection : Connection W) (podWallet : HDNode)
  (podPassword : PodPasswordBytes) (directories : list string) : M W unit :=
  match directories with
  | [] => ret tt
  | directory :: rest =>
      let* _ :=
        tryCatch
          (DirectoryHandler.createDirectory connection directory podWallet podPassword)
          (fun e =>
             match e with
             | ErrorObj message =>
                 if includesString ALREADY_LISTED message then ret tt
                 else throw (ErrorObj message)
             | NonError _ =>
                 throw (ErrorObj "Cannot read properties of undefined (reading 'includes')")
             end) in
      createDirectories connection podWallet podPassword rest
  end.

(** The second loop of [upload]: the content of each file is read, then
    uploaded with [uploadData] of file/handler. *)
Fixpoint uploadFiles (accountData : AccountData W) (podName : string)
  (isNodePath isIncludeDirectoryName : bool) (uploadOptions : FileUtils.DataUploadOptions)
  (files : list FileInfo) : M W unit :=
  match files with
  | [] => ret tt
  | file :: rest =>
      let* bytes :=
        if isNodePath then
          let* _ := liftOutcome (assertNodeFileInfo file) in
          liftOutcome (getNodeFileContent (fileInfo_fullPath file))
        else if negb isNodePath && isBrowserFileInfo file then
          liftOutcome (readBrowserFileAsBytes (browserFile file))
        else throw (ErrorObj "Directory uploading: one of the files is not correct") in
      let uploadPath := getUploadPath file isIncludeDirectoryName in
      let* _ :=
        FileHandler.uploadData podName uploadPath (inl bytes) accountData uploadOptions in
      uploadFiles accountData podName isNodePath isIncludeDirectoryName uploadOptions rest
  end.

(** The files of [upload]: those under the path in Node.js
    ([getNodeFileInfoList(filesSource, Boolean(options.isRecursive))]), or
    the asserted [FileList] of the browser, without the nested ones when
    the upload is not recursive. *)
Definition sourceFiles (filesSource : FilesSource) (isRecursive : bool)
  : Outcome (list FileInfo) :=
  match filesSource with
  | NodePath path => getNodeFileInfoList path isRecursive
  | BrowserFiles fileList =>
      match assertBrowserFilesWithPath fileList with
      | Throws e => Throws e
      | Returns _ =>
          let files := browserFileListToFileInfoList fileList in
          Returns (if isRecursive then files else filterBrowserRecursiveFiles files)
      end
  end.

(** [upload]; an option that is given carries a value, the others take
    the value of [DEFAULT_UPLOAD_DIRECTORY_OPTIONS]. *)
Definition upload (accountData : AccountData W) (podName : string)
  (filesSource : FilesSource) (options : option UploadDirectoryOptions) : M W unit :=
  let* _ := liftOutcome (PodUtils.assertAccount accountData) in
  let* _ := liftOutcome (PodUtils.assertPodName podName) in
  let* found := PodUtils.getWritablePodInfo accountData podName in
  let podWallet := fst (fst found) in
  (* options = { ...DEFAULT_UPLOAD_DIRECTORY_OPTIONS, ...options } *)
  let uploadOptions := default DEFAULT_UPLOAD_OPTIONS (options ≫= udo_uploadOptions) in
  let isRecursive := default true (options ≫= udo_isRecursive) in
  let excludeDotFiles := default false (options ≫= udo_excludeDotFiles) in
  let isIncludeDirectoryName := default true (options ≫= udo_isIncludeDirectoryName) in
  let isNodePath := match filesSource with NodePath _ => true | BrowserFiles _ => false end in
  let isNodeEnv := isNode in
  if negb isNodeEnv && isNodePath then
    throw (ErrorObj "Directory uploading with path as string is available in Node.js only")
  else
    let* files := liftOutcome (sourceFiles filesSource isRecursive) in
    let files := if excludeDotFiles then filterDotFiles files else files in
    let directoriesToCreate :=
      getDirectoriesToCreate
        (map (fun item =>
                if isIncludeDirectoryName then relativePathWithBase item
                else relativePath item) files) in
    let* _ :=
      createDirectories (connection accountData) podWallet (snd found)
        directoriesToCreate in
    uploadFiles accountData podName isNodePath isIncludeDirectoryName uploadOptions files.

End DirectoryClass.
End DirectoryClass.

(* ===================================================================== *)
(** * account: the encrypted mnemonic of a version 1 account *)
(* ===================================================================== *)

(** Helpers of account/utils and of bee-js [Data] that are not under src:
    the checks of a user name and of Base64url text, and the text of a
    chunk payload ([chunkContent().text()]). *)
Class AccountExternals : Type := {
  assertUsername : string -> Outcome unit;
  assertBase64UrlData : string -> Outcome unit;
  bytesToText : bytes -> string
}.

Module AccountApi.
Section AccountApi.
Context `{Externals} `{AccountExternals} {W : Type}.

Definition getEncryptedMnemonic (bee : Bee W) (username : string)
  (address : EthAddress) : M W string :=
  let* _ := liftOutcome (assertUsername username) in
  let* answer := FeedRaw.getFeedData bee username address in
  ret (bytesToText (la_data answer)).


End AccountApi.
End AccountApi.

(* ===================================================================== *)
(** * utils/batch *)
(* ===================================================================== *)

(** bee-js [BeeDebug], as the two methods the code calls, and the fields
    of a postage batch it reads. *)
Record PostageBatch : Type := mkPostageBatch { batchID : string; usable : bool }.

Record BeeDebug (W : Type) : Type := mkBeeDebug {
  getAllPostageBatch : M W (list PostageBatch);
  getPostageBatch : string -> M W PostageBatch
}.
Arguments getAllPostageBatch {W} _.
Arguments getPostageBatch {W} _ _.

Module Batch.
Section Batch.
Context {W : Type}.

(** [batches.pop()?.batchID]: the identifier of the last batch; an empty
    identifier is falsy. *)
Definition getBatchId (beeDebug : BeeDebug W) : M W string :=
  let* batches := getAllPostageBatch beeDebug in
  if decide (length batches = 0) then throw (ErrorObj "Postage batch not exists")
  else
    match batchID <$> list.last batches with
    | None => throw (ErrorObj "Incorrect batch id found")
    | Some batchId =>
        if decide (batchId = EmptyString)
        then throw (ErrorObj "Incorrect batch id found")
        else ret batchId
    end.

Definition isBatchUsable (beeDebug : BeeDebug W) : M W bool :=
  let* batchId := getBatchId beeDebug in
  let* batch := getPostageBatch beeDebug batchId in
  ret (usable batch).

End Batch.
End Batch.

(* ===================================================================== *)
(** * The chunk store *)
(* ===================================================================== *)

(** Modelled from the spec (section 6): the store is an external
    collaborator.  Uploaded data is filed under its address and can be
    fetched back by it; a feed keeps its versions, newest first, and a
    lookup answers with the newest one (4.1).  Every write is taken to
    land on a fresh identifier (section 3), so this store never answers
    that a chunk already exists.  The store also keeps the list of the
    requests it received, oldest first. *)
Inductive Request : Type :=
  | ReqUploadData (data : bytes)
  | ReqDownloadData (reference : Reference)
  | ReqLookup (owner : EthAddress) (topicHash : bytes)
  | ReqSocUpload (owner : EthAddress) (id : Identifier) (data : bytes).

#[global] Instance Request_eq_dec : EqDecision Request.
Proof. solve_decision. Defined.

Record Swarm : Type := mkSwarm {
  chunks : gmap string (list byte);
  feeds : gmap (string * list byte) (list (Epoch * list byte));
  requests : list Request
}.

Definition isWrite (r : Request) : bool :=
  match r with
  | ReqUploadData _ | ReqSocUpload _ _ _ => true
  | ReqDownloadData _ | ReqLookup _ _ => false
  end.

Definition isFeedWrite (r : Request) : bool :=
  match r with
  | ReqSocUpload _ _ _ => true
  | _ => false
  end.

Definition isChunkFetch (r : Request) : bool :=
  match r with
  | ReqDownloadData _ => true
  | _ => false
  end.

Section SwarmBee.
Context `{Externals}.

Definition swarm_uploadData (batch : string) (data : bytes) : M Swarm Reference :=
  fun w =>
    (Returns (dataAddress data),
     mkSwarm (<[dataAddress data := data]> (chunks w)) (feeds w)
       (requests w ++ [ReqUploadData data])).

Definition swarm_downloadData (reference : Reference) : M Swarm bytes :=
  fun w =>
    let w' := mkSwarm (chunks w) (feeds w) (requests w ++ [ReqDownloadData reference]) in
    match chunks w !! reference with
    | Some data => (Returns data, w')
    | None => (Throws (ErrorObj "Not Found"), w')
    end.

Definition swarm_lookupChunk (owner : EthAddress) (topicHash : bytes)
  : M Swarm LookupAnswer :=
  fun w =>
    let w' := mkSwarm (chunks w) (feeds w) (requests w ++ [ReqLookup owner topicHash]) in
    match feeds w !! (owner, topicHash) with
    | Some ((epoch, data) :: _) => (Returns (mkLookupAnswer data epoch), w')
    | _ => (Throws (ErrorObj "Data not found"), w')
    end.

Definition swarm_socUpload (privateKey : PrivateKey) (batch : string)
  (id : Identifier) (data : bytes) : M Swarm Reference :=
  fun w =>
    let owner := addressOfKey privateKey in
    let key := (owner, id_topicHash id) in
    let versions := default [] (feeds w !! key) in
    (Returns (socAddress owner id),
     mkSwarm (chunks w)
       (<[key := (mkEpoch (id_level id) (id_time id), data) :: versions]> (feeds w))
       (requests w ++ [ReqSocUpload owner id data])).

Definition swarmBee : Bee Swarm :=
  mkBee Swarm swarm_uploadData swarm_downloadData swarm_lookupChunk
    (fun privateKey => mkSOCWriter Swarm (swarm_socUpload privateKey)).

Definition swarmConnection (batch : string) : Connection Swarm :=
  mkConnection Swarm swarmBee batch.


End SwarmBee.

(** A store that answers every single-owner-chunk upload with the same
    failure and does nothing else; its state is trivial. *)
Definition refusingBee (e : Thrown) : Bee unit :=
  mkBee unit
    (fun _ _ => throw e) (fun _ => throw e) (fun _ _ => throw e)
    (fun _ => mkSOCWriter unit (fun _ _ _ => throw e)).

(* ===================================================================== *)
(** * Laws expected of the collaborators *)
(* ===================================================================== *)

Section Laws.
Context `{Externals}.

(** Decryption undoes encryption under the same password (4.2). *)
Definition cipherRoundTrip : Prop :=
  ∀ (password data : list byte),
    decryptBytes password (encryptBytes password data) = Some data.

(** [JSON.parse] undoes [JSON.stringify] on the documents of the system. *)
Definition jsonRoundTrip : Prop :=
  ∀ doc : Document, parse (stringify doc) = Some doc.

(** The store files different data under different addresses. *)
Definition addressInjective : Prop :=
  ∀ a b : list byte, dataAddress a = dataAddress b → a = b.

End Laws.

(* ===================================================================== *)
(** * A concrete set of collaborators *)
(* ===================================================================== *)

(** Small executable stand-ins for the collaborators, used to run the
    operations on concrete inputs. *)
Module Toy.

#[global] Instance Pod_eq_dec : EqDecision Pod.
Proof. solve_decision. Defined.
#[global] Instance DirectoryMeta_eq_dec : EqDecision DirectoryMeta.
Proof. solve_decision. Defined.
#[global] Instance RawDirectoryMetadata_eq_dec : EqDecision RawDirectoryMetadata.
Proof. solve_decision. Defined.
#[global] Instance FileMetadata_eq_dec : EqDecision FileMetadata.
Proof. solve_decision. Defined.
#[global] Instance Block_eq_dec : EqDecision Block.
Proof. solve_decision. Defined.
#[global] Instance Blocks_eq_dec : EqDecision Blocks.
Proof. solve_decision. Defined.
#[global] Instance Document_eq_dec : EqDecision Document.
Proof. solve_decision. Defined.

(** Records are flattened to the list of their encoded fields. *)
Definition pod_fields (p : Pod) : list positive :=
  [encode (pod_name p); encode (pod_index p); encode (pod_password p)].

Definition pod_of_fields (l : list positive) : option Pod :=
  match l with
  | [a; b; c] =>
      n ← decode a; i ← decode b; p ← decode c; Some (mkPod n i p)
  | _ => None
  end.

Definition dir_fields (d : RawDirectoryMetadata) : list positive :=
  [encode (Version (Meta d)); encode (Path (Meta d)); encode (Name (Meta d));
   encode (CreationTime (Meta d)); encode (ModificationTime (Meta d));
   encode (AccessTime (Meta d)); encode (FileOrDirNames d)].

Definition dir_of_fields (l : list positive) : option RawDirectoryMetadata :=
  match l with
  | [a; b; c; d; e; f; g] =>
      a ← decode a; b ← decode b; c ← decode c; d ← decode d; e ← decode e;
      f ← decode f; g ← decode g;
      Some (mkRawDirectoryMetadata (mkDirectoryMeta a b c d e f) g)
  | _ => None
  end.

Definition file_fields (m : FileMetadata) : list positive :=
  [encode (version m); encode (filePath m); encode (fileName m);
   encode (fileSize m); encode (blockSize m); encode (contentType m);
   encode (compression m); encode (creationTime m); encode (accessTime m);
   encode (modificationTime m); encode (blocksReference m); encode (mode m);
   encode (podAddress m); encode (podName m); encode (sharedPassword m)].

Definition file_of_fields (l : list positive) : option FileMetadata :=
  match l with
  | [a; b; c; d; e; f; g; h; i; j; k; l; m; n; o] =>
      a ← decode a; b ← decode b; c ← decode c; d ← decode d; e ← decode e;
      f ← decode f; g ← decode g; h ← decode h; i ← decode i; j ← decode j;
      k ← decode k; l ← decode l; m ← decode m; n ← decode n; o ← decode o;
      Some (mkFileMetadata a b c d e f g h i j k l m n o)
  | _ => None
  end.

Definition block_fields (b : Block) : list positive :=
  [encode (block_name b); encode (block_size b); encode (block_compressedSize b);
   encode (block_reference b)].

Definition block_of_fields (l : list positive) : option Block :=
  match l with
  | [a; b; c; d] =>
      a ← decode a; b ← decode b; c ← decode c; d ← decode d; Some (mkBlock a b c d)
  | _ => None
  end.

Definition document_fields (doc : Document) : positive * list (list positive) :=
  match doc with
  | DocDirectory d => (1%positive, [dir_fields d])
  | DocFile f => (2%positive, [file_fields f])
  | DocBlocks b => (3%positive, map block_fields (blocks b))
  | DocPods pods => (4%positive, map pod_fields pods)
  end.

Definition document_of_fields (x : positive * list (list positive)) : option Document :=
  match x with
  | (1%positive, [l]) => DocDirectory <$> dir_of_fields l
  | (2%positive, [l]) => DocFile <$> file_of_fields l
  | (3%positive, ls) => (fun bs => DocBlocks (mkBlocks bs)) <$> mapM block_of_fields ls
  | (4%positive, ls) => DocPods <$> mapM pod_of_fields ls
  | _ => None
  end.

(** A positive number as bytes, one binary digit per byte. *)
Fixpoint pos_to_bytes (p : positive) : bytes :=
  match p with
  | xH => []
  | xO p' => x00 :: pos_to_bytes p'
  | xI p' => x01 :: pos_to_bytes p'
  end.

Fixpoint bytes_to_pos (b : bytes) : positive :=
  match b with
  | [] => xH
  | d :: b' => if decide (d = x00) then xO (bytes_to_pos b') else xI (bytes_to_pos b')
  end.

Definition toy_stringify (doc : Document) : bytes :=
  pos_to_bytes (encode (document_fields doc)).

Definition toy_parse (b : bytes) : option Document :=
  decode (bytes_to_pos b) ≫= document_of_fields.

(** A cipher that tags the data with the password. *)
Definition toy_encryptBytes (password data : bytes) : bytes := password ++ data.

Definition toy_decryptBytes (password data : bytes) : option bytes :=
  if decide (take (length password) data = password)
  then Some (drop (length password) data)
  else None.

(** Paths: segments separated by [/]. *)
Fixpoint segments (s : string) : list string :=
  match s with
  | EmptyString => [EmptyString]
  | String c s' =>
      match segments s' with
      | [] => [String c EmptyString]
      | seg :: rest =>
          if decide (c = "/"%char) then EmptyString :: seg :: rest
          else String c seg :: rest
      end
  end.

Definition toy_splitPath (s : string) : list string :=
  filter (fun p => p ≠ EmptyString) (segments s).

Definition toy_combine (parts : list string) : string :=
  match concat (map toy_splitPath parts) with
  | [] => "/"
  | segs => fold_right (fun p acc => "/" +:+ p +:+ acc) EmptyString segs
  end.

Definition toy_extractPathInfo (fullPath : string) : PathInfo :=
  let parts := toy_splitPath fullPath in
  mkPathInfo (toy_combine (removelast parts)) (List.last parts EmptyString).

Definition toy_getPathParts (fullPath : string) : list string :=
  "/" :: toy_splitPath fullPath.

Definition toy_getPathFromParts (parts : list string) (minusParts : nat) : string :=
  toy_combine (take (length parts - minusParts) parts).

Definition toy_assertFullPathWithName (value : string) : Outcome unit :=
  match toy_splitPath value with
  | [] => Throws (ErrorObj "Path is not correct")
  | _ => if String.prefix "/" value then Returns tt
         else Throws (ErrorObj "Path is not correct")
  end.

Definition toy_assertPartsLength (parts : list string) : Outcome unit :=
  if decide (length parts < 2) then Throws (ErrorObj "Can not create directory for root")
  else Returns tt.

Definition toy_assertDirectoryName (value : string) : Outcome unit :=
  if decide (value = EmptyString) then Throws (ErrorObj "Name is incorrect")
  else if decide (100 < String.length value) then Throws (ErrorObj "Directory name is too long")
  else if includes "/" value then Throws (ErrorObj "Name contains invalid characters")
  else Returns tt.

Definition toy_getNextEpoch (e : Epoch) (t : Z) : Epoch :=
  mkEpoch (Z.max 0 (level e - 1)) t.

#[global] Instance externals : Externals := {|
  encryptBytes := toy_encryptBytes;
  decryptBytes := toy_decryptBytes;
  stringify := toy_stringify;
  stringToBytes := String.list_byte_of_string;
  parse := toy_parse;
  bmtHashString := String.list_byte_of_string;
  dataAddress := String.string_of_list_byte;
  getBmtDataAddress := String.string_of_list_byte;
  socAddress := fun owner id => owner +:+ "/" +:+ String.string_of_list_byte (id_topicHash id);
  addressOfKey := fun key => "address-of-" +:+ key;
  getWalletByIndex := fun key index => mkHDNode (key +:+ "/" +:+ FileHandler.toString index);
  HIGHEST_LEVEL := 31;
  epoch_getNextEpoch := toy_getNextEpoch;
  getFirstEpoch := fun t => mkEpoch 31 t;
  getNextEpoch := fun e =>
    match e with
    | Some e => toy_getNextEpoch e 1700000000
    | None => mkEpoch 31 1700000000
    end;
  getUnixTimestamp := 1700000000;
  combine := toy_combine;
  splitPath := toy_splitPath;
  extractPathInfo := toy_extractPathInfo;
  getPathParts := toy_getPathParts;
  getPathFromParts := toy_getPathFromParts;
  assertFullPathWithName := toy_assertFullPathWithName;
  assertPartsLength := toy_assertPartsLength;
  assertDirectoryName := toy_assertDirectoryName;
  META_VERSION := 2;
  DEFAULT_FILE_MODE := 33188;
  DEFAULT_BLOCK_SIZE := 1000 * 1000;
  DEFAULT_CONTENT_TYPE := EmptyString;
  CHUNK_ALREADY_EXISTS_ERROR := "Conflict: chunk already exists";
  MAX_POD_NAME_LENGTH := 64;
  MAX_PODS_COUNT := 256
|}.

Definition emptySwarm : Swarm := mkSwarm ∅ ∅ [].

Definition conn : Connection Swarm := swarmConnection "batch".

Definition account : AccountData Swarm :=
  mkAccountData Swarm conn (Some (mkHDNode "root-key")) "root-key".

Definition password : bytes := [x01; x02; x03; x04].

Definition podWallet : HDNode := getWalletByIndex "root-key" 1.

(** An account with one pod ["docs"], registered with its password, and
    the root directory of that pod. *)
Definition withPod : Swarm :=
  let w1 :=
    snd (PersonalStorage.writeFeedData conn PodUtils.POD_TOPIC
           (PodUtils.podListToBytes [mkPod "docs" 1 (Some password)])
           "root-key" None emptySwarm) in
  snd (DirectoryHandler.createRootDirectory conn password (privateKey podWallet) w1).

(** The five bytes [abcde], uploaded in blocks of two to [/f.txt] of the
    pod [docs]. *)
Definition sampleUpload : Outcome FileMetadata * Swarm :=
  FileHandler.uploadData "docs" "/f.txt" (inl [x61; x62; x63; x64; x65]) account
    (FileUtils.mkDataUploadOptions (Some 2) None) withPod.

(** A file whose stored metadata announce a compression. *)
Definition compressedFile : Swarm :=
  snd (FeedApi.writeFeedData conn "/z.gz"
         (FileUtils.getFileMetadataRawBytes
            (mkFileMetadata 2 "/" "z.gz" 0 2 EmptyString "gzip" 0 0 0 EmptyString
               None None None None))
         podWallet password None withPod).

End Toy.

(* ===================================================================== *)
(** * Vocabulary of the statements *)
(* ===================================================================== *)

(** The store after a list of further requests was recorded. *)
Definition logged (w : Swarm) (l : list Request) : Swarm :=
  mkSwarm (chunks w) (feeds w) (requests w ++ l).

(** Nothing stored has changed. *)
Definition sameStorage (w w' : Swarm) : Prop :=
  chunks w' = chunks w ∧ feeds w' = feeds w.

(** The requests recorded between [w] and [w'] all satisfy [P]. *)
Definition requestsSince (P : Request -> Prop) (w w' : Swarm) : Prop :=
  ∃ l, requests w' = requests w ++ l ∧ Forall P l.

(** A computation that leaves every store in relation [R] with the one
    it started from. *)
Definition preserves {A} (R : Swarm -> Swarm -> Prop) (m : M Swarm A) : Prop :=
  ∀ w, R w (snd (m w)).

(** The identifier a feed write of [topic] at [epoch] is filed under. *)
Definition feedIdentifier `{Externals} (topic : string) (epoch : option Epoch)
  : Identifier :=
  let e :=
    match epoch with
    | Some e => e
    | None => mkEpoch HIGHEST_LEVEL getUnixTimestamp
    end in
  getId (bmtHashString topic) (time e) (level e).

(** The [i]-th block of a payload cut in blocks of [blockSize] bytes. *)
Definition blockAt (data : bytes) (blockSize i : nat) : bytes :=
  slice data (i * blockSize) ((i + 1) * blockSize).

Definition sumSizes (l : list Block) : nat :=
  fold_left (fun total block => total + block_size block) l 0.

(** What the store answers, as functions of its state. *)
Section Views.
Context `{Externals}.

Definition feedAnswer (w : Swarm) (owner : EthAddress) (topic : string)
  : Outcome LookupAnswer :=
  match feeds w !! (owner, bmtHashString topic) with
  | Some ((epoch, data) :: _) => Returns (mkLookupAnswer data epoch)
  | _ => Throws (ErrorObj "Data not found")
  end.

Definition existsAt (w : Swarm) (owner : EthAddress) (topic : string) : bool :=
  match feedAnswer w owner topic with
  | Returns _ => true
  | Throws _ => false
  end.

Definition decodeMetadata (podPassword : PodPasswordBytes) (answer : LookupAnswer)
  : Outcome ContentItems.RawMetadataWithEpoch :=
  match decryptBytes podPassword (la_data answer) with
  | None => Throws (ErrorObj "Decryption failed")
  | Some data =>
      match parse data with
      | Some (DocDirectory d) =>
          Returns (ContentItems.mkRawMetadataWithEpoch (inl d) (la_epoch answer))
      | Some (DocFile f) =>
          Returns (ContentItems.mkRawMetadataWithEpoch (inr f) (la_epoch answer))
      | _ => Throws (ErrorObj "Invalid metadata")
      end
  end.

(** The metadata readable at a path of a pod. *)
Definition rawMetadataAt (w : Swarm) (owner : EthAddress)
  (podPassword : PodPasswordBytes) (path : string)
  : Outcome ContentItems.RawMetadataWithEpoch :=
  match feedAnswer w owner path with
  | Returns answer => decodeMetadata podPassword answer
  | Throws e => Throws e
  end.

(** The pod list readable for an account address. *)
Definition podsInfoAt (w : Swarm) (owner : EthAddress) : Outcome PodUtils.PodsInfo :=
  match feedAnswer w owner PodUtils.POD_TOPIC with
  | Throws _ => Returns (PodUtils.mkPodsInfo [] None)
  | Returns answer =>
      match parse (la_data answer) with
      | Some (DocPods pods) => Returns (PodUtils.mkPodsInfo pods (Some answer))
      | _ => Throws (ErrorObj "Invalid pods list")
      end
  end.

End Views.


(** The store after a successful [create]: the list is written under the
    account, then the root directory under the identity of the pod. *)
Definition afterCreate `{Externals} (batch : string) (rootWallet : HDNode)
  (w : Swarm) (info : PodUtils.PodsInfo) (n : string) : Swarm :=
  let nextIndex := length (PodUtils.pods info) + 1 in
  let epoch :=
    match PodUtils.lookupAnswer info with
    | Some answer => epoch_getNextEpoch (la_epoch answer) getUnixTimestamp
    | None => getFirstEpoch getUnixTimestamp
    end in
  let w2 :=
    snd (swarm_socUpload (privateKey rootWallet) batch
           (feedIdentifier PodUtils.POD_TOPIC (Some epoch))
           (PodUtils.podListToBytes (PodUtils.pods info ++ [mkPod n nextIndex None]))
           (logged w [ReqLookup (address rootWallet) (bmtHashString PodUtils.POD_TOPIC)])) in
  snd (PersonalStorage.createRootDirectory (swarmConnection batch)
         (privateKey (getWalletByIndex (privateKey rootWallet) nextIndex)) w2).

(** The store after the given data were uploaded, in order. *)
Definition stored `{Externals} (w : Swarm) (ds : list (list byte)) : Swarm :=
  fold_left (fun w d => snd (swarm_uploadData EmptyString d w)) ds w.

(** The manifest entry of a block uploaded as it is, and of the [i]-th
    block uploaded encrypted under a name. *)
Definition plainBlock `{Externals} (d : list byte) : Block :=
  mkBlock None (length d) (length d) (dataAddress d).


(** The payloads handed to the store for upload, among some requests. *)
Definition uploadsOf (l : list Request) : list (list byte) :=
  omap (fun r => match r with ReqUploadData d => Some d | _ => None end) l.

Definition encryptedUnder `{Externals} (podPassword : list byte) (d : list byte) : Prop :=
  ∃ plaintext, d = encryptBytes podPassword plaintext.

(** Requests that only touch feeds: lookups, and writes whose payload
    satisfies [P]. *)
Definition feedRequest (P : list byte -> Prop) (r : Request) : Prop :=
  match r with
  | ReqLookup _ _ => True
  | ReqSocUpload _ _ d => P d
  | _ => False
  end.

Definition feedOnly (P : list byte -> Prop) (w w' : Swarm) : Prop :=
  chunks w' = chunks w
  ∧ ∃ l, requests w' = requests w ++ l ∧ Forall (feedRequest P) l.


(** Requests that write nothing, and a store that was only asked
    questions since [w]. *)
Definition lookupsOnly (l : list Request) : Prop :=
  Forall (fun r => isWrite r = false) l.

Definition onlyRead (w w' : Swarm) : Prop :=
  ∃ l, w' = logged w l ∧ lookupsOnly l.

(** Everything stored is as before, except possibly the feeds of [topic]. *)
Definition otherTopics `{Externals} (topic : string) (w w' : Swarm) : Prop :=
  chunks w' = chunks w
  ∧ ∀ (owner : EthAddress) (p : string),
      bmtHashString p ≠ bmtHashString topic ->
      feeds w' !! (owner, bmtHashString p) = feeds w !! (owner, bmtHashString p).

(** The path under which a read of [path] looks for the listed [item]. *)
Definition childPath `{Externals} (path item : string) : string :=
  combine (splitPath path ++ [substringFrom 3 item]).

(** What a read without recursion lists for the names of a directory, as
    a function of the store: one item per name that carries a token, in the
    order of the names. *)
Fixpoint contentAt `{Externals} (w : Swarm) (address : EthAddress)
  (podPassword : PodPasswordBytes) (path : string) (names : list string)
  : Outcome (list Item) :=
  match names with
  | [] => Returns []
  | item :: rest =>
      if String.prefix ContentItems.FILE_TOKEN item then
        match rawMetadataAt w address podPassword (childPath path item) with
        | Returns raw =>
            match ContentItems.assertRawFileMetadata (ContentItems.metadata raw) with
            | Returns data =>
                match contentAt w address podPassword path rest with
                | Returns items => Returns (FileItem data :: items)
                | Throws e => Throws e
                end
            | Throws e => Throws e
            end
        | Throws e => Throws e
        end
      else if String.prefix ContentItems.DIRECTORY_TOKEN item then
        match rawMetadataAt w address podPassword (childPath path item) with
        | Returns raw =>
            match ContentItems.assertRawDirectoryMetadata (ContentItems.metadata raw) with
            | Returns data =>
                match contentAt w address podPassword path rest with
                | Returns items => Returns (DirectoryItem data [] :: items)
                | Throws e => Throws e
                end
            | Throws e => Throws e
            end
        | Throws e => Throws e
        end
      else contentAt w address podPassword path rest
  end.

(** A listed name that a read takes up: it starts with one of the tokens. *)
Definition hasToken (name : string) : bool :=
  String.prefix ContentItems.FILE_TOKEN name
  || String.prefix ContentItems.DIRECTORY_TOKEN name.

(** [item] is what a read of [path] without recursion lists for [name]:
    the record stored for the child, of the kind the token announces. *)
Definition listed `{Externals} (w : Swarm) (address : EthAddress)
  (podPassword : PodPasswordBytes) (path name : string) (item : Item) : Prop :=
  match item with
  | FileItem data =>
      String.prefix ContentItems.FILE_TOKEN name = true
      ∧ ∃ epoch,
          rawMetadataAt w address podPassword (childPath path name)
          = Returns (ContentItems.mkRawMetadataWithEpoch (inr data) epoch)
  | DirectoryItem data content =>
      String.prefix ContentItems.FILE_TOKEN name = false
      ∧ String.prefix ContentItems.DIRECTORY_TOKEN name = true
      ∧ content = []
      ∧ ∃ epoch,
          rawMetadataAt w address podPassword (childPath path name)
          = Returns (ContentItems.mkRawMetadataWithEpoch (inl data) epoch)
  end.

(** Since [w], no data was uploaded: the chunks are the same. *)
Definition noUpload (w w' : Swarm) : Prop :=
  chunks w' = chunks w ∧ uploadsOf (requests w') = uploadsOf (requests w).

(* ===================================================================== *)
(** * Sample stores and collaborators *)
(* ===================================================================== *)

Module Samples.

(** An account with the pods [a] and [b], created in this order. *)
Definition twoPods : Swarm :=
  snd (PersonalStorage.create Toy.account "b"
         (snd (PersonalStorage.create Toy.account "a" Toy.emptySwarm))).

(** The pod [docs] with the directory [/a]. *)
Definition withDirectory : Swarm :=
  snd (DirectoryHandler.createDirectory Toy.conn "/a" Toy.podWallet Toy.password
         Toy.withPod).

(** The pod [docs] whose root lists the directory [a], while nothing is
    stored at [/a]. *)
Definition listedOnly : Swarm :=
  snd (ContentItems.addEntryToDirectory Toy.conn Toy.podWallet Toy.password "/" "a"
         false Toy.withPod).

(** The pod [docs] with the file [/f.txt] of [Toy.sampleUpload], the
    record of that file, and the same pod after [/a] was created too. *)
Definition withFile : Swarm := snd Toy.sampleUpload.

Definition fileMeta : FileMetadata :=
  mkFileMetadata 2 "/" "f.txt" 5 2 EmptyString EmptyString 1700000000 1700000000
    1700000000
    (dataAddress
       (FileUtils.blocksToManifestBytes
          (mkBlocks (map plainBlock [[x61; x62]; [x63; x64]; [x65]]))))
    (Some 33188%Z) None None None.

Definition withBoth : Swarm :=
  snd (DirectoryHandler.createDirectory Toy.conn "/a" Toy.podWallet Toy.password
         withFile).

(** A file [/g.bin] of one block of two bytes, for which the manifest
    records [recorded] bytes. *)
Definition blockData : bytes := [x61; x62].

Definition misSizedManifest (recorded : nat) : Blocks :=
  mkBlocks [mkBlock None recorded recorded (dataAddress blockData)].

Definition misSizedMeta (recorded : nat) : FileMetadata :=
  mkFileMetadata 2 "/" "g.bin" recorded 1000 EmptyString EmptyString 0 0 0
    (dataAddress (FileUtils.blocksToManifestBytes (misSizedManifest recorded)))
    None None None None.

Definition misSized (recorded : nat) : Swarm :=
  let w1 := snd (FileUtils.uploadBytes Toy.conn blockData Toy.withPod) in
  let w2 :=
    snd (FileUtils.uploadBytes Toy.conn
           (FileUtils.blocksToManifestBytes (misSizedManifest recorded)) w1) in
  snd (FeedApi.writeFeedData Toy.conn "/g.bin"
         (FileUtils.getFileMetadataRawBytes (misSizedMeta recorded))
         Toy.podWallet Toy.password None w2).

(** The capsule of a share is the record of the file, as the toy
    [stringify] writes it; a reference is accepted when it is not empty. *)
#[global] Instance sharing : SharingExternals := {|
  bytesToHex := String.string_of_list_byte;
  assertEncryptedReference := fun reference =>
    if decide (reference = EmptyString)
    then Throws (ErrorObj "Incorrect encrypted reference")
    else Returns tt;
  stringifyShareInfo := fun info =>
    String.string_of_list_byte (Toy.toy_stringify (DocFile (si_meta info)));
  parseShareInfo := fun data =>
    match Toy.toy_parse data with
    | Some (DocFile meta) => Some (mkFileShareInfo meta)
    | _ => None
    end;
  updateFileMetadata := fun meta podName parentPath fileName podAddress =>
    mkFileMetadata (version meta) parentPath fileName (fileSize meta) (blockSize meta)
      (contentType meta) (compression meta) (creationTime meta) (accessTime meta)
      (modificationTime meta) (blocksReference meta) (mode meta) (Some podAddress)
      (Some podName) None
|}.

(** The store after [/f.txt] was shared, and the reference of the capsule. *)
Definition shared : Outcome Reference * Swarm :=
  FileClass.share Toy.account "docs" "/f.txt" withFile.

Definition is_base64url (c : ascii) : bool :=
  let n := nat_of_ascii c in
  ((48 <=? n) && (n <=? 57) || (65 <=? n) && (n <=? 90) || (97 <=? n) && (n <=? 122)
   || (n =? 45) || (n =? 95))%nat.

#[global] Instance accounts : AccountExternals := {|
  assertUsername := fun username =>
    if decide (username = EmptyString) then Throws (ErrorObj "Incorrect username")
    else Returns tt;
  assertBase64UrlData := fun data =>
    if forallb is_base64url (String.list_ascii_of_string data) then Returns tt
    else Throws (ErrorObj "Incorrect symbols in Base64url data");
  bytesToText := String.string_of_list_byte
|}.

(** A debug node that knows the given batches; it keeps no state. *)
Definition beeDebug (batches : list PostageBatch) : BeeDebug unit :=
  mkBeeDebug unit (ret batches)
    (fun id =>
       match find (fun batch => bool_decide (batchID batch = id)) batches with
       | Some batch => ret batch
       | None => throw (ErrorObj "Not Found")
       end).

(** Local files of a browser: the directory a file was picked from, its
    name and its content.  Every file lies one level below the picked
    directory, which is the one directory to create. *)
Record LocalFile : Type := mkLocalFile {
  lf_directory : string;
  lf_name : string;
  lf_content : bytes
}.

#[global] Instance uploads : UploadExternals := {|
  FileList := list LocalFile;
  BrowserFile := bytes;
  FileInfo := LocalFile;
  relativePath := lf_name;
  relativePathWithBase := fun file => lf_directory file +:+ "/" +:+ lf_name file;
  fileInfo_fullPath := fun file => lf_directory file +:+ "/" +:+ lf_name file;
  browserFile := lf_content;
  isNode := false;
  getNodeFileInfoList := fun _ _ => Throws (ErrorObj "ENOENT: no such file or directory");
  assertBrowserFilesWithPath := fun _ => Returns tt;
  browserFileListToFileInfoList := fun files => files;
  filterBrowserRecursiveFiles := fun files => files;
  filterDotFiles := filter (fun file => negb (String.prefix "." (lf_name file)));
  getDirectoriesToCreate := fun paths =>
    remove_dups
      (omap (fun path =>
               match Toy.toy_splitPath path with
               | directory :: _ :: _ => Some ("/" +:+ directory)
               | _ => None
               end) paths);
  assertNodeFileInfo := fun _ => Throws (ErrorObj "Incorrect file info");
  isBrowserFileInfo := fun _ => true;
  getNodeFileContent := fun _ => Throws (ErrorObj "ENOENT: no such file or directory");
  readBrowserFileAsBytes := fun content => Returns content;
  getUploadPath := fun file isIncludeDirectoryName =>
    if isIncludeDirectoryName then "/" +:+ lf_directory file +:+ "/" +:+ lf_name file
    else "/" +:+ lf_name file;
  DEFAULT_UPLOAD_OPTIONS := FileUtils.mkDataUploadOptions None None
|}.

(** The directory [a] with the file [f.txt], picked in a browser. *)
Definition picked : FilesSource := BrowserFiles [mkLocalFile "a" "f.txt" [x61; x62; x63]].

End Samples.

(* ===================================================================== *)
(** * Basic facts *)
(* ===================================================================== *)

Lemma bind_returns {W A B} (m : M W A) (k : A -> M W B) w a w' :
  m w = (Returns a, w') -> bind m k w = k a w'.
Proof. intros E. unfold bind. now rewrite E. Qed.

Lemma bind_throws {W A B} (m : M W A) (k : A -> M W B) w e w' :
  m w = (Throws e, w') -> bind m k w = (Throws e, w').
Proof. intros E. unfold bind. now rewrite E. Qed.

Lemma bind_inv_returns {W A B} (m : M W A) (k : A -> M W B) w b w2 :
  bind m k w = (Returns b, w2) ->
  ∃ a w1, m w = (Returns a, w1) ∧ k a w1 = (Returns b, w2).
Proof.
  unfold bind. destruct (m w) as [[a|e] w1]; intros E.
  - eauto.
  - discriminate.
Qed.

Lemma liftOutcome_returns {W A} (o : Outcome A) (w : W) a w' :
  liftOutcome o w = (Returns a, w') -> o = Returns a ∧ w' = w.
Proof. unfold liftOutcome. intros E. inversion E. auto. Qed.

Section Preserves.
Context {A B : Type} (R : Swarm -> Swarm -> Prop) `{!PreOrder R}.

Lemma preserves_ret (a : A) : preserves R (ret a).
Proof. intros w. simpl. reflexivity. Qed.

Lemma preserves_throw e : preserves R (throw (A:=A) e).
Proof. intros w. simpl. reflexivity. Qed.

Lemma preserves_lift (o : Outcome A) : preserves R (liftOutcome o).
Proof. intros w. simpl. reflexivity. Qed.

Lemma preserves_bind (m : M Swarm A) (k : A -> M Swarm B) :
  preserves R m -> (∀ a, preserves R (k a)) -> preserves R (bind m k).
Proof.
  intros Hm Hk w. unfold bind. specialize (Hm w).
  destruct (m w) as [[a|e] w1]; simpl in *.
  - etransitivity; [exact Hm | apply Hk].
  - exact Hm.
Qed.

Lemma preserves_tryCatch (m : M Swarm A) (h : Thrown -> M Swarm A) :
  preserves R m -> (∀ e, preserves R (h e)) -> preserves R (tryCatch m h).
Proof.
  intros Hm Hh w. unfold tryCatch. specialize (Hm w).
  destruct (m w) as [[a|e] w1]; simpl in *.
  - exact Hm.
  - etransitivity; [exact Hm | apply Hh].
Qed.

End Preserves.

#[global] Instance sameStorage_preorder : PreOrder sameStorage.
Proof.
  split.
  - intros w. split; reflexivity.
  - intros a b c [H1 H2] [H3 H4]. split; congruence.
Qed.

#[global] Instance requestsSince_preorder P : PreOrder (requestsSince P).
Proof.
  split.
  - intros w. exists []. split; [now rewrite app_nil_r | constructor].
  - intros a b c [l1 [E1 F1]] [l2 [E2 F2]]. exists (l1 ++ l2). split.
    + rewrite E2, E1. now rewrite app_assoc.
    + apply Forall_app. auto.
Qed.

(* ===================================================================== *)
(** * The store model: what each request does *)
(* ===================================================================== *)

Section SwarmFacts.
Context `{Externals}.

Lemma feedAnswer_logged w l owner topic :
  feedAnswer (logged w l) owner topic = feedAnswer w owner topic.
Proof. reflexivity. Qed.

Lemma logged_logged w l1 l2 : logged (logged w l1) l2 = logged w (l1 ++ l2).
Proof. unfold logged. simpl. now rewrite app_assoc. Qed.

Lemma logged_nil w : logged w [] = w.
Proof. destruct w. unfold logged. simpl. now rewrite app_nil_r. Qed.

Lemma getFeedData_swarm topic owner w :
  FeedRaw.getFeedData swarmBee topic owner w
  = (feedAnswer w owner topic, logged w [ReqLookup owner (bmtHashString topic)]).
Proof.
  unfold FeedRaw.getFeedData, feedAnswer. simpl. unfold swarm_lookupChunk.
  destruct (feeds w !! (owner, bmtHashString topic)) as [[|[e d] l]|]; reflexivity.
Qed.

Lemma isItemExists_swarm fullPath owner w :
  ContentItems.isItemExists swarmBee fullPath owner w
  = (Returns (existsAt w owner fullPath),
     logged w [ReqLookup owner (bmtHashString fullPath)]).
Proof.
  unfold ContentItems.isItemExists, tryCatch, bind, existsAt.
  rewrite getFeedData_swarm.
  destruct (feedAnswer w owner fullPath); reflexivity.
Qed.

Lemma getCreationPathInfo_swarm fullPath owner w :
  ∃ info,
    ContentItems.getCreationPathInfo swarmBee fullPath owner w
    = (Returns info, logged w [ReqLookup owner (bmtHashString fullPath)]).
Proof.
  unfold ContentItems.getCreationPathInfo, tryCatch, bind.
  rewrite getFeedData_swarm.
  destruct (feedAnswer w owner fullPath); eexists; reflexivity.
Qed.

Lemma getRawMetadata_swarm path owner podPassword w :
  ContentItems.getRawMetadata swarmBee path owner podPassword w
  = (rawMetadataAt w owner podPassword path,
     logged w [ReqLookup owner (bmtHashString path)]).
Proof.
  unfold ContentItems.getRawMetadata, bind, rawMetadataAt, decodeMetadata.
  rewrite getFeedData_swarm.
  destruct (feedAnswer w owner path) as [answer|e]; [|reflexivity].
  destruct (decryptBytes podPassword (la_data answer)) as [data|]; [|reflexivity].
  destruct (parse data) as [[d|f|b|p]|]; reflexivity.
Qed.

Lemma getPodsList_swarm owner w :
  PodUtils.getPodsList swarmBee owner w
  = (podsInfoAt w owner,
     logged w [ReqLookup owner (bmtHashString PodUtils.POD_TOPIC)]).
Proof.
  unfold PodUtils.getPodsList, bind, tryCatch, podsInfoAt.
  rewrite getFeedData_swarm.
  destruct (feedAnswer w owner PodUtils.POD_TOPIC) as [answer|e]; [|reflexivity].
  simpl. destruct (parse (la_data answer)) as [[d|f|b|p]|]; reflexivity.
Qed.

(** A feed write on this store always lands: the new version becomes the
    newest one of its feed. *)
Lemma writeFeedDataRaw_swarm batch topic data key epoch w :
  FeedRaw.writeFeedDataRaw (swarmConnection batch) topic data key epoch w
  = swarm_socUpload key batch (feedIdentifier topic epoch) data w.
Proof. reflexivity. Qed.

Lemma writeFeedData_swarm batch topic data key podPassword epoch w :
  FeedRaw.writeFeedData (swarmConnection batch) topic data key podPassword epoch w
  = swarm_socUpload key batch (feedIdentifier topic epoch)
      (encryptBytes podPassword data) w.
Proof. reflexivity. Qed.

Lemma writeFeedData_api_swarm batch topic data wallet podPassword epoch w :
  FeedApi.writeFeedData (swarmConnection batch) topic data wallet podPassword epoch w
  = swarm_socUpload (privateKey wallet) batch (feedIdentifier topic epoch)
      (encryptBytes podPassword data) w.
Proof. reflexivity. Qed.

Lemma feedAnswer_socUpload key batch topic epoch data w owner topic' :
  feedAnswer (snd (swarm_socUpload key batch (feedIdentifier topic epoch) data w))
    owner topic'
  = if decide ((addressOfKey key, bmtHashString topic) = (owner, bmtHashString topic'))
    then Returns (mkLookupAnswer data
                    (match epoch with
                     | Some e => e
                     | None => mkEpoch HIGHEST_LEVEL getUnixTimestamp
                     end))
    else feedAnswer w owner topic'.
Proof.
  unfold feedAnswer, swarm_socUpload. simpl.
  rewrite lookup_insert. case_decide as E.
  - destruct epoch as [[l t]|]; reflexivity.
  - reflexivity.
Qed.

Lemma chunks_socUpload key batch id data w :
  chunks (snd (swarm_socUpload key batch id data w)) = chunks w.
Proof. reflexivity. Qed.

End SwarmFacts.

(* ===================================================================== *)
(** * Feed writes and the answers of the store (C9) *)
(* ===================================================================== *)

Section FeedWrites.
Context `{Externals} {W : Type}.

(** C9, as amended.  Whatever the store is: [writeFeedDataRaw], and
    [writeFeedData] built on it, hand the payload to the single-owner-chunk
    writer and return its reference; when the writer throws an error whose
    message starts with [CHUNK_ALREADY_EXISTS_ERROR] they return the address
    of the payload instead; any other thrown value is replaced by a new
    [Error] that carries its message, or "Unknown error" when it has none.
    The [writeFeedData] of src/feed/api.ts has no handler: its outcome is
    the outcome of the writer, whatever it is. *)
Theorem writeFeedData_store_answers
  (connection : Connection W) (topic : string) (data : bytes) (key : PrivateKey)
  (podPassword : PodPasswordBytes) (epoch : option Epoch) (w : W) :
  let payload := encryptBytes podPassword data in
  let request :=
    soc_upload (makeSOCWriter (bee connection) key) (postageBatchId connection)
      (feedIdentifier topic epoch) payload in
  FeedRaw.writeFeedData connection topic data key podPassword epoch w
  = match request w with
    | (Returns reference, w') => (Returns reference, w')
    | (Throws e, w') =>
        if errorStartWith e CHUNK_ALREADY_EXISTS_ERROR
        then (Returns (getBmtDataAddress payload), w')
        else (Throws (ErrorObj (js_or (getError e) "Unknown error")), w')
    end
  ∧ FeedRaw.writeFeedDataRaw connection topic payload key epoch w
    = FeedRaw.writeFeedData connection topic data key podPassword epoch w
  ∧ FeedApi.writeFeedData connection topic data (mkHDNode key) podPassword epoch w
    = request w.
Proof.
  intros payload request. split; [|split].
  - unfold FeedRaw.writeFeedData, FeedRaw.writeFeedDataRaw, tryCatch.
    fold payload. unfold feedIdentifier in request. fold request.
    destruct (request w) as [[reference|e] w']; [reflexivity|].
    destruct (errorStartWith e CHUNK_ALREADY_EXISTS_ERROR); reflexivity.
  - reflexivity.
  - reflexivity.
Qed.

(** A thrown [Error] with a message keeps that message. *)
Lemma js_or_message (message fallback : string) :
  message ≠ EmptyString -> js_or (getError (ErrorObj message)) fallback = message.
Proof. intros N. simpl. now destruct (decide (message = EmptyString)). Qed.

End FeedWrites.

(** C9 fails as stated.  With a store that answers that the chunk already
    exists, the [writeFeedData] of src/feed/api.ts throws instead of
    returning; and [writeFeedDataRaw] does not pass on unchanged an error
    without a message, nor a thrown value that is not an [Error]. *)
Lemma writeFeedData_conflict_counterexample :
  let conflict := ErrorObj "Conflict: chunk already exists" in
  FeedApi.writeFeedData
    (mkConnection unit (refusingBee conflict) "batch") "/" [] (mkHDNode "key") [] None tt
  = (Throws conflict, tt)
  ∧ FeedRaw.writeFeedDataRaw
      (mkConnection unit (refusingBee (ErrorObj EmptyString)) "batch") "/" [] "key" None tt
    = (Throws (ErrorObj "Unknown error"), tt)
  ∧ FeedRaw.writeFeedDataRaw
      (mkConnection unit (refusingBee (NonError "timeout")) "batch") "/" [] "key" None tt
    = (Throws (ErrorObj "Unknown error"), tt).
Proof. repeat split. Qed.

(* ===================================================================== *)
(** * Adding an entry to a directory (C4, C5) *)
(* ===================================================================== *)

Lemma bind_lift_returns {W A B} (a : A) (k : A -> M W B) w :
  bind (liftOutcome (Returns a)) k w = k a w.
Proof. reflexivity. Qed.

Lemma bind_lift_throws {W A B} e (k : A -> M W B) w :
  bind (liftOutcome (Throws e)) k w = (Throws e, w).
Proof. reflexivity. Qed.

Section AddEntry.
Context `{Externals}.

Lemma assertItemIsNotExists_swarm contentType fullPath owner w :
  ContentItems.assertItemIsNotExists contentType swarmBee fullPath owner w
  = (if existsAt w owner fullPath
     then Throws (ErrorObj (ContentItems.alreadyUploaded contentType fullPath))
     else Returns tt,
     logged w [ReqLookup owner (bmtHashString fullPath)]).
Proof.
  unfold ContentItems.assertItemIsNotExists, bind.
  rewrite isItemExists_swarm. destruct (existsAt w owner fullPath); reflexivity.
Qed.

Lemma existsAt_false_rawMetadataAt w owner podPassword path :
  existsAt w owner path = false ->
  rawMetadataAt w owner podPassword path = Throws (ErrorObj "Data not found").
Proof.
  unfold existsAt, rawMetadataAt, feedAnswer.
  destruct (feeds w !! (owner, bmtHashString path)) as [[|[e d] l]|];
    intros E; try discriminate; reflexivity.
Qed.

Lemma rawMetadataAt_logged w l owner podPassword path :
  rawMetadataAt (logged w l) owner podPassword path
  = rawMetadataAt w owner podPassword path.
Proof. reflexivity. Qed.

Lemma existsAt_logged w l owner path :
  existsAt (logged w l) owner path = existsAt w owner path.
Proof. reflexivity. Qed.

(** The parent record [addEntryToDirectory] works on, and the store after
    the two lookups that fetch it. *)
Lemma addEntryToDirectory_swarm batch wallet podPassword (parentPath entryPath : string)
  (isFile : bool) w :
  parentPath ≠ EmptyString -> entryPath ≠ EmptyString ->
  let owner := address wallet in
  let fullPath := combine [parentPath; entryPath] in
  let itemText := if isFile then "File" else "Directory" in
  let itemToAdd :=
    (if isFile then ContentItems.FILE_TOKEN else ContentItems.DIRECTORY_TOKEN)
      +:+ entryPath in
  let w2 :=
    logged w [ReqLookup owner (bmtHashString fullPath);
              ReqLookup owner (bmtHashString parentPath)] in
  existsAt w owner fullPath = false ->
  ContentItems.addEntryToDirectory (swarmConnection batch) wallet podPassword
    parentPath entryPath isFile w
  = match rawMetadataAt w owner podPassword parentPath with
    | Returns (ContentItems.mkRawMetadataWithEpoch (inl parentData) epoch) =>
        let names := default [] (FileOrDirNames parentData) in
        if bool_decide (itemToAdd ∈ names)
        then (Throws (ErrorObj (itemText +:+ " already listed in the parent directory list")), w2)
        else
          swarm_socUpload (privateKey wallet) batch
            (feedIdentifier parentPath (Some (epoch_getNextEpoch epoch getUnixTimestamp)))
            (encryptBytes podPassword
               (ContentItems.getRawDirectoryMetadataBytes
                  (mkRawDirectoryMetadata
                     (ContentItems.setModificationTime (Meta parentData) getUnixTimestamp)
                     (Some (names ++ [itemToAdd])))))
            w2
    | _ => (Throws (ErrorObj "Parent directory does not exist"), w2)
    end.
Proof.
  intros NP NE owner fullPath itemText itemToAdd w2 Hnew.
  unfold ContentItems.addEntryToDirectory.
  destruct (decide (parentPath = EmptyString)) as [|_]; [contradiction|].
  destruct (decide (entryPath = EmptyString)) as [|_]; [contradiction|].
  unfold prepareEthAddress. fold owner fullPath itemText itemToAdd.
  change (bee (swarmConnection batch)) with swarmBee.
  unfold bind at 1. rewrite assertItemIsNotExists_swarm, Hnew.
  unfold bind at 1. unfold tryCatch, bind. rewrite getRawMetadata_swarm.
  rewrite logged_logged. simpl app. fold w2. rewrite rawMetadataAt_logged.
  destruct (rawMetadataAt w owner podPassword parentPath) as [[[d|f] e]|err];
    simpl; try reflexivity.
  destruct (bool_decide (itemToAdd ∈ default [] (FileOrDirNames d))); reflexivity.
Qed.

(** When something is stored at the full path, the probe is the only
    request. *)
Lemma addEntryToDirectory_exists batch wallet podPassword (parentPath entryPath : string)
  (isFile : bool) w :
  parentPath ≠ EmptyString -> entryPath ≠ EmptyString ->
  existsAt w (address wallet) (combine [parentPath; entryPath]) = true ->
  ContentItems.addEntryToDirectory (swarmConnection batch) wallet podPassword
    parentPath entryPath isFile w
  = (Throws (ErrorObj (ContentItems.alreadyUploaded
                         (if isFile then "File" else "Directory")
                         (combine [parentPath; entryPath]))),
     logged w [ReqLookup (address wallet)
                 (bmtHashString (combine [parentPath; entryPath]))]).
Proof.
  intros NP NE Hthere. unfold ContentItems.addEntryToDirectory.
  rewrite decide_False by exact NP. rewrite decide_False by exact NE.
  unfold prepareEthAddress.
  change (bee (swarmConnection batch)) with swarmBee.
  unfold bind at 1. rewrite assertItemIsNotExists_swarm, Hthere. reflexivity.
Qed.

(** C5.  When an item is already stored at the full path, adding the
    entry (a directory for [isFile = false], a file for [isFile = true])
    fails with "already uploaded to the network" after a single request,
    the lookup of the full path: the parent listing is neither fetched nor
    written.  When nothing is stored at the full path but the
    token-prefixed name is already in the parent's [FileOrDirNames], it
    fails with "already listed in the parent directory list" after the two
    lookups, and nothing is written. *)
Theorem addEntryToDirectory_already_exists
  batch wallet podPassword (parentPath entryPath : string) (isFile : bool) w :
  parentPath ≠ EmptyString -> entryPath ≠ EmptyString ->
  let owner := address wallet in
  let fullPath := combine [parentPath; entryPath] in
  let itemText := if isFile then "File" else "Directory" in
  let itemToAdd :=
    (if isFile then ContentItems.FILE_TOKEN else ContentItems.DIRECTORY_TOKEN)
      +:+ entryPath in
  (existsAt w owner fullPath = true ->
   ContentItems.addEntryToDirectory (swarmConnection batch) wallet podPassword
     parentPath entryPath isFile w
   = (Throws (ErrorObj (ContentItems.alreadyUploaded itemText fullPath)),
      logged w [ReqLookup owner (bmtHashString fullPath)]))
  ∧ (∀ parentData epoch,
       existsAt w owner fullPath = false ->
       rawMetadataAt w owner podPassword parentPath
       = Returns (ContentItems.mkRawMetadataWithEpoch (inl parentData) epoch) ->
       itemToAdd ∈ default [] (FileOrDirNames parentData) ->
       ContentItems.addEntryToDirectory (swarmConnection batch) wallet podPassword
         parentPath entryPath isFile w
       = (Throws (ErrorObj (itemText +:+ " already listed in the parent directory list")),
          logged w [ReqLookup owner (bmtHashString fullPath);
                    ReqLookup owner (bmtHashString parentPath)])).
Proof.
  intros NP NE owner fullPath itemText itemToAdd. split.
  - intros Hex. unfold ContentItems.addEntryToDirectory.
    destruct (decide (parentPath = EmptyString)) as [|_]; [contradiction|].
    destruct (decide (entryPath = EmptyString)) as [|_]; [contradiction|].
    unfold prepareEthAddress. fold owner fullPath itemText.
    change (bee (swarmConnection batch)) with swarmBee.
    unfold bind at 1. rewrite assertItemIsNotExists_swarm, Hex. reflexivity.
  - intros parentData epoch Hnew Hparent Hin.
    rewrite addEntryToDirectory_swarm by assumption.
    fold owner. rewrite Hparent. cbv zeta. fold itemToAdd.
    rewrite bool_decide_eq_true_2 by exact Hin. reflexivity.
Qed.

(** C4.  For a new child (nothing is stored at its full path yet) whose
    parent has no stored metadata, adding the entry fails with "Parent
    directory does not exist" after the two lookups, and so does directory
    creation: the store holds what it held before, so neither the parent
    listing nor the metadata of the child was written.  Whatever is stored
    at the child's path, adding an entry under a parent without metadata
    throws and leaves the store as it was. *)
Theorem parent_not_found batch wallet podPassword w :
  let owner := address wallet in
  (∀ (parentPath entryPath : string) (isFile : bool),
     parentPath ≠ EmptyString -> entryPath ≠ EmptyString ->
     existsAt w owner (combine [parentPath; entryPath]) = false ->
     existsAt w owner parentPath = false ->
     ContentItems.addEntryToDirectory (swarmConnection batch) wallet podPassword
       parentPath entryPath isFile w
     = (Throws (ErrorObj "Parent directory does not exist"),
        logged w [ReqLookup owner (bmtHashString (combine [parentPath; entryPath]));
                  ReqLookup owner (bmtHashString parentPath)]))
  ∧ (∀ fullPath : string,
       let parts := getPathParts fullPath in
       let name := List.last parts EmptyString in
       let parentPath := getPathFromParts parts 1 in
       assertPartsLength parts = Returns tt ->
       assertDirectoryName name = Returns tt ->
       parentPath ≠ EmptyString -> name ≠ EmptyString ->
       existsAt w owner (combine [parentPath; name]) = false ->
       existsAt w owner parentPath = false ->
       DirectoryHandler.createDirectory (swarmConnection batch) fullPath wallet
         podPassword w
       = (Throws (ErrorObj "Parent directory does not exist"),
          logged w [ReqLookup owner (bmtHashString (combine [parentPath; name]));
                    ReqLookup owner (bmtHashString parentPath)]))
  ∧ (∀ (parentPath entryPath : string) (isFile : bool),
       existsAt w owner parentPath = false ->
       ∃ e l,
         ContentItems.addEntryToDirectory (swarmConnection batch) wallet podPassword
           parentPath entryPath isFile w
         = (Throws e, logged w l)).
Proof.
  intros owner.
  assert (Hadd : ∀ (parentPath entryPath : string) (isFile : bool),
     parentPath ≠ EmptyString -> entryPath ≠ EmptyString ->
     existsAt w owner (combine [parentPath; entryPath]) = false ->
     existsAt w owner parentPath = false ->
     ContentItems.addEntryToDirectory (swarmConnection batch) wallet podPassword
       parentPath entryPath isFile w
     = (Throws (ErrorObj "Parent directory does not exist"),
        logged w [ReqLookup owner (bmtHashString (combine [parentPath; entryPath]));
                  ReqLookup owner (bmtHashString parentPath)])).
  { intros parentPath entryPath isFile NP NE Hnew Hparent.
    rewrite addEntryToDirectory_swarm by assumption.
    fold owner. now rewrite (existsAt_false_rawMetadataAt _ _ _ _ Hparent). }
  split; [exact Hadd|]. split.
  - intros fullPath parts name parentPath Hparts Hname NP NE Hnew Hparent.
    unfold DirectoryHandler.createDirectory. fold parts. rewrite Hparts.
    rewrite bind_lift_returns. fold name. rewrite Hname, bind_lift_returns.
    fold parentPath.
    now rewrite (bind_throws _ _ _ _ _ (Hadd parentPath name false NP NE Hnew Hparent)).
  - intros parentPath entryPath isFile Hparent.
    destruct (decide (parentPath = EmptyString)) as [Ep|NP].
    { exists (ErrorObj "Incorrect parent path"), [].
      unfold ContentItems.addEntryToDirectory. rewrite decide_True by exact Ep.
      now rewrite logged_nil. }
    destruct (decide (entryPath = EmptyString)) as [Ee|NE].
    { exists (ErrorObj "Incorrect entry path"), [].
      unfold ContentItems.addEntryToDirectory. rewrite decide_False by exact NP.
      rewrite decide_True by exact Ee. now rewrite logged_nil. }
    destruct (existsAt w owner (combine [parentPath; entryPath])) eqn:Hnew.
    + eexists _, _. apply addEntryToDirectory_exists; assumption.
    + eexists _, _. apply Hadd; assumption.
Qed.

End AddEntry.

(** C4 on a concrete store: a pod with its root directory only;
    creating [/a/b] before [/a]. *)
Lemma parent_not_found_witness :
  fst (DirectoryHandler.createDirectory Toy.conn "/a/b" Toy.podWallet Toy.password
         Toy.withPod)
  = Throws (ErrorObj "Parent directory does not exist").
Proof.
  unfold Toy.conn.
  rewrite (proj1 (proj2 (parent_not_found "batch" Toy.podWallet Toy.password
                           Toy.withPod)) "/a/b");
    [reflexivity | vm_compute; congruence ..].
Defined.

(** C5 on concrete stores: [/a] is created, then added again; and an
    entry that is listed in the root while nothing is stored at its path. *)
Lemma addEntryToDirectory_already_exists_witness :
  let created :=
    snd (DirectoryHandler.createDirectory Toy.conn "/a" Toy.podWallet Toy.password
           Toy.withPod) in
  let listed :=
    snd (ContentItems.addEntryToDirectory Toy.conn Toy.podWallet Toy.password
           "/" "a" false Toy.withPod) in
  fst (ContentItems.addEntryToDirectory Toy.conn Toy.podWallet Toy.password "/" "a"
         false created)
  = Throws (ErrorObj (ContentItems.alreadyUploaded "Directory" "/a"))
  ∧ fst (ContentItems.addEntryToDirectory Toy.conn Toy.podWallet Toy.password "/" "a"
           false listed)
    = Throws (ErrorObj "Directory already listed in the parent directory list").
Proof.
  intros created listed. unfold Toy.conn. split.
  - destruct (addEntryToDirectory_already_exists "batch" Toy.podWallet Toy.password
                "/" "a" false created) as [Hex _]; [discriminate | discriminate |].
    rewrite Hex; [reflexivity | vm_compute; reflexivity].
  - destruct (addEntryToDirectory_already_exists "batch" Toy.podWallet Toy.password
                "/" "a" false listed) as [_ Hlisted]; [discriminate | discriminate |].
    erewrite Hlisted; [reflexivity | vm_compute; reflexivity | vm_compute; reflexivity |].
    apply (bool_decide_unpack _). vm_compute. exact I.
Defined.

(* ===================================================================== *)
(** * The concrete collaborators satisfy the laws *)
(* ===================================================================== *)

Lemma toy_bytes_to_pos (p : positive) : Toy.bytes_to_pos (Toy.pos_to_bytes p) = p.
Proof.
  induction p as [p IH|p IH|]; simpl; rewrite ?IH; reflexivity.
Qed.

Lemma mapM_map_Some {A B} (f : A -> B) (g : B -> option A) (l : list A) :
  (∀ x, g (f x) = Some x) -> mapM g (map f l) = Some l.
Proof.
  intros Hgf. induction l as [|x l IH]; [reflexivity|].
  simpl. rewrite Hgf. simpl. rewrite IH. reflexivity.
Qed.

Lemma toy_pod_fields (p : Pod) : Toy.pod_of_fields (Toy.pod_fields p) = Some p.
Proof.
  destruct p. unfold Toy.pod_of_fields, Toy.pod_fields.
  rewrite !decode_encode. reflexivity.
Qed.

Lemma toy_block_fields (b : Block) : Toy.block_of_fields (Toy.block_fields b) = Some b.
Proof.
  destruct b. unfold Toy.block_of_fields, Toy.block_fields.
  rewrite !decode_encode. reflexivity.
Qed.

Lemma toy_dir_fields (d : RawDirectoryMetadata) :
  Toy.dir_of_fields (Toy.dir_fields d) = Some d.
Proof.
  destruct d as [[] ?]. unfold Toy.dir_of_fields, Toy.dir_fields.
  rewrite !decode_encode. reflexivity.
Qed.

Lemma toy_file_fields (m : FileMetadata) :
  Toy.file_of_fields (Toy.file_fields m) = Some m.
Proof.
  destruct m. unfold Toy.file_of_fields, Toy.file_fields.
  rewrite !decode_encode. reflexivity.
Qed.

Lemma toy_document_fields (doc : Document) :
  Toy.document_of_fields (Toy.document_fields doc) = Some doc.
Proof.
  destruct doc as [d|f|[b]|pods]; unfold Toy.document_of_fields, Toy.document_fields.
  - now rewrite toy_dir_fields.
  - now rewrite toy_file_fields.
  - cbn [blocks]. now rewrite (mapM_map_Some _ _ _ toy_block_fields).
  - now rewrite (mapM_map_Some _ _ _ toy_pod_fields).
Qed.

Lemma toy_jsonRoundTrip : jsonRoundTrip.
Proof.
  intros doc. change (Toy.toy_parse (Toy.toy_stringify doc) = Some doc).
  unfold Toy.toy_parse, Toy.toy_stringify.
  rewrite toy_bytes_to_pos, decode_encode. apply toy_document_fields.
Qed.

Lemma toy_cipherRoundTrip : cipherRoundTrip.
Proof.
  intros password data. simpl. unfold Toy.toy_decryptBytes, Toy.toy_encryptBytes.
  rewrite take_app_length, decide_True by reflexivity.
  now rewrite drop_app_length.
Qed.

Lemma toy_addressInjective : addressInjective.
Proof.
  intros a b E. simpl in E.
  rewrite <- (String.list_byte_of_string_of_list_byte a).
  rewrite <- (String.list_byte_of_string_of_list_byte b).
  now rewrite E.
Qed.

(* ===================================================================== *)
(** * The pod list (C3, C6, C10) *)
(* ===================================================================== *)

Section Pods.
Context `{Externals}.

Variables (batch : string) (rootWallet : HDNode) (seed : PrivateKey).

Let acc : AccountData Swarm :=
  mkAccountData Swarm (swarmConnection batch) (Some rootWallet) seed.
Let owner : EthAddress := address rootWallet.
Let podsLookup : Request := ReqLookup owner (bmtHashString PodUtils.POD_TOPIC).

Lemma podsInfoAt_logged w l a : podsInfoAt (logged w l) a = podsInfoAt w a.
Proof. reflexivity. Qed.

Lemma list_swarm w :
  PersonalStorage.list_ acc w
  = (match podsInfoAt w owner with
     | Returns info => Returns (PodUtils.pods info)
     | Throws e => Throws e
     end, logged w [podsLookup]).
Proof.
  unfold PersonalStorage.list_, PodUtils.assertActiveAccount, PodUtils.assertWallet, acc.
  cbn [wallet connection bee swarmConnection]. rewrite bind_lift_returns.
  unfold bind. unfold prepareEthAddress. rewrite getPodsList_swarm.
  fold owner. destruct (podsInfoAt w owner); reflexivity.
Qed.

Lemma list_returns w pods :
  fst (PersonalStorage.list_ acc w) = Returns pods ->
  ∃ answer, podsInfoAt w owner = Returns (PodUtils.mkPodsInfo pods answer).
Proof.
  rewrite list_swarm. simpl. destruct (podsInfoAt w owner) as [[p a]|e]; intros E.
  - inversion E; subst. eauto.
  - discriminate.
Qed.

Lemma existsb_name_false (pods : list Pod) (n : string) :
  n ∉ map pod_name pods ->
  existsb (fun item => bool_decide (pod_name item = n)) pods = false.
Proof.
  induction pods as [|p pods IH]; simpl; intros N; [reflexivity|].
  rewrite not_elem_of_cons in N. destruct N as [N1 N2].
  rewrite bool_decide_eq_false_2 by congruence. now apply IH.
Qed.

Lemma existsb_name_true (pods : list Pod) (n : string) :
  n ∈ map pod_name pods ->
  existsb (fun item => bool_decide (pod_name item = n)) pods = true.
Proof.
  induction pods as [|p pods IH]; simpl; intros N.
  - inversion N.
  - rewrite elem_of_cons in N. destruct (decide (pod_name p = n)) as [E|E].
    + now rewrite bool_decide_eq_true_2.
    + rewrite bool_decide_eq_false_2 by exact E. apply IH.
      destruct N as [N|N]; [congruence | exact N].
Qed.

Lemma find_name_none (pods : list Pod) (n : string) :
  n ∉ map pod_name pods ->
  find (fun item => bool_decide (pod_name item = n)) pods = None.
Proof.
  induction pods as [|p pods IH]; simpl; intros N; [reflexivity|].
  rewrite not_elem_of_cons in N. destruct N as [N1 N2].
  rewrite bool_decide_eq_false_2 by congruence. now apply IH.
Qed.

Lemma find_name_some (pods : list Pod) (n : string) :
  n ∈ map pod_name pods ->
  ∃ pod, find (fun item => bool_decide (pod_name item = n)) pods = Some pod.
Proof.
  induction pods as [|p pods IH]; simpl; intros N.
  - inversion N.
  - rewrite elem_of_cons in N. destruct (decide (pod_name p = n)) as [E|E].
    + rewrite bool_decide_eq_true_2 by exact E. eauto.
    + rewrite bool_decide_eq_false_2 by exact E. apply IH.
      destruct N as [N|N]; [congruence | exact N].
Qed.

Lemma create_swarm (name : string) w info :
  podsInfoAt w owner = Returns info ->
  PodUtils.assertPodName (trim name) = Returns tt ->
  length (PodUtils.pods info) + 1 <= MAX_PODS_COUNT ->
  trim name ∉ map pod_name (PodUtils.pods info) ->
  PersonalStorage.create acc name w
  = (Returns (mkPod (trim name) (length (PodUtils.pods info) + 1) None),
     afterCreate batch rootWallet w info (trim name)).
Proof.
  intros Hinfo Hvalid Hlen Hfresh.
  unfold PersonalStorage.create, PodUtils.assertActiveAccount, PodUtils.assertWallet, acc.
  cbn [wallet connection bee swarmConnection]. rewrite bind_lift_returns.
  rewrite Hvalid, bind_lift_returns. unfold prepareEthAddress. fold owner.
  unfold bind at 1. rewrite getPodsList_swarm, Hinfo.
  unfold PodUtils.assertPodsLength.
  destruct (decide (MAX_PODS_COUNT < length (PodUtils.pods info) + 1)) as [L|_]; [lia|].
  rewrite bind_lift_returns.
  unfold PodUtils.assertPodNameAvailable. rewrite existsb_name_false by exact Hfresh.
  rewrite bind_lift_returns. reflexivity.
Qed.

(** After a successful [create] the list read back is the old one with
    the new pod appended. *)
Lemma podsInfoAt_afterCreate w info (n : string) :
  jsonRoundTrip ->
  address (getWalletByIndex (privateKey rootWallet) (length (PodUtils.pods info) + 1))
    ≠ owner ->
  ∃ answer,
    podsInfoAt (afterCreate batch rootWallet w info n) owner
    = Returns (PodUtils.mkPodsInfo
                 (PodUtils.pods info
                    ++ [mkPod n (length (PodUtils.pods info) + 1) None])
                 (Some answer)).
Proof.
  intros Hjson Hdistinct. unfold afterCreate, podsInfoAt.
  unfold PersonalStorage.createRootDirectory, PersonalStorage.writeFeedData.
  rewrite writeFeedDataRaw_swarm, feedAnswer_socUpload.
  case_decide as E; [exfalso; apply Hdistinct; injection E as E _; exact E|].
  rewrite feedAnswer_socUpload. case_decide as E2; [|exfalso; apply E2; reflexivity].
  simpl la_data. unfold PodUtils.podListToBytes. rewrite Hjson. eauto.
Qed.


Lemma filter_name_fresh (pods : list Pod) (n : string) :
  n ∉ map pod_name pods -> filter (fun p => pod_name p = n) pods = [].
Proof.
  induction pods as [|p pods IH]; intros N; [reflexivity|].
  simpl in N. rewrite not_elem_of_cons in N. destruct N as [N1 N2].
  rewrite filter_cons_False by congruence. now apply IH.
Qed.

(** C6, with the name as [create] registers it.  For a name whose trimmed
    form [trim name] is valid and not yet in the list, on an account below
    the cap, [create] returns and appends the pod named [trim name] with
    index [length pods + 1] (1 on an empty account); [list] then contains
    exactly one pod named [trim name]; a second [create] of the name fails,
    with "already exists" as long as the cap leaves room for one more pod. *)
Theorem create_then_list (name : string) (w : Swarm) (pods : list Pod) :
  let n := trim name in
  let newPod := mkPod n (length pods + 1) None in
  jsonRoundTrip ->
  fst (PersonalStorage.list_ acc w) = Returns pods ->
  PodUtils.assertPodName n = Returns tt ->
  n ∉ map pod_name pods ->
  length pods + 1 <= MAX_PODS_COUNT ->
  address (getWalletByIndex (privateKey rootWallet) (length pods + 1)) ≠ owner ->
  ∃ w',
    PersonalStorage.create acc name w = (Returns newPod, w')
    ∧ fst (PersonalStorage.list_ acc w') = Returns (pods ++ [newPod])
    ∧ length (filter (fun p => pod_name p = n) (pods ++ [newPod])) = 1
    ∧ (pods = [] -> pod_index newPod = 1)
    ∧ ∃ e, fst (PersonalStorage.create acc name w') = Throws e
           ∧ (length pods + 2 <= MAX_PODS_COUNT -> e = ErrorObj (PodUtils.podExists n)).
Proof.
  intros n newPod Hjson Hlist Hvalid Hfresh Hlen Hdistinct.
  destruct (list_returns _ _ Hlist) as [answer Hinfo].
  exists (afterCreate batch rootWallet w (PodUtils.mkPodsInfo pods answer) n).
  destruct (podsInfoAt_afterCreate w (PodUtils.mkPodsInfo pods answer) n Hjson Hdistinct)
    as [answer' Hinfo'].
  simpl in Hinfo'. fold newPod in Hinfo'.
  split; [|split; [|split; [|split]]].
  - apply (create_swarm name w _ Hinfo Hvalid Hlen Hfresh).
  - rewrite list_swarm, Hinfo'. reflexivity.
  - rewrite list.filter_app, filter_name_fresh by exact Hfresh.
    rewrite filter_cons_True by reflexivity. reflexivity.
  - intros ->. reflexivity.
  - unfold PersonalStorage.create, PodUtils.assertActiveAccount, PodUtils.assertWallet, acc.
    cbn [wallet connection bee swarmConnection]. rewrite bind_lift_returns.
    fold n. rewrite Hvalid, bind_lift_returns. unfold prepareEthAddress. fold owner.
    unfold bind at 1. rewrite getPodsList_swarm, Hinfo'.
    cbn [PodUtils.pods]. unfold PodUtils.assertPodsLength.
    destruct (decide (MAX_PODS_COUNT < length (pods ++ [newPod]) + 1)) as [L|L].
    + rewrite bind_lift_throws. eexists. split; [reflexivity|].
      intros Hroom. rewrite length_app in L. simpl in L. lia.
    + rewrite bind_lift_returns. unfold PodUtils.assertPodNameAvailable.
      rewrite existsb_name_true.
      * rewrite bind_lift_throws. eexists. split; [reflexivity | reflexivity].
      * rewrite map_app. apply elem_of_app. right. simpl. apply list_elem_of_singleton.
        reflexivity.
Qed.


Lemma podsInfoAt_no_answer w a pods :
  podsInfoAt w a = Returns (PodUtils.mkPodsInfo pods None) -> pods = [].
Proof.
  unfold podsInfoAt. destruct (feedAnswer w a PodUtils.POD_TOPIC) as [answer|e].
  - destruct (parse (la_data answer)) as [[d|f|b|p]|]; intros E; inversion E.
  - intros E. now inversion E.
Qed.

Lemma delete_absent_swarm (name : string) w pods :
  fst (PersonalStorage.list_ acc w) = Returns pods ->
  length pods <= MAX_PODS_COUNT ->
  trim name ∉ map pod_name pods ->
  PersonalStorage.delete acc name w
  = (Throws (ErrorObj (PodUtils.podDoesNotExist (trim name))), logged w [podsLookup]).
Proof.
  intros Hlist Hlen Habsent. destruct (list_returns _ _ Hlist) as [answer Hinfo].
  unfold PersonalStorage.delete, PodUtils.assertActiveAccount, PodUtils.assertWallet, acc.
  cbn [wallet connection bee swarmConnection]. rewrite bind_lift_returns.
  unfold prepareEthAddress. fold owner.
  unfold bind at 1. rewrite getPodsList_swarm, Hinfo. cbn [PodUtils.pods].
  unfold PodUtils.assertPodsLength.
  destruct (decide (MAX_PODS_COUNT < length pods)) as [L|_]; [lia|].
  rewrite bind_lift_returns. now rewrite find_name_none by exact Habsent.
Qed.

(** The store after a successful [delete]. *)
Lemma delete_present_swarm (name : string) w pods :
  fst (PersonalStorage.list_ acc w) = Returns pods ->
  length pods <= MAX_PODS_COUNT ->
  trim name ∈ map pod_name pods ->
  ∃ epoch,
    PersonalStorage.delete acc name w
    = (Returns tt,
       snd (swarm_socUpload (privateKey rootWallet) batch
              (feedIdentifier PodUtils.POD_TOPIC (Some epoch))
              (PodUtils.podListToBytes
                 (filter (fun item => pod_name item ≠ trim name) pods))
              (logged w [podsLookup]))).
Proof.
  intros Hlist Hlen Hpresent. destruct (list_returns _ _ Hlist) as [answer Hinfo].
  destruct answer as [answer|].
  2:{ apply podsInfoAt_no_answer in Hinfo. subst pods. inversion Hpresent. }
  exists (epoch_getNextEpoch (la_epoch answer) getUnixTimestamp).
  unfold PersonalStorage.delete, PodUtils.assertActiveAccount, PodUtils.assertWallet, acc.
  cbn [wallet connection bee swarmConnection]. rewrite bind_lift_returns.
  unfold prepareEthAddress. fold owner.
  unfold bind at 1. rewrite getPodsList_swarm, Hinfo.
  cbn [PodUtils.pods PodUtils.lookupAnswer]. unfold PodUtils.assertPodsLength.
  destruct (decide (MAX_PODS_COUNT < length pods)) as [L|_]; [lia|].
  rewrite bind_lift_returns.
  destruct (find_name_some pods (trim name) Hpresent) as [pod ->].
  reflexivity.
Qed.

Lemma list_after_write w key epoch (pods : list Pod) :
  jsonRoundTrip ->
  addressOfKey key = owner ->
  fst (PersonalStorage.list_ acc
         (snd (swarm_socUpload key batch (feedIdentifier PodUtils.POD_TOPIC epoch)
                 (PodUtils.podListToBytes pods) w)))
  = Returns pods.
Proof.
  intros Hjson Hkey. rewrite list_swarm. unfold podsInfoAt.
  rewrite feedAnswer_socUpload. rewrite Hkey.
  case_decide as E; [|exfalso; apply E; reflexivity].
  simpl. unfold PodUtils.podListToBytes. now rewrite Hjson.
Qed.

End Pods.

(** [create] and [delete] only look at the trimmed name. *)
Lemma create_trim {W} `{Externals} (acc : AccountData W) (n1 n2 : string) :
  trim n1 = trim n2 ->
  PersonalStorage.create acc n1 = PersonalStorage.create acc n2
  ∧ PersonalStorage.delete acc n1 = PersonalStorage.delete acc n2.
Proof.
  intros E. unfold PersonalStorage.create, PersonalStorage.delete.
  rewrite E. split; reflexivity.
Qed.

Lemma create_returns_trimmed {W} `{Externals} (acc : AccountData W) (n : string) w pod w' :
  PersonalStorage.create acc n w = (Returns pod, w') -> pod_name pod = trim n.
Proof.
  unfold PersonalStorage.create. intros E.
  repeat (apply bind_inv_returns in E; destruct E as (? & ? & _ & E)).
  unfold ret in E. inversion E. reflexivity.
Qed.

(** C10.  [create] and [delete] trim the name they are given before they
    validate it or compare it with the stored list: two names with the same
    trimmed form give the same computation; the pod [create] returns and
    registers is named [trim n]; [delete] removes the pods named [trim n]. *)
Theorem pod_names_trimmed `{Externals} :
  (∀ W (acc : AccountData W) (n1 n2 : string),
     trim n1 = trim n2 ->
     PersonalStorage.create acc n1 = PersonalStorage.create acc n2
     ∧ PersonalStorage.delete acc n1 = PersonalStorage.delete acc n2)
  ∧ (∀ W (acc : AccountData W) (n : string) w pod w',
       PersonalStorage.create acc n w = (Returns pod, w') -> pod_name pod = trim n)
  ∧ (∀ batch rootWallet seed (n : string) (w : Swarm) (pods : list Pod),
       let acc := mkAccountData Swarm (swarmConnection batch) (Some rootWallet) seed in
       jsonRoundTrip ->
       fst (PersonalStorage.list_ acc w) = Returns pods ->
       PodUtils.assertPodName (trim n) = Returns tt ->
       trim n ∉ map pod_name pods ->
       length pods + 1 <= MAX_PODS_COUNT ->
       address (getWalletByIndex (privateKey rootWallet) (length pods + 1))
         ≠ address rootWallet ->
       ∃ w',
         PersonalStorage.create acc n w
         = (Returns (mkPod (trim n) (length pods + 1) None), w')
         ∧ fst (PersonalStorage.list_ acc w')
           = Returns (pods ++ [mkPod (trim n) (length pods + 1) None]))
  ∧ (∀ batch rootWallet seed (n : string) (w : Swarm) (pods : list Pod),
       let acc := mkAccountData Swarm (swarmConnection batch) (Some rootWallet) seed in
       jsonRoundTrip ->
       fst (PersonalStorage.list_ acc w) = Returns pods ->
       length pods <= MAX_PODS_COUNT ->
       trim n ∈ map pod_name pods ->
       ∃ w',
         PersonalStorage.delete acc n w = (Returns tt, w')
         ∧ fst (PersonalStorage.list_ acc w')
           = Returns (filter (fun item => pod_name item ≠ trim n) pods)).
Proof.
  split; [|split; [|split]].
  - intros W acc n1 n2. apply create_trim.
  - intros W acc n w pod w'. apply create_returns_trimmed.
  - intros batch rootWallet seed n w pods acc Hjson Hlist Hvalid Hfresh Hlen Hdistinct.
    destruct (list_returns batch rootWallet seed _ _ Hlist) as [answer Hinfo].
    eexists. split.
    + apply (create_swarm batch rootWallet seed n w _ Hinfo Hvalid Hlen Hfresh).
    + destruct (podsInfoAt_afterCreate batch rootWallet w
                  (PodUtils.mkPodsInfo pods answer) (trim n) Hjson Hdistinct)
        as [answer' Hinfo'].
      unfold acc. rewrite list_swarm, Hinfo'. reflexivity.
  - intros batch rootWallet seed n w pods acc Hjson Hlist Hlen Hpresent.
    destruct (delete_present_swarm batch rootWallet seed n w pods Hlist Hlen Hpresent)
      as [epoch Hdelete].
    eexists. split; [exact Hdelete|].
    apply list_after_write; [exact Hjson | reflexivity].
Qed.

(** C6 on a concrete store: the first pod of an empty account. *)
Lemma create_then_list_witness :
  ∃ w',
    PersonalStorage.create Toy.account " docs " Toy.emptySwarm
    = (Returns (mkPod "docs" 1 None), w')
    ∧ fst (PersonalStorage.list_ Toy.account w') = Returns [mkPod "docs" 1 None]
    ∧ fst (PersonalStorage.create Toy.account " docs " w')
      = Throws (ErrorObj (PodUtils.podExists "docs")).
Proof.
  destruct (create_then_list "batch" (mkHDNode "root-key") "root-key" " docs "
              Toy.emptySwarm [] toy_jsonRoundTrip)
    as (w' & Hcreate & Hlist & _ & _ & e & Hagain & He);
    [reflexivity | reflexivity | vm_compute; inversion 1 | vm_compute; lia
    | vm_compute; congruence |].
  exists w'. split; [exact Hcreate | split; [exact Hlist|]].
  unfold Toy.account, Toy.conn. rewrite Hagain. f_equal. apply He. vm_compute. lia.
Defined.

(** C6 read with the name as given: [" docs "] is non-empty, short and
    without comma, and not in the empty list; [create] succeeds, and the
    list then holds the single pod ["docs"], so no pod is named as the
    argument was. *)
Lemma create_untrimmed_name_counterexample :
  let name := " docs " in
  let r := PersonalStorage.create Toy.account name Toy.emptySwarm in
  PodUtils.assertPodName name = Returns tt
  ∧ fst (PersonalStorage.list_ Toy.account Toy.emptySwarm) = Returns []
  ∧ fst r = Returns (mkPod "docs" 1 None)
  ∧ fst (PersonalStorage.list_ Toy.account (snd r)) = Returns [mkPod "docs" 1 None]
  ∧ filter (fun p => pod_name p = name) [mkPod "docs" 1 None] = [].
Proof.
  cbv zeta. split; [reflexivity|]. split; [reflexivity|].
  split; [vm_compute; reflexivity|]. split; [vm_compute; reflexivity|].
  reflexivity.
Qed.

(** C10 on a concrete store: a pod created and deleted under names that
    differ in surrounding white space. *)
Lemma pod_names_trimmed_witness :
  ∃ w1 w2,
    PersonalStorage.create Toy.account "  docs" Toy.emptySwarm
    = (Returns (mkPod "docs" 1 None), w1)
    ∧ PersonalStorage.delete Toy.account "docs  " w1 = (Returns tt, w2)
    ∧ fst (PersonalStorage.list_ Toy.account w2) = Returns [].
Proof.
  destruct pod_names_trimmed as (_ & _ & Hcreate & Hdelete).
  destruct (Hcreate "batch" (mkHDNode "root-key") "root-key" "  docs" Toy.emptySwarm []
              toy_jsonRoundTrip)
    as (w1 & Hc & Hl);
    [reflexivity | reflexivity | vm_compute; inversion 1 | vm_compute; lia
    | vm_compute; congruence |].
  destruct (Hdelete "batch" (mkHDNode "root-key") "root-key" "docs  " w1 _
              toy_jsonRoundTrip Hl)
    as (w2 & Hd & Hl2);
    [vm_compute; lia | vm_compute; apply list_elem_of_singleton; reflexivity |].
  exists w1, w2. split; [exact Hc | split; [exact Hd | exact Hl2]].
Defined.

(* ===================================================================== *)
(** * Deleting what is not there (C3) *)
(* ===================================================================== *)

Section RemoveEntry.
Context `{Externals}.

Lemma filter_absent (names : list string) (item : string) :
  item ∉ names -> filter (fun name => name ≠ item) names = names.
Proof.
  induction names as [|x names IH]; intros N; [reflexivity|].
  rewrite not_elem_of_cons in N. destruct N as [N1 N2].
  rewrite filter_cons_True by congruence. now rewrite IH.
Qed.

Lemma removeEntryFromDirectory_swarm
  batch wallet podPassword (parentPath entryPath : string) (isFile : bool) w d e :
  let owner := address wallet in
  let itemToRemove :=
    (if isFile then ContentItems.FILE_TOKEN else ContentItems.DIRECTORY_TOKEN)
      +:+ entryPath in
  rawMetadataAt w owner podPassword parentPath
  = Returns (ContentItems.mkRawMetadataWithEpoch (inl d) e) ->
  ContentItems.removeEntryFromDirectory (swarmConnection batch) wallet podPassword
    parentPath entryPath isFile w
  = swarm_socUpload (privateKey wallet) batch
      (feedIdentifier parentPath (Some (epoch_getNextEpoch e getUnixTimestamp)))
      (encryptBytes podPassword
         (ContentItems.getRawDirectoryMetadataBytes
            match FileOrDirNames d with
            | Some names =>
                mkRawDirectoryMetadata (Meta d)
                  (Some (filter (fun name => name ≠ itemToRemove) names))
            | None => d
            end))
      (logged w [ReqLookup owner (bmtHashString parentPath)]).
Proof.
  intros owner itemToRemove Hparent.
  unfold ContentItems.removeEntryFromDirectory.
  change (bee (swarmConnection batch)) with swarmBee. unfold prepareEthAddress.
  fold owner. unfold bind at 1. rewrite getRawMetadata_swarm, Hparent.
  cbn [ContentItems.metadata ContentItems.assertRawDirectoryMetadata].
  rewrite bind_lift_returns. reflexivity.
Qed.

End RemoveEntry.

(** C3, as amended.  Deleting a pod whose (trimmed) name is not in the
    list fails with "does not exist" before anything is written: the store
    holds what it held and [list] answers as before.  Deleting a directory
    or a file goes through [removeEntryFromDirectory], which has no
    existence check: for an entry that the parent does not list it returns
    normally after one feed write, the parent record written again as it
    was, so that the parent read afterwards lists the same names. *)
Theorem delete_of_absent_name `{Externals} (batch : string) (w : Swarm) :
  (∀ rootWallet seed (name : string) (pods : list Pod),
     let acc := mkAccountData Swarm (swarmConnection batch) (Some rootWallet) seed in
     fst (PersonalStorage.list_ acc w) = Returns pods ->
     length pods <= MAX_PODS_COUNT ->
     trim name ∉ map pod_name pods ->
     ∃ w',
       PersonalStorage.delete acc name w
       = (Throws (ErrorObj (PodUtils.podDoesNotExist (trim name))), w')
       ∧ sameStorage w w'
       ∧ requestsSince (fun r => isWrite r = false) w w'
       ∧ fst (PersonalStorage.list_ acc w') = Returns pods)
  ∧ (∀ wallet podPassword (parentPath entryPath : string) (isFile : bool) d e,
       let owner := address wallet in
       let itemToRemove :=
         (if isFile then ContentItems.FILE_TOKEN else ContentItems.DIRECTORY_TOKEN)
           +:+ entryPath in
       let next := epoch_getNextEpoch e getUnixTimestamp in
       cipherRoundTrip -> jsonRoundTrip ->
       rawMetadataAt w owner podPassword parentPath
       = Returns (ContentItems.mkRawMetadataWithEpoch (inl d) e) ->
       itemToRemove ∉ default [] (FileOrDirNames d) ->
       ∃ reference w',
         ContentItems.removeEntryFromDirectory (swarmConnection batch) wallet
           podPassword parentPath entryPath isFile w
         = (Returns reference, w')
         ∧ requests w'
           = requests w
             ++ [ReqLookup owner (bmtHashString parentPath);
                 ReqSocUpload owner (feedIdentifier parentPath (Some next))
                   (encryptBytes podPassword
                      (ContentItems.getRawDirectoryMetadataBytes d))]
         ∧ chunks w' = chunks w
         ∧ rawMetadataAt w' owner podPassword parentPath
           = Returns (ContentItems.mkRawMetadataWithEpoch (inl d) next)).
Proof.
  split.
  - intros rootWallet seed name pods acc Hlist Hlen Habsent.
    exists (logged w [ReqLookup (address rootWallet) (bmtHashString PodUtils.POD_TOPIC)]).
    split; [|split; [|split]].
    + apply (delete_absent_swarm batch rootWallet seed name w pods Hlist Hlen Habsent).
    + split; reflexivity.
    + eexists. split; [reflexivity|]. repeat constructor.
    + unfold acc in *. rewrite list_swarm in *. exact Hlist.
  - intros wallet podPassword parentPath entryPath isFile d e owner itemToRemove next
      Hcipher Hjson Hparent Habsent.
    assert (Hsame :
      match FileOrDirNames d with
      | Some names =>
          mkRawDirectoryMetadata (Meta d)
            (Some (filter (fun name => name ≠ itemToRemove) names))
      | None => d
      end = d).
    { destruct d as [meta [names|]]; simpl in *; [|reflexivity].
      now rewrite filter_absent. }
    rewrite (removeEntryFromDirectory_swarm batch wallet podPassword parentPath entryPath
               isFile w d e Hparent).
    fold owner itemToRemove next. rewrite Hsame.
    eexists _,
      (snd (swarm_socUpload (privateKey wallet) batch
              (feedIdentifier parentPath (Some next))
              (encryptBytes podPassword (ContentItems.getRawDirectoryMetadataBytes d))
              (logged w [ReqLookup owner (bmtHashString parentPath)]))).
    split; [reflexivity|]. split; [|split].
    + simpl. rewrite <- app_assoc. reflexivity.
    + reflexivity.
    + unfold rawMetadataAt. rewrite feedAnswer_socUpload.
      case_decide as E; [|exfalso; apply E; reflexivity].
      unfold decodeMetadata. cbn [la_data la_epoch].
      rewrite Hcipher. unfold ContentItems.getRawDirectoryMetadataBytes.
      rewrite Hjson. reflexivity.
Qed.

(** C3 fails as stated for directories and files: deleting [/ghost],
    which does not exist, returns normally and performs a feed write. *)
Lemma delete_absent_entry_counterexample :
  let dir := DirectoryClass.delete Toy.account "docs" "/ghost" Toy.withPod in
  let file := FileClass.delete Toy.account "docs" "/ghost.txt" Toy.withPod in
  fst dir = Returns tt
  ∧ length (filter isFeedWrite (requests (snd dir)))
    = S (length (filter isFeedWrite (requests Toy.withPod)))
  ∧ fst file = Returns tt
  ∧ length (filter isFeedWrite (requests (snd file)))
    = S (length (filter isFeedWrite (requests Toy.withPod))).
Proof. vm_compute. repeat split. Qed.

(** C3 as amended, on a concrete store. *)
Lemma delete_of_absent_name_witness :
  fst (PersonalStorage.delete Toy.account "ghost" Toy.withPod)
  = Throws (ErrorObj (PodUtils.podDoesNotExist "ghost"))
  ∧ ∃ reference w',
      ContentItems.removeEntryFromDirectory Toy.conn Toy.podWallet Toy.password
        "/" "ghost" false Toy.withPod
      = (Returns reference, w')
      ∧ chunks w' = chunks Toy.withPod.
Proof.
  destruct (delete_of_absent_name "batch" Toy.withPod) as [Hpod Hentry]. split.
  - destruct (Hpod (mkHDNode "root-key") "root-key" "ghost"
                [mkPod "docs" 1 (Some Toy.password)])
      as (w' & Hdelete & _);
      [vm_compute; reflexivity | vm_compute; lia
      | intros Hin; apply list_elem_of_In in Hin; vm_compute in Hin;
        intuition congruence |].
    unfold Toy.account, Toy.conn. now rewrite Hdelete.
  - edestruct (Hentry Toy.podWallet Toy.password "/" "ghost" false)
      as (reference & w' & Hremove & _ & Hchunks & _);
      [exact toy_cipherRoundTrip | exact toy_jsonRoundTrip
      | vm_compute; reflexivity
      | intros Hin; apply list_elem_of_In in Hin; vm_compute in Hin; exact Hin |].
    exists reference, w'. split; [exact Hremove | exact Hchunks].
Defined.

(* ===================================================================== *)
(** * Cutting a payload in blocks *)
(* ===================================================================== *)

Lemma ceilDiv_covers (a b : nat) : 0 < b -> a <= ceilDiv a b * b.
Proof.
  intros Hb. unfold ceilDiv.
  pose proof (Nat.div_mod (a + (b - 1)) b ltac:(lia)) as Hdiv.
  pose proof (Nat.mod_upper_bound (a + (b - 1)) b ltac:(lia)) as Hmod.
  nia.
Qed.

Lemma blocks_concat_take (data : list byte) (b n : nat) :
  concat (map (blockAt data b) (seq 0 n)) = take (n * b) data.
Proof.
  induction n as [|n IH]; [reflexivity|].
  rewrite seq_S, map_app, concat_app, IH. simpl. rewrite app_nil_r.
  unfold blockAt, slice. replace (n + 1) with (S n) by lia.
  transitivity (take (n * b) (take (S n * b) data)
                  ++ drop (n * b) (take (S n * b) data)).
  - f_equal. rewrite take_take. f_equal. lia.
  - apply take_drop.
Qed.

(** Concatenating the blocks in index order gives the payload back. *)
Lemma blocks_concat (data : list byte) (b : nat) :
  0 < b -> concat (map (blockAt data b) (seq 0 (ceilDiv (length data) b))) = data.
Proof.
  intros Hb. rewrite blocks_concat_take. apply take_ge.
  now apply ceilDiv_covers.
Qed.

Lemma sumSizes_from (l : list Block) (a : nat) :
  fold_left (fun total block => total + block_size block) l a
  = a + sum_list (map block_size l).
Proof.
  revert a. induction l as [|x l IH]; intros a; simpl; [lia|].
  rewrite IH. lia.
Qed.

Lemma sumSizes_sum (l : list Block) : sumSizes l = sum_list (map block_size l).
Proof. unfold sumSizes. now rewrite sumSizes_from. Qed.

Lemma length_concat_sum (ds : list (list byte)) :
  length (concat ds) = sum_list (map length ds).
Proof.
  induction ds as [|d ds IH]; [reflexivity|].
  simpl. rewrite length_app, IH. reflexivity.
Qed.

(* ===================================================================== *)
(** * Requests that only touch feeds *)
(* ===================================================================== *)

#[global] Instance feedOnly_preorder P : PreOrder (feedOnly P).
Proof.
  split.
  - intros w. split; [reflexivity|]. exists []. split; [now rewrite app_nil_r | constructor].
  - intros a b c [C1 [l1 [E1 F1]]] [C2 [l2 [E2 F2]]]. split; [congruence|].
    exists (l1 ++ l2). split.
    + rewrite E2, E1. now rewrite app_assoc.
    + apply Forall_app. auto.
Qed.

Lemma feedOnly_logged P w l : Forall (feedRequest P) l -> feedOnly P w (logged w l).
Proof. intros F. split; [reflexivity|]. exists l. split; [reflexivity | exact F]. Qed.

Lemma feedOnly_uploads P w w' :
  feedOnly P w w' -> uploadsOf (requests w') = uploadsOf (requests w).
Proof.
  intros [_ [l [E F]]]. rewrite E. unfold uploadsOf. rewrite omap_app. clear E.
  assert (Hnil : omap (fun r => match r with ReqUploadData d => Some d | _ => None end) l
                 = []).
  { induction F as [|r l Hr F IH]; [reflexivity|].
    destruct r; simpl in *; try contradiction; exact IH. }
  rewrite Hnil. now rewrite app_nil_r.
Qed.


(** Structural steps of a preservation proof. *)
Ltac preserved :=
  repeat match goal with
    | |- PreOrder _ => exact _
    | |- preserves _ (ret _) => apply preserves_ret
    | |- preserves _ (throw _) => apply preserves_throw
    | |- preserves _ (liftOutcome _) => apply preserves_lift
    | |- preserves _ (bind _ _) => apply preserves_bind; [exact _ | | intros ?]
    | |- preserves _ (tryCatch _ _) => apply preserves_tryCatch; [exact _ | | intros ?]
    end.

Section FeedOnly.
Context `{Externals} (P : list byte -> Prop).

Lemma feedOnly_getFeedData topic owner :
  preserves (feedOnly P) (FeedRaw.getFeedData swarmBee topic owner).
Proof.
  intros w. rewrite getFeedData_swarm. apply feedOnly_logged. repeat constructor.
Qed.

Lemma feedOnly_getRawMetadata path owner podPassword :
  preserves (feedOnly P) (ContentItems.getRawMetadata swarmBee path owner podPassword).
Proof.
  intros w. rewrite getRawMetadata_swarm. apply feedOnly_logged. repeat constructor.
Qed.

Lemma feedOnly_assertItemIsNotExists contentType fullPath owner :
  preserves (feedOnly P)
    (ContentItems.assertItemIsNotExists contentType swarmBee fullPath owner).
Proof.
  intros w. rewrite assertItemIsNotExists_swarm. apply feedOnly_logged.
  repeat constructor.
Qed.


Lemma feedOnly_getPodsList owner :
  preserves (feedOnly P) (PodUtils.getPodsList swarmBee owner).
Proof.
  intros w. rewrite getPodsList_swarm. apply feedOnly_logged. repeat constructor.
Qed.

Lemma feedOnly_getExtendedPods batch wlt seed podName :
  preserves (feedOnly P)
    (PodUtils.getExtendedPodsListByAccountData
       (mkAccountData Swarm (swarmConnection batch) wlt seed) podName).
Proof.
  unfold PodUtils.getExtendedPodsListByAccountData. preserved.
  - apply feedOnly_getPodsList.
  - destruct (find _ _) as [pod|]; [|preserved].
    destruct (pod_password pod); preserved.
Qed.

Lemma feedOnly_socUpload key batch id data w :
  P data -> feedOnly P w (snd (swarm_socUpload key batch id data w)).
Proof.
  intros Hd. split; [reflexivity|]. eexists. split; [reflexivity|].
  repeat constructor. exact Hd.
Qed.

End FeedOnly.

Section FeedOnlyWrites.
Context `{Externals}.

Lemma feedOnly_addEntryToDirectory batch wallet podPassword parentPath entryPath isFile :
  preserves (feedOnly (encryptedUnder podPassword))
    (ContentItems.addEntryToDirectory (swarmConnection batch) wallet podPassword
       parentPath entryPath isFile).
Proof.
  unfold ContentItems.addEntryToDirectory.
  destruct (decide (parentPath = EmptyString)); [preserved|].
  destruct (decide (entryPath = EmptyString)); [preserved|].
  preserved.
  - apply feedOnly_assertItemIsNotExists.
  - apply feedOnly_getRawMetadata.
  - destruct (bool_decide _); [preserved|].
    intros w. rewrite writeFeedData_swarm. apply feedOnly_socUpload.
    eexists; reflexivity.
Qed.


Lemma feedOnly_writeFeedData batch topic data key podPassword epoch :
  preserves (feedOnly (encryptedUnder podPassword))
    (FeedRaw.writeFeedData (swarmConnection batch) topic data key podPassword epoch).
Proof.
  intros w. rewrite writeFeedData_swarm. apply feedOnly_socUpload.
  eexists; reflexivity.
Qed.

(** ** The block loops *)

Lemma stored_app w ds1 ds2 : stored w (ds1 ++ ds2) = stored (stored w ds1) ds2.
Proof. unfold stored. apply fold_left_app. Qed.

Lemma feeds_stored w ds : feeds (stored w ds) = feeds w.
Proof.
  revert w. induction ds as [|d ds IH]; intros w; [reflexivity|].
  simpl. now rewrite IH.
Qed.


(** Data present under its own address stays there; uploaded data is
    there afterwards. *)
Lemma chunks_stored w ds d :
  addressInjective ->
  chunks w !! dataAddress d = Some d ∨ d ∈ ds ->
  chunks (stored w ds) !! dataAddress d = Some d.
Proof.
  intros Hinj. revert w. induction ds as [|x ds IH]; intros w [Hin|Hin].
  - exact Hin.
  - inversion Hin.
  - simpl. apply IH. left. simpl. rewrite lookup_insert. case_decide as E.
    + f_equal. now apply Hinj.
    + exact Hin.
  - simpl. apply IH. rewrite elem_of_cons in Hin. destruct Hin as [->|Hin].
    + left. simpl. now rewrite lookup_insert_eq.
    + right. exact Hin.
Qed.

Lemma uploadBlocks_swarm batch data b count i acc w :
  FileHandler.uploadBlocks (swarmConnection batch) data b count i acc w
  = (Returns (acc ++ map (fun j => plainBlock (blockAt data b j)) (seq i count)),
     stored w (map (blockAt data b) (seq i count))).
Proof.
  revert i acc w. induction count as [|count IH]; intros i acc w.
  - simpl. now rewrite app_nil_r.
  - simpl FileHandler.uploadBlocks. unfold bind, FileUtils.uploadBytes. simpl.
    rewrite IH. rewrite <- app_assoc. reflexivity.
Qed.


End FeedOnlyWrites.

(* ===================================================================== *)
(** * Download (C7) *)
(* ===================================================================== *)

Lemma Uint8Array_set_fits (result data : list byte) (offset : nat) :
  offset + length data <= length result ->
  Uint8Array_set result data offset
  = Returns (take offset result ++ data ++ drop (offset + length data) result).
Proof. intros Hfit. unfold Uint8Array_set. now rewrite decide_True. Qed.

Lemma Uint8Array_set_length (result data result' : list byte) (offset : nat) :
  Uint8Array_set result data offset = Returns result' -> length result' = length result.
Proof.
  unfold Uint8Array_set. case_decide as Hfit; [|discriminate].
  intros E. inversion E. rewrite !length_app, length_take, length_drop. lia.
Qed.

Section Download.
Context `{Externals}.

Lemma downloadData_swarm reference w :
  bee_downloadData swarmBee reference w
  = (match chunks w !! reference with
     | Some data => Returns data
     | None => Throws (ErrorObj "Not Found")
     end, logged w [ReqDownloadData reference]).
Proof.
  simpl. unfold swarm_downloadData. destruct (chunks w !! reference); reflexivity.
Qed.

Lemma getFileMetadata_swarm path owner podPassword w :
  FileHandler.getFileMetadata swarmBee path owner podPassword w
  = (match rawMetadataAt w owner podPassword path with
     | Returns m =>
         match ContentItems.assertRawFileMetadata (ContentItems.metadata m) with
         | Returns f => Returns f
         | Throws e => Throws e
         end
     | Throws e => Throws e
     end, logged w [ReqLookup owner (bmtHashString path)]).
Proof.
  unfold FileHandler.getFileMetadata. unfold bind at 1. rewrite getRawMetadata_swarm.
  destruct (rawMetadataAt w owner podPassword path) as [m|e]; [|reflexivity].
  destruct (ContentItems.assertRawFileMetadata (ContentItems.metadata m)); reflexivity.
Qed.

Lemma downloadBlocksManifest_swarm reference w :
  FileUtils.downloadBlocksManifest swarmBee reference w
  = (match chunks w !! reference with
     | Some data =>
         match parse data with
         | Some (DocBlocks b) => Returns b
         | _ => Throws (ErrorObj "Incorrect blocks manifest")
         end
     | None => Throws (ErrorObj "Not Found")
     end, logged w [ReqDownloadData reference]).
Proof.
  unfold FileUtils.downloadBlocksManifest, bind. rewrite downloadData_swarm.
  destruct (chunks w !! reference) as [data|]; [|reflexivity].
  destruct (parse data) as [[d|f|b|p]|]; reflexivity.
Qed.

(** The buffer keeps its length whatever is fetched. *)
Lemma downloadBlocks_length (bee : Bee Swarm) blocks result offset w result' w' :
  FileHandler.downloadBlocks bee blocks result offset w = (Returns result', w') ->
  length result' = length result.
Proof.
  revert result offset w. induction blocks as [|block blocks IH]; intros result offset w E.
  - inversion E. reflexivity.
  - simpl in E. apply bind_inv_returns in E. destruct E as (data & w1 & _ & E).
    apply bind_inv_returns in E. destruct E as (result1 & w2 & Hset & E).
    apply liftOutcome_returns in Hset. destruct Hset as [Hset _].
    apply IH in E. rewrite E. now apply Uint8Array_set_length in Hset.
Qed.

(** When every block is in the store with its recorded size, the loop
    writes the blocks one after the other from [offset] on. *)
Lemma downloadBlocks_swarm blocks datas result offset w :
  Forall2 (fun block data => chunks w !! block_reference block = Some data) blocks datas ->
  offset + length (concat datas) <= length result ->
  FileHandler.downloadBlocks swarmBee blocks result offset w
  = (Returns (take offset result ++ concat datas
                ++ drop (offset + length (concat datas)) result),
     logged w (map (fun block => ReqDownloadData (block_reference block)) blocks)).
Proof.
  revert datas result offset w.
  induction blocks as [|block blocks IH]; intros datas result offset w Hall Hfit.
  - inversion Hall; subst. simpl. rewrite Nat.add_0_r, take_drop, logged_nil. reflexivity.
  - inversion Hall as [|? data ? datas' Hblock Hrest]; subst. simpl in Hfit.
    rewrite length_app in Hfit.
    simpl FileHandler.downloadBlocks. unfold bind at 1.
    rewrite downloadData_swarm, Hblock.
    rewrite Uint8Array_set_fits by lia. rewrite bind_lift_returns.
    rewrite (IH datas').
    + rewrite logged_logged. f_equal. f_equal.
      simpl concat. rewrite length_app.
      rewrite take_app_ge by (rewrite length_take; lia).
      rewrite length_take, Nat.min_l by lia.
      replace (offset + length data - offset) with (length data) by lia.
      rewrite take_app_length.
      rewrite <- !app_assoc. f_equal. f_equal. f_equal.
      rewrite drop_app_ge by (rewrite length_take; lia).
      rewrite length_take, Nat.min_l by lia.
      rewrite drop_app_ge by lia.
      rewrite drop_drop. f_equal. lia.
    + exact Hrest.
    + rewrite !length_app, length_take, length_drop. lia.
Qed.

End Download.

Lemma recorded_lengths (bs : list Block) (ds : list (list byte)) :
  Forall2 (fun block data => length data = block_size block) bs ds ->
  map length ds = map block_size bs.
Proof.
  induction 1 as [|block data bs ds Hsize _ IH]; [reflexivity|].
  simpl. now rewrite Hsize, IH.
Qed.

Section DownloadData.
Context `{Externals}.
Variables (fullPath : string) (owner : EthAddress) (podPassword : list byte).
Variables (w : Swarm) (meta : FileMetadata).
Hypothesis Hmeta :
  fst (FileHandler.getFileMetadata swarmBee fullPath owner podPassword w) = Returns meta.

Lemma downloadData_compressed :
  compression meta ≠ EmptyString ->
  FileHandler.downloadData swarmBee fullPath owner podPassword w
  = (Throws (ErrorObj "Compressed data is not supported yet"),
     logged w [ReqLookup owner (bmtHashString fullPath)]).
Proof.
  intros Hcompressed. unfold FileHandler.downloadData. unfold bind at 1.
  rewrite getFileMetadata_swarm in *. simpl in Hmeta. rewrite Hmeta.
  destruct (decide (compression meta ≠ EmptyString)) as [_|N];
    [reflexivity | contradiction].
Qed.

Lemma downloadData_plain manifest :
  compression meta = EmptyString ->
  fst (FileUtils.downloadBlocksManifest swarmBee (blocksReference meta) w)
  = Returns manifest ->
  FileHandler.downloadData swarmBee fullPath owner podPassword w
  = FileHandler.downloadBlocks swarmBee (blocks manifest)
      (new_Uint8Array (sumSizes (blocks manifest))) 0
      (logged w [ReqLookup owner (bmtHashString fullPath);
                 ReqDownloadData (blocksReference meta)]).
Proof.
  intros Hplain Hmanifest. unfold FileHandler.downloadData. unfold bind at 1.
  rewrite getFileMetadata_swarm in *. simpl in Hmeta. rewrite Hmeta.
  destruct (decide (compression meta ≠ EmptyString)) as [N|_]; [contradiction|].
  unfold bind at 1. rewrite downloadBlocksManifest_swarm.
  rewrite downloadBlocksManifest_swarm in Hmanifest. simpl in Hmanifest.
  change (chunks (logged w [ReqLookup owner (bmtHashString fullPath)]))
    with (chunks w).
  rewrite Hmanifest. rewrite logged_logged. reflexivity.
Qed.

Lemma downloadData_blocks manifest datas :
  compression meta = EmptyString ->
  fst (FileUtils.downloadBlocksManifest swarmBee (blocksReference meta) w)
  = Returns manifest ->
  Forall2 (fun block data =>
             chunks w !! block_reference block = Some data
             ∧ length data = block_size block) (blocks manifest) datas ->
  FileHandler.downloadData swarmBee fullPath owner podPassword w
  = (Returns (concat datas),
     logged w
       ([ReqLookup owner (bmtHashString fullPath);
         ReqDownloadData (blocksReference meta)]
        ++ map (fun block => ReqDownloadData (block_reference block))
             (blocks manifest)))
  ∧ length (concat datas) = sumSizes (blocks manifest).
Proof.
  intros Hplain Hmanifest Hall.
  assert (Hlen : length (concat datas) = sumSizes (blocks manifest)).
  { rewrite length_concat_sum, sumSizes_sum. f_equal.
    apply recorded_lengths. eapply Forall2_impl; [|exact Hall].
    intros block data [_ Hsize]. exact Hsize. }
  split; [|exact Hlen].
  rewrite (downloadData_plain manifest Hplain Hmanifest).
  rewrite (downloadBlocks_swarm (blocks manifest) datas).
  - rewrite logged_logged. f_equal. simpl take.
    rewrite drop_ge by (unfold new_Uint8Array; rewrite repeat_length; simpl; lia).
    now rewrite app_nil_r.
  - eapply Forall2_impl; [|exact Hall]. intros block data [Hb _]. exact Hb.
  - unfold new_Uint8Array. rewrite repeat_length. simpl. lia.
Qed.

End DownloadData.

(** C7.  When the metadata stored for the file has a non-empty
    [compression], [downloadData] fails with "Compressed data is not
    supported yet" after the lookup of the metadata alone: neither the
    manifest nor a block is fetched.  When [compression] is empty it
    fetches the manifest and then every block in the order of the manifest;
    the buffer it returns has the sum of the recorded sizes as its length,
    and when every block is in the store with its recorded size the buffer
    is the concatenation of the blocks. *)
Theorem downloadData_compression_and_blocks `{Externals}
  (fullPath : string) (owner : EthAddress) (podPassword : list byte) (w : Swarm)
  (meta : FileMetadata) :
  fst (FileHandler.getFileMetadata swarmBee fullPath owner podPassword w) = Returns meta ->
  (compression meta ≠ EmptyString ->
   FileHandler.downloadData swarmBee fullPath owner podPassword w
   = (Throws (ErrorObj "Compressed data is not supported yet"),
      logged w [ReqLookup owner (bmtHashString fullPath)]))
  ∧ (compression meta = EmptyString ->
     ∀ manifest,
       fst (FileUtils.downloadBlocksManifest swarmBee (blocksReference meta) w)
       = Returns manifest ->
       (∀ datas,
          Forall2 (fun block data =>
                     chunks w !! block_reference block = Some data
                     ∧ length data = block_size block) (blocks manifest) datas ->
          FileHandler.downloadData swarmBee fullPath owner podPassword w
          = (Returns (concat datas),
             logged w
               ([ReqLookup owner (bmtHashString fullPath);
                 ReqDownloadData (blocksReference meta)]
                ++ map (fun block => ReqDownloadData (block_reference block))
                     (blocks manifest)))
          ∧ length (concat datas) = sumSizes (blocks manifest))
       ∧ (∀ result w',
            FileHandler.downloadData swarmBee fullPath owner podPassword w
            = (Returns result, w') ->
            length result = sumSizes (blocks manifest))).
Proof.
  intros Hmeta. split.
  - now apply downloadData_compressed.
  - intros Hplain manifest Hmanifest. split.
    + intros datas Hall. now apply downloadData_blocks.
    + intros result w' Hdone.
      rewrite (downloadData_plain _ _ _ _ _ Hmeta manifest Hplain Hmanifest) in Hdone.
      apply downloadBlocks_length in Hdone. rewrite Hdone.
      unfold new_Uint8Array. apply repeat_length.
Qed.

(* ===================================================================== *)
(** * Upload: what is sent to the store *)
(* ===================================================================== *)

Ltac invert_bind E a w H :=
  apply bind_inv_returns in E; destruct E as (a & w & H & E).

Ltac invert_lift E :=
  let a := fresh "a" in
  let w := fresh "w" in
  let H := fresh "H" in
  invert_bind E a w H; apply liftOutcome_returns in H; destruct H as [H ->].

Lemma uploadsOf_app l1 l2 : uploadsOf (l1 ++ l2) = uploadsOf l1 ++ uploadsOf l2.
Proof. unfold uploadsOf. apply omap_app. Qed.


Section Upload.
Context `{Externals}.

Lemma chunks_stored_last w ds d :
  chunks (stored w (ds ++ [d])) !! dataAddress d = Some d.
Proof. rewrite stored_app. simpl. now rewrite lookup_insert_eq. Qed.





End Upload.

Section UploadClass.
Context `{Externals}.



End UploadClass.

(* ===================================================================== *)
(** * The block manifest (C8) and what is encrypted (C2) *)
(* ===================================================================== *)

Section Manifest.
Context `{Externals}.
Variables (payload : list byte) (b : nat) (entry : nat -> list byte -> Block).
Hypothesis entry_size : ∀ j d, block_size (entry j d) = length d.
Hypothesis b_positive : 0 < b.

Let indices : list nat := seq 0 (ceilDiv (length payload) b).
Let manifest : list Block := map (fun j => entry j (blockAt payload b j)) indices.




End Manifest.




(* ===================================================================== *)
(** * Upload, then download (C1) *)
(* ===================================================================== *)

Section RoundTrip.
Context `{Externals}.

Lemma sameStorage_logged w l : sameStorage w (logged w l).
Proof. split; reflexivity. Qed.

Lemma sameStorage_getExtendedPods batch wlt seed podName :
  preserves sameStorage
    (PodUtils.getExtendedPodsListByAccountData
       (mkAccountData Swarm (swarmConnection batch) wlt seed) podName).
Proof.
  unfold PodUtils.getExtendedPodsListByAccountData. preserved.
  - intros w. cbn [connection bee swarmConnection]. rewrite getPodsList_swarm.
    apply sameStorage_logged.
  - destruct (find _ _) as [pod|]; [|preserved].
    destruct (pod_password pod); preserved.
Qed.

Lemma existsAt_feeds w w' owner topic :
  feeds w' = feeds w -> existsAt w' owner topic = existsAt w owner topic.
Proof. intros E. unfold existsAt, feedAnswer. now rewrite E. Qed.

Lemma rawMetadataAt_feeds w w' owner podPassword path :
  feeds w' = feeds w ->
  rawMetadataAt w' owner podPassword path = rawMetadataAt w owner podPassword path.
Proof. intros E. unfold rawMetadataAt, feedAnswer. now rewrite E. Qed.

Lemma uploadBytes_swarm batch data w :
  FileUtils.uploadBytes (swarmConnection batch) data w
  = (Returns (dataAddress data), stored w [data]).
Proof. reflexivity. Qed.

Lemma stored_blocks_present w (slices : list (list byte)) (last : list byte) :
  addressInjective ->
  Forall2 (fun block data =>
             chunks (stored w (slices ++ [last])) !! block_reference block = Some data
             ∧ length data = block_size block)
    (map plainBlock slices) slices.
Proof.
  intros Hinj. apply Forall2_fmap_l, Forall_Forall2_diag, Forall_forall.
  intros d Hd. split; [|reflexivity]. simpl.
  apply chunks_stored; [exact Hinj|]. right. apply elem_of_app. left.
  apply list_elem_of_In. exact Hd.
Qed.

End RoundTrip.

(** C1.  With a cipher and a JSON codec that round-trip and a store that
    files different data under different addresses: when the pod exists,
    the parent directory of the path is readable, and nothing is stored yet
    at the path nor listed for it, [uploadData] with a positive block size
    returns, and [downloadData] of the same path then returns the bytes of
    the payload, whatever its length. *)
Theorem upload_then_download `{Externals}
  batch rootWallet seed podName fullPath (data : list byte + string) options
  (w : Swarm) podWallet pod podPassword parentData epoch :
  let acc := mkAccountData Swarm (swarmConnection batch) (Some rootWallet) seed in
  let b := default DEFAULT_BLOCK_SIZE (FileUtils.opt_blockSize options) in
  let payload := match data with inl x => x | inr s => stringToBytes s end in
  let parentPath := pi_path (extractPathInfo fullPath) in
  let name := pi_filename (extractPathInfo fullPath) in
  let owner := address podWallet in
  cipherRoundTrip -> jsonRoundTrip -> addressInjective ->
  0 < b ->
  PodUtils.assertPodName podName = Returns tt ->
  assertFullPathWithName fullPath = Returns tt ->
  fst (PodUtils.getExtendedPodsListByAccountData acc podName w)
  = Returns (podWallet, pod, podPassword) ->
  parentPath ≠ EmptyString -> name ≠ EmptyString ->
  existsAt w owner (combine [parentPath; name]) = false ->
  rawMetadataAt w owner podPassword parentPath
  = Returns (ContentItems.mkRawMetadataWithEpoch (inl parentData) epoch) ->
  ContentItems.FILE_TOKEN +:+ name ∉ default [] (FileOrDirNames parentData) ->
  ∃ meta w',
    FileHandler.uploadData podName fullPath data acc options w = (Returns meta, w')
    ∧ fileSize meta = length payload
    ∧ fst (FileHandler.downloadData swarmBee fullPath owner podPassword w')
      = Returns payload.
Proof.
  intros acc b payload parentPath name owner Hcipher Hjson Hinj Hb Hpod Hpath Hfound
    HparentPath Hname Hnew Hparent Hunlisted.
  set (slices := map (blockAt payload b) (seq 0 (ceilDiv (length payload) b))).
  set (manifest := mkBlocks (map plainBlock slices)).
  set (manifestBytes := FileUtils.blocksToManifestBytes manifest).
  (* the steps of the upload, one store after the other *)
  destruct (PodUtils.getExtendedPodsListByAccountData acc podName w) as [r w1] eqn:E1.
  simpl in Hfound. subst r.
  pose proof (sameStorage_getExtendedPods batch (Some rootWallet) seed podName w) as S1.
  fold acc in S1. rewrite E1 in S1. simpl in S1. destruct S1 as [C1 F1].
  destruct (getCreationPathInfo_swarm fullPath owner w1) as [info E2].
  set (w2 := logged w1 [ReqLookup owner (bmtHashString fullPath)]) in E2.
  set (w4 := stored w2 (slices ++ [manifestBytes])).
  assert (F4 : feeds w4 = feeds w) by (unfold w4; now rewrite feeds_stored).
  set (parentData' :=
         mkRawDirectoryMetadata
           (ContentItems.setModificationTime (Meta parentData) getUnixTimestamp)
           (Some (default [] (FileOrDirNames parentData)
                  ++ [ContentItems.FILE_TOKEN +:+ name]))).
  set (w5 :=
         snd (swarm_socUpload (privateKey podWallet) batch
                (feedIdentifier parentPath
                   (Some (epoch_getNextEpoch epoch getUnixTimestamp)))
                (encryptBytes podPassword
                   (ContentItems.getRawDirectoryMetadataBytes parentData'))
                (logged w4 [ReqLookup owner (bmtHashString (combine [parentPath; name]));
                            ReqLookup owner (bmtHashString parentPath)]))).
  assert (E5 :
    ContentItems.addEntryToDirectory (swarmConnection batch) podWallet podPassword
      parentPath name true w4
    = (Returns (socAddress owner
                  (feedIdentifier parentPath
                     (Some (epoch_getNextEpoch epoch getUnixTimestamp)))), w5)).
  { rewrite addEntryToDirectory_swarm;
      [|exact HparentPath | exact Hname | now rewrite (existsAt_feeds w w4)].
    fold owner. rewrite (rawMetadataAt_feeds w w4) by exact F4. rewrite Hparent.
    cbv zeta. rewrite bool_decide_eq_false_2 by exact Hunlisted. reflexivity. }
  set (meta :=
         mkFileMetadata META_VERSION parentPath name (length payload) b
           (default DEFAULT_CONTENT_TYPE (FileUtils.opt_contentType options))
           EmptyString getUnixTimestamp getUnixTimestamp getUnixTimestamp
           (dataAddress manifestBytes) (Some DEFAULT_FILE_MODE) None None None).
  set (w6 :=
         snd (swarm_socUpload (privateKey podWallet) batch
                (feedIdentifier fullPath (Some (getNextEpoch (la_epoch <$> info))))
                (encryptBytes podPassword (FileUtils.getFileMetadataRawBytes meta)) w5)).
  exists meta, w6. split; [|split].
  - unfold FileHandler.uploadData.
    rewrite Hpod, bind_lift_returns, Hpath, bind_lift_returns, bind_lift_returns.
    change (PodUtils.assertWallet (wallet acc)) with (Returns rootWallet).
    rewrite bind_lift_returns. fold acc.
    rewrite (bind_returns _ _ _ _ _ E1). cbn [fst snd]. fold payload b.
    change (connection acc) with (swarmConnection batch).
    change (bee (swarmConnection batch)) with swarmBee.
    unfold prepareEthAddress. fold owner.
    rewrite (bind_returns _ _ _ _ _ E2).
    rewrite (bind_returns _ _ _ _ _ (uploadBlocks_swarm batch payload b _ 0 [] w2)).
    rewrite app_nil_l, <- (map_map (blockAt payload b) plainBlock). fold slices manifest.
    fold manifestBytes.
    rewrite (bind_returns _ _ _ _ _
               (uploadBytes_swarm batch manifestBytes (stored w2 slices))).
    rewrite <- stored_app. fold w4. fold parentPath name.
    rewrite (bind_returns _ _ _ _ _ E5).
    unfold bind. rewrite writeFeedData_api_swarm. reflexivity.
  - reflexivity.
  - assert (Hmeta :
      fst (FileHandler.getFileMetadata swarmBee fullPath owner podPassword w6)
      = Returns meta).
    { rewrite getFileMetadata_swarm. cbn [fst]. unfold rawMetadataAt, w6.
      rewrite feedAnswer_socUpload. case_decide as E; [|exfalso; apply E; reflexivity].
      unfold decodeMetadata. cbn [la_data la_epoch]. rewrite Hcipher.
      unfold FileUtils.getFileMetadataRawBytes. rewrite Hjson. reflexivity. }
    assert (C6 : chunks w6 = chunks w4) by reflexivity.
    assert (Hmanifest :
      fst (FileUtils.downloadBlocksManifest swarmBee (blocksReference meta) w6)
      = Returns manifest).
    { rewrite downloadBlocksManifest_swarm. cbn [fst]. rewrite C6.
      cbn [blocksReference meta]. unfold w4. rewrite chunks_stored_last.
      unfold manifestBytes, FileUtils.blocksToManifestBytes. now rewrite Hjson. }
    destruct (downloadData_blocks fullPath owner podPassword w6 meta Hmeta manifest slices
                eq_refl Hmanifest) as [Hdown _].
    + rewrite C6. unfold w4. cbn [blocks manifest]. apply stored_blocks_present, Hinj.
    + rewrite Hdown. cbn [fst]. f_equal. unfold slices. now apply blocks_concat.
Qed.

Lemma surjective_pairing_returns {W A} (p : Outcome A * W) (a : A) :
  fst p = Returns a -> p = (Returns a, snd p).
Proof. destruct p as [r w]. simpl. now intros ->. Qed.

(* ===================================================================== *)
(** * The file operations on a concrete store *)
(* ===================================================================== *)


(** C1 on a concrete store. *)
Lemma upload_then_download_witness :
  ∃ meta w',
    Toy.sampleUpload = (Returns meta, w')
    ∧ fst (FileHandler.downloadData swarmBee "/f.txt" (address Toy.podWallet)
             Toy.password w')
      = Returns [x61; x62; x63; x64; x65].
Proof.
  edestruct (upload_then_download "batch" (mkHDNode "root-key") "root-key" "docs"
               "/f.txt" (inl [x61; x62; x63; x64; x65])
               (FileUtils.mkDataUploadOptions (Some 2) None) Toy.withPod
               Toy.podWallet)
    as (meta & w' & Hup & _ & Hdown);
    [exact toy_cipherRoundTrip | exact toy_jsonRoundTrip | exact toy_addressInjective
    | vm_compute; lia | reflexivity | reflexivity | vm_compute; reflexivity
    | vm_compute; congruence | vm_compute; congruence | vm_compute; reflexivity
    | vm_compute; reflexivity
    | intros Hin; apply list_elem_of_In in Hin; vm_compute in Hin; exact Hin |].
  exists meta, w'. split; [exact Hup | exact Hdown].
Defined.

(** The round trip at the payload lengths 0, 1, b - 1, b, b + 1 and
    5 b + 5, for blocks of b = 3 bytes. *)
Lemma upload_then_download_lengths :
  Forall
    (fun n =>
       let payload := repeat x2a n in
       fst (FileHandler.downloadData swarmBee "/f.txt" (address Toy.podWallet)
              Toy.password
              (snd (FileHandler.uploadData "docs" "/f.txt" (inl payload) Toy.account
                      (FileUtils.mkDataUploadOptions (Some 3) None) Toy.withPod)))
       = Returns payload)
    [0; 1; 2; 3; 4; 20].
Proof. repeat constructor. Qed.



(** C7 on concrete stores. *)
Lemma downloadData_compression_and_blocks_witness :
  fst (FileHandler.downloadData swarmBee "/z.gz" (address Toy.podWallet) Toy.password
         Toy.compressedFile)
  = Throws (ErrorObj "Compressed data is not supported yet")
  ∧ ∃ result w',
      FileHandler.downloadData swarmBee "/f.txt" (address Toy.podWallet) Toy.password
        (snd Toy.sampleUpload)
      = (Returns result, w')
      ∧ length result = 5.
Proof.
  split.
  - edestruct (downloadData_compression_and_blocks "/z.gz" (address Toy.podWallet)
                 Toy.password Toy.compressedFile) as [Hcompressed _];
      [vm_compute; reflexivity |].
    rewrite Hcompressed; [reflexivity | vm_compute; congruence].
  - edestruct (downloadData_compression_and_blocks "/f.txt" (address Toy.podWallet)
                 Toy.password (snd Toy.sampleUpload)) as [_ Hplain];
      [vm_compute; reflexivity |].
    edestruct Hplain as [_ Hlength]; [vm_compute; reflexivity | vm_compute; reflexivity |].
    eexists _, _. split; [apply surjective_pairing_returns; vm_compute; reflexivity|].
    erewrite Hlength; [vm_compute; reflexivity|].
    apply surjective_pairing_returns. vm_compute. reflexivity.
Defined.

(* ===================================================================== *)
(** * Pods: indices and failures *)
(* ===================================================================== *)

Section PodIndices.
Context `{Externals}.
Variables (batch : string) (rootWallet : HDNode) (seed : PrivateKey).

Let acc : AccountData Swarm :=
  mkAccountData Swarm (swarmConnection batch) (Some rootWallet) seed.
Let owner : EthAddress := address rootWallet.
Let podsLookup : Request := ReqLookup owner (bmtHashString PodUtils.POD_TOPIC).

Lemma filter_name_shorter (pods : list Pod) (n : string) :
  n ∈ map pod_name pods ->
  length (filter (fun p => pod_name p ≠ n) pods) < length pods.
Proof.
  induction pods as [|p pods IH]; intros Hin; [inversion Hin|].
  simpl in Hin. destruct (decide (pod_name p = n)) as [E|N].
  - rewrite filter_cons_False by (intros C; apply C; exact E).
    pose proof (length_filter (fun p => pod_name p ≠ n) pods). simpl. lia.
  - rewrite filter_cons_True by exact N. simpl.
    apply elem_of_cons in Hin. destruct Hin as [Hin|Hin]; [congruence|].
    specialize (IH Hin). lia.
Qed.

Lemma filter_other_names (pods : list Pod) (n : string) :
  n ∉ map pod_name pods -> filter (fun p => pod_name p ≠ n) pods = pods.
Proof.
  induction pods as [|p pods IH]; intros N; [reflexivity|].
  simpl in N. rewrite not_elem_of_cons in N. destruct N as [N1 N2].
  rewrite filter_cons_True by congruence. now rewrite IH.
Qed.

Lemma filter_name_once (pods : list Pod) (n : string) :
  NoDup (map pod_name pods) -> n ∈ map pod_name pods ->
  length (filter (fun p => pod_name p ≠ n) pods) + 1 = length pods.
Proof.
  induction pods as [|p pods IH]; intros Hnd Hin; [inversion Hin|].
  simpl in Hnd, Hin. apply list.NoDup_cons in Hnd. destruct Hnd as [Hp Hnd].
  destruct (decide (pod_name p = n)) as [E|N].
  - rewrite filter_cons_False by (intros C; apply C; exact E).
    subst n. rewrite filter_other_names by exact Hp. simpl. lia.
  - rewrite filter_cons_True by exact N. simpl.
    apply elem_of_cons in Hin. destruct Hin as [Hin|Hin]; [congruence|].
    specialize (IH Hnd Hin). lia.
Qed.

Lemma last_index_of_seq (front : list Pod) (lastPod : Pod) :
  map pod_index (front ++ [lastPod]) = seq 1 (length (front ++ [lastPod])) ->
  pod_index lastPod = length (front ++ [lastPod]).
Proof.
  rewrite map_app, length_app. simpl. rewrite Nat.add_1_r, seq_S. intros E.
  apply app_inj_tail in E. destruct E as [_ E]. simpl in E. lia.
Qed.

(** X1.  Pod indices are reused.  When a listed pod is deleted and a
    fresh valid name is then created, both succeed, the new pod gets the
    index "number of remaining pods plus one" and the list is the
    remaining pods followed by the new one.  In particular, when the names
    were distinct, the indices were 1, 2, ..., n and the deleted pod was
    not the last one, the new pod has the same index as the pod that is
    still last in the list. *)
Theorem delete_then_create_reuses_index
  (name name' : string) (w : Swarm) (pods : list Pod) :
  let rest := filter (fun item => pod_name item ≠ trim name) pods in
  let newPod := mkPod (trim name') (length rest + 1) None in
  jsonRoundTrip ->
  fst (PersonalStorage.list_ acc w) = Returns pods ->
  length pods <= MAX_PODS_COUNT ->
  trim name ∈ map pod_name pods ->
  PodUtils.assertPodName (trim name') = Returns tt ->
  trim name' ∉ map pod_name rest ->
  address (getWalletByIndex (privateKey rootWallet) (length rest + 1)) ≠ owner ->
  ∃ w1 w2,
    PersonalStorage.delete acc name w = (Returns tt, w1)
    ∧ PersonalStorage.create acc name' w1 = (Returns newPod, w2)
    ∧ fst (PersonalStorage.list_ acc w2) = Returns (rest ++ [newPod])
    ∧ (∀ front lastPod,
         pods = front ++ [lastPod] ->
         NoDup (map pod_name pods) ->
         map pod_index pods = seq 1 (length pods) ->
         pod_name lastPod ≠ trim name ->
         lastPod ∈ rest ∧ pod_index newPod = pod_index lastPod).
Proof.
  intros rest newPod Hjson Hlist Hlen Hpresent Hvalid Hfresh Hdistinct.
  destruct (delete_present_swarm batch rootWallet seed name w pods Hlist Hlen Hpresent)
    as [epoch Hdelete].
  fold acc in Hdelete. fold rest in Hdelete.
  set (w1 := snd (swarm_socUpload (privateKey rootWallet) batch
                    (feedIdentifier PodUtils.POD_TOPIC (Some epoch))
                    (PodUtils.podListToBytes rest)
                    (logged w [ReqLookup (address rootWallet)
                                 (bmtHashString PodUtils.POD_TOPIC)]))) in *.
  assert (Hlist1 : fst (PersonalStorage.list_ acc w1) = Returns rest)
    by (apply list_after_write; [exact Hjson | reflexivity]).
  destruct (list_returns batch rootWallet seed _ _ Hlist1) as [answer Hinfo].
  pose proof (filter_name_shorter pods (trim name) Hpresent) as Hshort. fold rest in Hshort.
  exists w1, (afterCreate batch rootWallet w1 (PodUtils.mkPodsInfo rest answer) (trim name')).
  split; [exact Hdelete|]. split; [|split].
  - apply (create_swarm batch rootWallet seed name' w1 _ Hinfo Hvalid); simpl; [lia|].
    exact Hfresh.
  - destruct (podsInfoAt_afterCreate batch rootWallet w1 (PodUtils.mkPodsInfo rest answer)
                (trim name') Hjson Hdistinct) as [answer' Hinfo'].
    unfold acc. rewrite list_swarm, Hinfo'. reflexivity.
  - intros front lastPod Hpods Hnodup Hindices Hlast. split.
    + unfold rest. apply list_elem_of_filter. split; [exact Hlast|].
      rewrite Hpods. apply elem_of_app. right. apply list_elem_of_singleton. reflexivity.
    + pose proof (filter_name_once pods (trim name) Hnodup Hpresent) as Honce.
      fold rest in Honce. simpl. rewrite Honce.
      rewrite Hpods in Hindices |- *. symmetry. now apply last_index_of_seq.
Qed.

End PodIndices.

(** X1 on a concrete store: of the pods [a] (index 1) and [b] (index 2),
    [a] is deleted; the pod [c] created next has the index 2 as well. *)
Lemma delete_then_create_reuses_index_witness :
  ∃ w1 w2,
    PersonalStorage.delete Toy.account "a" Samples.twoPods = (Returns tt, w1)
    ∧ PersonalStorage.create Toy.account "c" w1 = (Returns (mkPod "c" 2 None), w2)
    ∧ fst (PersonalStorage.list_ Toy.account w2)
      = Returns [mkPod "b" 2 None; mkPod "c" 2 None].
Proof.
  destruct (delete_then_create_reuses_index "batch" (mkHDNode "root-key") "root-key"
              "a" "c" Samples.twoPods [mkPod "a" 1 None; mkPod "b" 2 None]
              toy_jsonRoundTrip)
    as (w1 & w2 & Hdelete & Hcreate & Hlist & _);
    [vm_compute; reflexivity | vm_compute; lia
    | apply (bool_decide_unpack _); vm_compute; exact I
    | vm_compute; reflexivity
    | intros Hin; apply list_elem_of_In in Hin; vm_compute in Hin; intuition congruence
    | vm_compute; congruence |].
  exists w1, w2. split; [exact Hdelete|]. split; [exact Hcreate | exact Hlist].
Defined.

Section PodFailures.
Context `{Externals}.
Variables (batch : string) (rootWallet : HDNode) (seed : PrivateKey).

Let acc : AccountData Swarm :=
  mkAccountData Swarm (swarmConnection batch) (Some rootWallet) seed.
Let owner : EthAddress := address rootWallet.
Let podsLookup : Request := ReqLookup owner (bmtHashString PodUtils.POD_TOPIC).


End PodFailures.


(* ===================================================================== *)
(** * Directory entries *)
(* ===================================================================== *)

Section Entries.
Context `{Externals}.
Variables (batch : string) (wallet : HDNode) (podPassword : list byte).

Let owner : EthAddress := address wallet.

(** A directory record written to a feed is read back from it, and the
    other feeds answer as before. *)
Lemma rawMetadataAt_written (topic : string) (epoch : Epoch) (d : RawDirectoryMetadata) w :
  cipherRoundTrip -> jsonRoundTrip ->
  rawMetadataAt
    (snd (swarm_socUpload (privateKey wallet) batch (feedIdentifier topic (Some epoch))
            (encryptBytes podPassword (ContentItems.getRawDirectoryMetadataBytes d)) w))
    owner podPassword topic
  = Returns (ContentItems.mkRawMetadataWithEpoch (inl d) epoch).
Proof.
  intros Hcipher Hjson. unfold rawMetadataAt. rewrite feedAnswer_socUpload.
  case_decide as E; [|exfalso; apply E; reflexivity].
  unfold decodeMetadata. cbn [la_data la_epoch]. rewrite Hcipher.
  unfold ContentItems.getRawDirectoryMetadataBytes. now rewrite Hjson.
Qed.

Lemma rawMetadataAt_elsewhere key (topic : string) epoch data w owner' pw' (path' : string) :
  (owner', bmtHashString path') ≠ (addressOfKey key, bmtHashString topic) ->
  rawMetadataAt (snd (swarm_socUpload key batch (feedIdentifier topic epoch) data w))
    owner' pw' path'
  = rawMetadataAt w owner' pw' path'.
Proof.
  intros N. unfold rawMetadataAt. rewrite feedAnswer_socUpload.
  case_decide as E; [exfalso; apply N; now rewrite E | reflexivity].
Qed.

Lemma existsAt_elsewhere key (topic : string) epoch data w owner' (path' : string) :
  (owner', bmtHashString path') ≠ (addressOfKey key, bmtHashString topic) ->
  existsAt (snd (swarm_socUpload key batch (feedIdentifier topic epoch) data w)) owner' path'
  = existsAt w owner' path'.
Proof.
  intros N. unfold existsAt. rewrite feedAnswer_socUpload.
  case_decide as E; [exfalso; apply N; now rewrite E | reflexivity].
Qed.

Lemma existsAt_written key (topic : string) epoch data w :
  existsAt (snd (swarm_socUpload key batch (feedIdentifier topic epoch) data w))
    (addressOfKey key) topic = true.
Proof.
  unfold existsAt. rewrite feedAnswer_socUpload.
  case_decide as E; [reflexivity | exfalso; apply E; reflexivity].
Qed.

Lemma requests_socUpload key id data w :
  requests (snd (swarm_socUpload key batch id data w))
  = requests w ++ [ReqSocUpload (addressOfKey key) id data].
Proof. reflexivity. Qed.

Lemma filter_appended (names : list string) (item : string) :
  item ∉ names -> filter (fun name => name ≠ item) (names ++ [item]) = names.
Proof.
  intros N. rewrite list.filter_app, filter_absent by exact N.
  rewrite filter_cons_False by (intros C; now apply C). simpl.
  now rewrite app_nil_r.
Qed.

(** X3.  A successful [addEntryToDirectory].  When nothing is stored at
    the full path, the parent record exists and does not list the
    token-prefixed name, the call sends three requests (the lookup of the
    full path, the lookup of the parent, one feed write of the parent at
    its next epoch), after which the parent record has the name appended
    at the end of its list and the current time as modification time.  No
    chunk is added and the records of all other feeds read as before. *)
Theorem addEntryToDirectory_appends
  (parentPath entryPath : string) (isFile : bool) (w : Swarm)
  (parentData : RawDirectoryMetadata) (epoch : Epoch) :
  let fullPath := combine [parentPath; entryPath] in
  let names := default [] (FileOrDirNames parentData) in
  let item :=
    (if isFile then ContentItems.FILE_TOKEN else ContentItems.DIRECTORY_TOKEN)
      +:+ entryPath in
  let written :=
    mkRawDirectoryMetadata
      (ContentItems.setModificationTime (Meta parentData) getUnixTimestamp)
      (Some (names ++ [item])) in
  let nextEpoch := epoch_getNextEpoch epoch getUnixTimestamp in
  cipherRoundTrip -> jsonRoundTrip ->
  parentPath ≠ EmptyString -> entryPath ≠ EmptyString ->
  existsAt w owner fullPath = false ->
  rawMetadataAt w owner podPassword parentPath
  = Returns (ContentItems.mkRawMetadataWithEpoch (inl parentData) epoch) ->
  item ∉ names ->
  ∃ reference w',
    ContentItems.addEntryToDirectory (swarmConnection batch) wallet podPassword
      parentPath entryPath isFile w = (Returns reference, w')
    ∧ rawMetadataAt w' owner podPassword parentPath
      = Returns (ContentItems.mkRawMetadataWithEpoch (inl written) nextEpoch)
    ∧ requests w'
      = requests w
        ++ [ReqLookup owner (bmtHashString fullPath);
            ReqLookup owner (bmtHashString parentPath);
            ReqSocUpload owner (feedIdentifier parentPath (Some nextEpoch))
              (encryptBytes podPassword (ContentItems.getRawDirectoryMetadataBytes written))]
    ∧ chunks w' = chunks w
    ∧ ∀ owner' pw' (path' : string),
        (owner', bmtHashString path') ≠ (owner, bmtHashString parentPath) ->
        rawMetadataAt w' owner' pw' path' = rawMetadataAt w owner' pw' path'.
Proof.
  intros fullPath names item written nextEpoch Hcipher Hjson NP NE Hnew Hparent Hunlisted.
  set (w2 := logged w [ReqLookup owner (bmtHashString fullPath);
                       ReqLookup owner (bmtHashString parentPath)]).
  set (id := feedIdentifier parentPath (Some nextEpoch)).
  set (data := encryptBytes podPassword (ContentItems.getRawDirectoryMetadataBytes written)).
  exists (socAddress owner id), (snd (swarm_socUpload (privateKey wallet) batch id data w2)).
  split; [|split; [|split; [|split]]].
  - rewrite addEntryToDirectory_swarm by assumption. fold owner. rewrite Hparent.
    cbv zeta. fold names item.
    rewrite bool_decide_eq_false_2 by exact Hunlisted. reflexivity.
  - now apply rawMetadataAt_written.
  - rewrite requests_socUpload. unfold w2, logged. cbn [requests].
    rewrite <- app_assoc. reflexivity.
  - reflexivity.
  - intros owner' pw' path' N. unfold id. rewrite rawMetadataAt_elsewhere by exact N.
    apply rawMetadataAt_logged.
Qed.

(** X4.  [removeEntryFromDirectory] on a parent whose list is present
    writes the parent back at its next epoch with every occurrence of the
    token-prefixed name filtered out: the name is no longer listed, every
    other name is listed exactly when it was, in the same order, and the
    [Meta] part (the modification time included) is the one read.  No
    chunk changes, and every other feed reads and exists as before. *)
Theorem removeEntryFromDirectory_unlists
  (parentPath entryPath : string) (isFile : bool) (w : Swarm)
  (parentData : RawDirectoryMetadata) (epoch : Epoch) (names : list string) :
  let item :=
    (if isFile then ContentItems.FILE_TOKEN else ContentItems.DIRECTORY_TOKEN)
      +:+ entryPath in
  let kept := filter (fun name => name ≠ item) names in
  let nextEpoch := epoch_getNextEpoch epoch getUnixTimestamp in
  cipherRoundTrip -> jsonRoundTrip ->
  rawMetadataAt w owner podPassword parentPath
  = Returns (ContentItems.mkRawMetadataWithEpoch (inl parentData) epoch) ->
  FileOrDirNames parentData = Some names ->
  ∃ reference w',
    ContentItems.removeEntryFromDirectory (swarmConnection batch) wallet podPassword
      parentPath entryPath isFile w = (Returns reference, w')
    ∧ rawMetadataAt w' owner podPassword parentPath
      = Returns (ContentItems.mkRawMetadataWithEpoch
                   (inl (mkRawDirectoryMetadata (Meta parentData) (Some kept))) nextEpoch)
    ∧ (item ∉ kept)
    ∧ (∀ name : string, name ≠ item -> name ∈ kept ↔ name ∈ names)
    ∧ chunks w' = chunks w
    ∧ ∀ owner' pw' (path' : string),
        (owner', bmtHashString path') ≠ (owner, bmtHashString parentPath) ->
        rawMetadataAt w' owner' pw' path' = rawMetadataAt w owner' pw' path'
        ∧ existsAt w' owner' path' = existsAt w owner' path'.
Proof.
  intros item kept nextEpoch Hcipher Hjson Hparent Hnames.
  set (w1 := logged w [ReqLookup owner (bmtHashString parentPath)]).
  set (id := feedIdentifier parentPath (Some nextEpoch)).
  set (written := mkRawDirectoryMetadata (Meta parentData) (Some kept)).
  set (data := encryptBytes podPassword (ContentItems.getRawDirectoryMetadataBytes written)).
  exists (socAddress owner id), (snd (swarm_socUpload (privateKey wallet) batch id data w1)).
  split; [|split; [|split; [|split; [|split]]]].
  - rewrite (removeEntryFromDirectory_swarm batch wallet podPassword parentPath entryPath
               isFile w parentData epoch Hparent).
    rewrite Hnames. reflexivity.
  - now apply rawMetadataAt_written.
  - unfold kept. rewrite list_elem_of_filter. intros [C _]. now apply C.
  - intros name N. unfold kept. rewrite list_elem_of_filter. tauto.
  - reflexivity.
  - intros owner' pw' path' N. unfold id. split.
    + rewrite rawMetadataAt_elsewhere by exact N. apply rawMetadataAt_logged.
    + rewrite existsAt_elsewhere by exact N. apply existsAt_logged.
Qed.

(** X5.  Adding an entry and then removing it gives back the list of
    names the parent had (an absent list read as the empty one); the
    parent keeps the modification time that the addition has set. *)
Theorem add_then_remove_restores_listing
  (parentPath entryPath : string) (isFile : bool) (w : Swarm)
  (parentData : RawDirectoryMetadata) (epoch : Epoch) :
  let fullPath := combine [parentPath; entryPath] in
  let names := default [] (FileOrDirNames parentData) in
  let item :=
    (if isFile then ContentItems.FILE_TOKEN else ContentItems.DIRECTORY_TOKEN)
      +:+ entryPath in
  cipherRoundTrip -> jsonRoundTrip ->
  parentPath ≠ EmptyString -> entryPath ≠ EmptyString ->
  existsAt w owner fullPath = false ->
  rawMetadataAt w owner podPassword parentPath
  = Returns (ContentItems.mkRawMetadataWithEpoch (inl parentData) epoch) ->
  item ∉ names ->
  ∃ r1 w1 r2 w2 epoch2,
    ContentItems.addEntryToDirectory (swarmConnection batch) wallet podPassword
      parentPath entryPath isFile w = (Returns r1, w1)
    ∧ ContentItems.removeEntryFromDirectory (swarmConnection batch) wallet podPassword
        parentPath entryPath isFile w1 = (Returns r2, w2)
    ∧ rawMetadataAt w2 owner podPassword parentPath
      = Returns (ContentItems.mkRawMetadataWithEpoch
                   (inl (mkRawDirectoryMetadata
                           (ContentItems.setModificationTime (Meta parentData)
                              getUnixTimestamp)
                           (Some names))) epoch2).
Proof.
  intros fullPath names item Hcipher Hjson NP NE Hnew Hparent Hunlisted.
  set (written :=
         mkRawDirectoryMetadata
           (ContentItems.setModificationTime (Meta parentData) getUnixTimestamp)
           (Some (names ++ [item]))).
  set (epoch1 := epoch_getNextEpoch epoch getUnixTimestamp).
  set (w1 := snd (swarm_socUpload (privateKey wallet) batch
                    (feedIdentifier parentPath (Some epoch1))
                    (encryptBytes podPassword
                       (ContentItems.getRawDirectoryMetadataBytes written))
                    (logged w [ReqLookup owner (bmtHashString fullPath);
                               ReqLookup owner (bmtHashString parentPath)]))).
  assert (Hparent1 : rawMetadataAt w1 owner podPassword parentPath
                     = Returns (ContentItems.mkRawMetadataWithEpoch (inl written) epoch1))
    by now apply rawMetadataAt_written.
  eexists _, w1, _, _, (epoch_getNextEpoch epoch1 getUnixTimestamp).
  split; [|split].
  - rewrite addEntryToDirectory_swarm by assumption. fold owner. rewrite Hparent.
    cbv zeta. fold names item. rewrite bool_decide_eq_false_2 by exact Hunlisted.
    reflexivity.
  - rewrite (removeEntryFromDirectory_swarm batch wallet podPassword parentPath entryPath
               isFile w1 written epoch1 Hparent1).
    reflexivity.
  - cbn [snd FileOrDirNames written Meta]. fold item.
    rewrite filter_appended by exact Hunlisted. now apply rawMetadataAt_written.
Qed.


(** The store after a successful [createDirectory]: two lookups, the
    parent written with the new name, then the record of the child. *)
Lemma createDirectory_swarm (fullPath : string) (w : Swarm)
  (parentData : RawDirectoryMetadata) (epoch : Epoch) :
  let parts := getPathParts fullPath in
  let name := List.last parts EmptyString in
  let parentPath := getPathFromParts parts 1 in
  let probe := combine [parentPath; name] in
  let childTopic := combine (splitPath parentPath ++ [name]) in
  let names := default [] (FileOrDirNames parentData) in
  let item := ContentItems.DIRECTORY_TOKEN +:+ name in
  let listing :=
    mkRawDirectoryMetadata
      (ContentItems.setModificationTime (Meta parentData) getUnixTimestamp)
      (Some (names ++ [item])) in
  let child :=
    mkRawDirectoryMetadata
      (mkDirectoryMeta META_VERSION parentPath name getUnixTimestamp getUnixTimestamp
         getUnixTimestamp) None in
  let nextEpoch := epoch_getNextEpoch epoch getUnixTimestamp in
  assertPartsLength parts = Returns tt ->
  assertDirectoryName name = Returns tt ->
  parentPath ≠ EmptyString -> name ≠ EmptyString ->
  existsAt w owner probe = false ->
  rawMetadataAt w owner podPassword parentPath
  = Returns (ContentItems.mkRawMetadataWithEpoch (inl parentData) epoch) ->
  item ∉ names ->
  DirectoryHandler.createDirectory (swarmConnection batch) fullPath wallet podPassword w
  = (Returns tt,
     snd (swarm_socUpload (privateKey wallet) batch (feedIdentifier childTopic None)
            (encryptBytes podPassword (ContentItems.getRawDirectoryMetadataBytes child))
            (snd (swarm_socUpload (privateKey wallet) batch
                    (feedIdentifier parentPath (Some nextEpoch))
                    (encryptBytes podPassword
                       (ContentItems.getRawDirectoryMetadataBytes listing))
                    (logged w [ReqLookup owner (bmtHashString probe);
                               ReqLookup owner (bmtHashString parentPath)]))))).
Proof.
  intros parts name parentPath probe childTopic names item listing child nextEpoch
    Hparts Hname NP NE Hnew Hparent Hunlisted.
  unfold DirectoryHandler.createDirectory. fold parts. rewrite Hparts.
  rewrite bind_lift_returns. fold name. rewrite Hname, bind_lift_returns.
  fold parentPath.
  assert (Hadd :
    ContentItems.addEntryToDirectory (swarmConnection batch) wallet podPassword
      parentPath name false w
    = (Returns (socAddress owner (feedIdentifier parentPath (Some nextEpoch))),
       snd (swarm_socUpload (privateKey wallet) batch
              (feedIdentifier parentPath (Some nextEpoch))
              (encryptBytes podPassword
                 (ContentItems.getRawDirectoryMetadataBytes listing))
              (logged w [ReqLookup owner (bmtHashString probe);
                         ReqLookup owner (bmtHashString parentPath)])))).
  { rewrite addEntryToDirectory_swarm by assumption. fold owner. rewrite Hparent.
    cbv zeta. fold names item. rewrite bool_decide_eq_false_2 by exact Hunlisted.
    reflexivity. }
  rewrite (bind_returns _ _ _ _ _ Hadd).
  unfold bind, DirectoryHandler.createDirectoryInfo. rewrite writeFeedData_swarm.
  reflexivity.
Qed.

(** X6.  A successful [createDirectory] sends four requests in this
    order: the lookup of the full path, the lookup of the parent, the
    write of the parent with the new name appended, the write of the
    record of the new directory (no list, the three times set to now).
    Afterwards the new directory reads back as that record; the parent
    reads as the extended list, when its topic is not the one of the new
    directory; and, when the probed path and the written path are the same
    topic, creating the same directory again fails with "already uploaded
    to the network" after a single lookup. *)
Theorem createDirectory_creates (fullPath : string) (w : Swarm)
  (parentData : RawDirectoryMetadata) (epoch : Epoch) :
  let parts := getPathParts fullPath in
  let name := List.last parts EmptyString in
  let parentPath := getPathFromParts parts 1 in
  let probe := combine [parentPath; name] in
  let childTopic := combine (splitPath parentPath ++ [name]) in
  let names := default [] (FileOrDirNames parentData) in
  let item := ContentItems.DIRECTORY_TOKEN +:+ name in
  let listing :=
    mkRawDirectoryMetadata
      (ContentItems.setModificationTime (Meta parentData) getUnixTimestamp)
      (Some (names ++ [item])) in
  let child :=
    mkRawDirectoryMetadata
      (mkDirectoryMeta META_VERSION parentPath name getUnixTimestamp getUnixTimestamp
         getUnixTimestamp) None in
  let nextEpoch := epoch_getNextEpoch epoch getUnixTimestamp in
  cipherRoundTrip -> jsonRoundTrip ->
  assertPartsLength parts = Returns tt ->
  assertDirectoryName name = Returns tt ->
  parentPath ≠ EmptyString -> name ≠ EmptyString ->
  existsAt w owner probe = false ->
  rawMetadataAt w owner podPassword parentPath
  = Returns (ContentItems.mkRawMetadataWithEpoch (inl parentData) epoch) ->
  item ∉ names ->
  ∃ w',
    DirectoryHandler.createDirectory (swarmConnection batch) fullPath wallet podPassword w
    = (Returns tt, w')
    ∧ requests w'
      = requests w
        ++ [ReqLookup owner (bmtHashString probe);
            ReqLookup owner (bmtHashString parentPath);
            ReqSocUpload owner (feedIdentifier parentPath (Some nextEpoch))
              (encryptBytes podPassword (ContentItems.getRawDirectoryMetadataBytes listing));
            ReqSocUpload owner (feedIdentifier childTopic None)
              (encryptBytes podPassword (ContentItems.getRawDirectoryMetadataBytes child))]
    ∧ rawMetadataAt w' owner podPassword childTopic
      = Returns (ContentItems.mkRawMetadataWithEpoch (inl child)
                   (mkEpoch HIGHEST_LEVEL getUnixTimestamp))
    ∧ (bmtHashString childTopic ≠ bmtHashString parentPath ->
       rawMetadataAt w' owner podPassword parentPath
       = Returns (ContentItems.mkRawMetadataWithEpoch (inl listing) nextEpoch))
    ∧ (bmtHashString probe = bmtHashString childTopic ->
       DirectoryHandler.createDirectory (swarmConnection batch) fullPath wallet
         podPassword w'
       = (Throws (ErrorObj (ContentItems.alreadyUploaded "Directory" probe)),
          logged w' [ReqLookup owner (bmtHashString probe)])).
Proof.
  intros parts name parentPath probe childTopic names item listing child nextEpoch
    Hcipher Hjson Hparts Hname NP NE Hnew Hparent Hunlisted.
  pose proof (createDirectory_swarm fullPath w parentData epoch Hparts Hname NP NE Hnew
                Hparent Hunlisted) as Hcreate.
  cbv zeta in Hcreate. fold parts name parentPath probe childTopic names item in Hcreate.
  fold listing child nextEpoch in Hcreate.
  set (w2 := logged w [ReqLookup owner (bmtHashString probe);
                       ReqLookup owner (bmtHashString parentPath)]) in *.
  set (w3 := snd (swarm_socUpload (privateKey wallet) batch
                    (feedIdentifier parentPath (Some nextEpoch))
                    (encryptBytes podPassword
                       (ContentItems.getRawDirectoryMetadataBytes listing)) w2)) in *.
  set (w4 := snd (swarm_socUpload (privateKey wallet) batch
                    (feedIdentifier childTopic None)
                    (encryptBytes podPassword
                       (ContentItems.getRawDirectoryMetadataBytes child)) w3)) in *.
  exists w4. split; [exact Hcreate|]. split; [|split; [|split]].
  - unfold w4, w3. rewrite !requests_socUpload. unfold w2, logged. cbn [requests].
    rewrite <- !app_assoc. reflexivity.
  - unfold w4, rawMetadataAt. rewrite feedAnswer_socUpload.
    case_decide as E; [|exfalso; apply E; reflexivity].
    unfold decodeMetadata. cbn [la_data la_epoch]. rewrite Hcipher.
    unfold ContentItems.getRawDirectoryMetadataBytes. now rewrite Hjson.
  - intros Hdistinct. unfold w4. rewrite rawMetadataAt_elsewhere.
    + now apply rawMetadataAt_written.
    + intros C. apply Hdistinct. now inversion C.
  - intros Hsame.
    unfold DirectoryHandler.createDirectory. fold parts. rewrite Hparts.
    rewrite bind_lift_returns. fold name. rewrite Hname, bind_lift_returns.
    fold parentPath.
    assert (Hthere : existsAt w4 owner probe = true).
    { unfold existsAt, w4. rewrite feedAnswer_socUpload.
      case_decide as E; [reflexivity|]. exfalso. apply E. now rewrite Hsame. }
    now rewrite (bind_throws _ _ _ _ _
                   (addEntryToDirectory_exists batch wallet podPassword parentPath name
                      false w4 NP NE Hthere)).
Qed.


End Entries.

(** X3 on a concrete store: the file name [f.txt] is added to the root
    of the pod [docs], which listed nothing. *)
Lemma addEntryToDirectory_appends_witness :
  ∃ reference w',
    ContentItems.addEntryToDirectory Toy.conn Toy.podWallet Toy.password "/" "f.txt"
      true Toy.withPod = (Returns reference, w')
    ∧ rawMetadataAt w' (address Toy.podWallet) Toy.password "/"
      = Returns (ContentItems.mkRawMetadataWithEpoch
                   (inl (mkRawDirectoryMetadata
                           (mkDirectoryMeta 2 EmptyString "/" 1700000000 1700000000
                              1700000000)
                           (Some ["_F_f.txt"])))
                   (mkEpoch 30 1700000000))
    ∧ length (requests w') = length (requests Toy.withPod) + 3.
Proof.
  destruct (addEntryToDirectory_appends "batch" Toy.podWallet Toy.password "/" "f.txt"
              true Toy.withPod
              (mkRawDirectoryMetadata
                 (mkDirectoryMeta 2 EmptyString "/" 1700000000 1700000000 1700000000)
                 None)
              (mkEpoch 31 1700000000) toy_cipherRoundTrip toy_jsonRoundTrip)
    as (reference & w' & Hadd & Hparent & Hrequests & _);
    [discriminate | discriminate | vm_compute; reflexivity | vm_compute; reflexivity
    | intros Hin; apply list_elem_of_In in Hin; vm_compute in Hin; exact Hin |].
  exists reference, w'. split; [exact Hadd|]. split; [exact Hparent|].
  rewrite Hrequests, length_app. reflexivity.
Defined.

(** X4 on a concrete store: the directory [a] is removed from the root
    of the pod [docs], which listed only it. *)
Lemma removeEntryFromDirectory_unlists_witness :
  ∃ reference w',
    ContentItems.removeEntryFromDirectory Toy.conn Toy.podWallet Toy.password "/" "a"
      false Samples.withDirectory = (Returns reference, w')
    ∧ rawMetadataAt w' (address Toy.podWallet) Toy.password "/"
      = Returns (ContentItems.mkRawMetadataWithEpoch
                   (inl (mkRawDirectoryMetadata
                           (mkDirectoryMeta 2 EmptyString "/" 1700000000 1700000000
                              1700000000)
                           (Some [])))
                   (mkEpoch 29 1700000000))
    ∧ existsAt w' (address Toy.podWallet) "/a" = true.
Proof.
  destruct (removeEntryFromDirectory_unlists "batch" Toy.podWallet Toy.password "/" "a"
              false Samples.withDirectory
              (mkRawDirectoryMetadata
                 (mkDirectoryMeta 2 EmptyString "/" 1700000000 1700000000 1700000000)
                 (Some ["_D_a"]))
              (mkEpoch 30 1700000000) ["_D_a"] toy_cipherRoundTrip toy_jsonRoundTrip)
    as (reference & w' & Hremove & Hparent & _ & _ & _ & Hframe);
    [vm_compute; reflexivity | reflexivity |].
  exists reference, w'. split; [exact Hremove|]. split; [exact Hparent|].
  destruct (Hframe (address Toy.podWallet) Toy.password "/a") as [_ Hexists];
    [vm_compute; congruence|].
  rewrite Hexists. vm_compute. reflexivity.
Defined.

(** X5 on a concrete store: [f.txt] is added to the root of the pod
    [docs] and removed again. *)
Lemma add_then_remove_restores_listing_witness :
  ∃ r1 w1 r2 w2 epoch2,
    ContentItems.addEntryToDirectory Toy.conn Toy.podWallet Toy.password "/" "f.txt"
      true Toy.withPod = (Returns r1, w1)
    ∧ ContentItems.removeEntryFromDirectory Toy.conn Toy.podWallet Toy.password "/"
        "f.txt" true w1 = (Returns r2, w2)
    ∧ rawMetadataAt w2 (address Toy.podWallet) Toy.password "/"
      = Returns (ContentItems.mkRawMetadataWithEpoch
                   (inl (mkRawDirectoryMetadata
                           (mkDirectoryMeta 2 EmptyString "/" 1700000000 1700000000
                              1700000000)
                           (Some [])))
                   epoch2).
Proof.
  apply (add_then_remove_restores_listing "batch" Toy.podWallet Toy.password "/" "f.txt"
           true Toy.withPod
           (mkRawDirectoryMetadata
              (mkDirectoryMeta 2 EmptyString "/" 1700000000 1700000000 1700000000)
              None)
           (mkEpoch 31 1700000000) toy_cipherRoundTrip toy_jsonRoundTrip);
    [discriminate | discriminate | vm_compute; reflexivity | vm_compute; reflexivity
    | intros Hin; apply list_elem_of_In in Hin; vm_compute in Hin; exact Hin].
Defined.

(** X6 on a concrete store: the directory [/a] is created in the pod
    [docs], and created again. *)
Lemma createDirectory_creates_witness :
  ∃ w',
    DirectoryHandler.createDirectory Toy.conn "/a" Toy.podWallet Toy.password Toy.withPod
    = (Returns tt, w')
    ∧ length (requests w') = length (requests Toy.withPod) + 4
    ∧ rawMetadataAt w' (address Toy.podWallet) Toy.password "/a"
      = Returns (ContentItems.mkRawMetadataWithEpoch
                   (inl (mkRawDirectoryMetadata
                           (mkDirectoryMeta 2 "/" "a" 1700000000 1700000000 1700000000)
                           None))
                   (mkEpoch 31 1700000000))
    ∧ fst (DirectoryHandler.createDirectory Toy.conn "/a" Toy.podWallet Toy.password w')
      = Throws (ErrorObj (ContentItems.alreadyUploaded "Directory" "/a")).
Proof.
  destruct (createDirectory_creates "batch" Toy.podWallet Toy.password "/a" Toy.withPod
              (mkRawDirectoryMetadata
                 (mkDirectoryMeta 2 EmptyString "/" 1700000000 1700000000 1700000000)
                 None)
              (mkEpoch 31 1700000000) toy_cipherRoundTrip toy_jsonRoundTrip)
    as (w' & Hcreate & Hrequests & Hchild & _ & Hagain);
    [vm_compute; reflexivity | vm_compute; reflexivity | vm_compute; congruence
    | vm_compute; congruence | vm_compute; reflexivity | vm_compute; reflexivity
    | intros Hin; apply list_elem_of_In in Hin; vm_compute in Hin; exact Hin |].
  exists w'. split; [exact Hcreate|]. split; [|split; [exact Hchild|]].
  - rewrite Hrequests, length_app. reflexivity.
  - unfold Toy.conn. rewrite Hagain; [reflexivity | vm_compute; reflexivity].
Defined.


(* ===================================================================== *)
(** * What a delete leaves in place *)
(* ===================================================================== *)

#[global] Instance otherTopics_preorder `{Externals} topic : PreOrder (otherTopics topic).
Proof.
  split.
  - intros w. split; [reflexivity | intros; reflexivity].
  - intros a b c [C1 F1] [C2 F2]. split; [congruence|].
    intros owner p N. rewrite F2 by exact N. now apply F1.
Qed.

Section DeleteKeeps.
Context `{Externals}.

Lemma otherTopics_sameStorage topic w w' : sameStorage w w' -> otherTopics topic w w'.
Proof. intros [C F]. split; [exact C | intros; now rewrite F]. Qed.

Lemma otherTopics_logged topic w l : otherTopics topic w (logged w l).
Proof. apply otherTopics_sameStorage, sameStorage_logged. Qed.

Lemma otherTopics_socUpload key batch (topic : string) epoch data w :
  otherTopics topic w (snd (swarm_socUpload key batch (feedIdentifier topic epoch) data w)).
Proof.
  split; [reflexivity|]. intros owner p N. simpl.
  rewrite lookup_insert_ne; [reflexivity|].
  intros C. apply N. destruct epoch; now inversion C.
Qed.

Lemma otherTopics_removeEntry batch wallet podPassword (parentPath entryPath : string) isFile :
  preserves (otherTopics parentPath)
    (ContentItems.removeEntryFromDirectory (swarmConnection batch) wallet podPassword
       parentPath entryPath isFile).
Proof.
  unfold ContentItems.removeEntryFromDirectory. preserved.
  - intros w. change (bee (swarmConnection batch)) with swarmBee.
    rewrite getRawMetadata_swarm. apply otherTopics_logged.
  - intros w. rewrite writeFeedData_swarm. apply otherTopics_socUpload.
Qed.

Lemma otherTopics_getExtendedPods topic batch wlt seed podName :
  preserves (otherTopics topic)
    (PodUtils.getExtendedPodsListByAccountData
       (mkAccountData Swarm (swarmConnection batch) wlt seed) podName).
Proof.
  intros w. apply otherTopics_sameStorage. apply sameStorage_getExtendedPods.
Qed.

Lemma otherTopics_file_delete batch wlt seed (podName fullPath : string) :
  preserves (otherTopics (pi_path (extractPathInfo fullPath)))
    (FileClass.delete (mkAccountData Swarm (swarmConnection batch) wlt seed)
       podName fullPath).
Proof.
  unfold FileClass.delete. preserved.
  - apply otherTopics_getExtendedPods.
  - apply otherTopics_removeEntry.
Qed.

Lemma otherTopics_directory_delete batch wlt seed (podName fullPath : string) :
  preserves (otherTopics (pi_path (extractPathInfo fullPath)))
    (DirectoryClass.delete (mkAccountData Swarm (swarmConnection batch) wlt seed)
       podName fullPath).
Proof.
  unfold DirectoryClass.delete, PodUtils.getWritablePodInfo. preserved.
  - apply otherTopics_getExtendedPods.
  - apply otherTopics_removeEntry.
Qed.

(** What a download answers depends on the feed of the path and on the
    chunks only. *)
Lemma downloadBlocks_chunks blocks result offset w w' :
  chunks w' = chunks w ->
  fst (FileHandler.downloadBlocks swarmBee blocks result offset w')
  = fst (FileHandler.downloadBlocks swarmBee blocks result offset w).
Proof.
  revert result offset w w'.
  induction blocks as [|block blocks IH]; intros result offset w w' C; [reflexivity|].
  simpl FileHandler.downloadBlocks. unfold bind. rewrite !downloadData_swarm, C.
  destruct (chunks w !! block_reference block) as [data|]; [|reflexivity].
  unfold liftOutcome.
  destruct (Uint8Array_set result data offset) as [result'|e]; [|reflexivity].
  apply IH. exact C.
Qed.

Lemma rawMetadataAt_otherTopics topic w w' owner podPassword (p : string) :
  otherTopics topic w w' -> bmtHashString p ≠ bmtHashString topic ->
  rawMetadataAt w' owner podPassword p = rawMetadataAt w owner podPassword p.
Proof.
  intros [_ F] N. unfold rawMetadataAt, feedAnswer. now rewrite F.
Qed.

Lemma downloadData_otherTopics topic w w' owner podPassword (p : string) :
  otherTopics topic w w' -> bmtHashString p ≠ bmtHashString topic ->
  fst (FileHandler.downloadData swarmBee p owner podPassword w')
  = fst (FileHandler.downloadData swarmBee p owner podPassword w).
Proof.
  intros R N. pose proof (rawMetadataAt_otherTopics topic w w' owner podPassword p R N) as Hm.
  destruct R as [C _].
  unfold FileHandler.downloadData. unfold bind.
  rewrite !getFileMetadata_swarm, Hm.
  destruct (rawMetadataAt w owner podPassword p) as [m|e]; [|reflexivity].
  destruct (ContentItems.assertRawFileMetadata (ContentItems.metadata m)) as [f|e];
    [|reflexivity].
  destruct (decide (compression f ≠ EmptyString)); [reflexivity|].
  rewrite !downloadBlocksManifest_swarm.
  change (chunks (logged w' [ReqLookup owner (bmtHashString p)])) with (chunks w').
  change (chunks (logged w [ReqLookup owner (bmtHashString p)])) with (chunks w).
  rewrite C. destruct (chunks w !! blocksReference f) as [data|]; [|reflexivity].
  destruct (parse data) as [[d|f'|b|ps]|]; try reflexivity.
  apply downloadBlocks_chunks. simpl. exact C.
Qed.

(** X8.  Deleting a file or a directory removes nothing from the
    network.  After [File.delete] or [Directory.delete], whatever their
    outcome, the chunks are the same, and at every path whose topic
    differs from the parent's the stored record reads as before and a
    download returns what it returned before: the record, the manifest
    and the blocks of the deleted item are still there. *)
Theorem delete_only_unlists batch wlt seed (podName fullPath : string) (w : Swarm) :
  let acc := mkAccountData Swarm (swarmConnection batch) wlt seed in
  let parentPath := pi_path (extractPathInfo fullPath) in
  ∀ (owner : EthAddress) (podPassword : list byte) (p : string),
    bmtHashString p ≠ bmtHashString parentPath ->
    (let w' := snd (FileClass.delete acc podName fullPath w) in
     chunks w' = chunks w
     ∧ rawMetadataAt w' owner podPassword p = rawMetadataAt w owner podPassword p
     ∧ fst (FileHandler.downloadData swarmBee p owner podPassword w')
       = fst (FileHandler.downloadData swarmBee p owner podPassword w))
    ∧ (let w' := snd (DirectoryClass.delete acc podName fullPath w) in
       chunks w' = chunks w
       ∧ rawMetadataAt w' owner podPassword p = rawMetadataAt w owner podPassword p
       ∧ fst (FileHandler.downloadData swarmBee p owner podPassword w')
         = fst (FileHandler.downloadData swarmBee p owner podPassword w)).
Proof.
  intros acc parentPath owner podPassword p N. split.
  - pose proof (otherTopics_file_delete batch wlt seed podName fullPath w) as R.
    fold acc parentPath in R. cbv zeta. split; [apply R|]. split.
    + now apply (rawMetadataAt_otherTopics parentPath).
    + now apply (downloadData_otherTopics parentPath).
  - pose proof (otherTopics_directory_delete batch wlt seed podName fullPath w) as R.
    fold acc parentPath in R. cbv zeta. split; [apply R|]. split.
    + now apply (rawMetadataAt_otherTopics parentPath).
    + now apply (downloadData_otherTopics parentPath).
Qed.

End DeleteKeeps.

(** X8 on a concrete store: the file [/f.txt] is deleted; a download of
    its path still returns its five bytes. *)
Lemma delete_only_unlists_witness :
  let w' := snd (FileClass.delete Toy.account "docs" "/f.txt" Samples.withFile) in
  fst (FileClass.delete Toy.account "docs" "/f.txt" Samples.withFile) = Returns tt
  ∧ fst (FileHandler.downloadData swarmBee "/f.txt" (address Toy.podWallet) Toy.password
           w')
    = Returns [x61; x62; x63; x64; x65].
Proof.
  intros w'. split; [vm_compute; reflexivity|].
  destruct (delete_only_unlists "batch" (Some (mkHDNode "root-key")) "root-key" "docs"
              "/f.txt" Samples.withFile (address Toy.podWallet) Toy.password "/f.txt")
    as [(_ & _ & Hdown) _]; [vm_compute; congruence|].
  unfold w', Toy.account, Toy.conn. rewrite Hdown. vm_compute. reflexivity.
Defined.

Section RemovedStaysTaken.
Context `{Externals}.
Variables (batch : string) (wallet : HDNode) (podPassword : list byte).

Let owner : EthAddress := address wallet.

Lemma existsAt_otherTopics topic w w' address (p : string) :
  otherTopics topic w w' -> bmtHashString p ≠ bmtHashString topic ->
  existsAt w' address p = existsAt w address p.
Proof. intros [_ F] N. unfold existsAt, feedAnswer. now rewrite F. Qed.

(** X9.  A removed entry cannot be added again.  After
    [removeEntryFromDirectory] of an entry whose full path is stored (and
    is another topic than the parent), the full path is still stored, so
    [addEntryToDirectory] of the same entry fails with "already uploaded
    to the network" after the single lookup of the full path. *)
Theorem removed_path_stays_taken
  (parentPath entryPath : string) (isFile : bool) (w : Swarm) :
  let fullPath := combine [parentPath; entryPath] in
  let w' :=
    snd (ContentItems.removeEntryFromDirectory (swarmConnection batch) wallet podPassword
           parentPath entryPath isFile w) in
  parentPath ≠ EmptyString -> entryPath ≠ EmptyString ->
  existsAt w owner fullPath = true ->
  bmtHashString fullPath ≠ bmtHashString parentPath ->
  existsAt w' owner fullPath = true
  ∧ ContentItems.addEntryToDirectory (swarmConnection batch) wallet podPassword
      parentPath entryPath isFile w'
    = (Throws (ErrorObj (ContentItems.alreadyUploaded
                           (if isFile then "File" else "Directory") fullPath)),
       logged w' [ReqLookup owner (bmtHashString fullPath)]).
Proof.
  intros fullPath w' NP NE Hthere Hdistinct.
  assert (Hstill : existsAt w' owner fullPath = true).
  { rewrite <- Hthere. apply (existsAt_otherTopics parentPath); [|exact Hdistinct].
    apply otherTopics_removeEntry. }
  split; [exact Hstill|].
  now apply addEntryToDirectory_exists.
Qed.

End RemovedStaysTaken.

(** X9 on a concrete store: the directory [/a] is removed from the root
    and added again. *)
Lemma removed_path_stays_taken_witness :
  let w' :=
    snd (ContentItems.removeEntryFromDirectory Toy.conn Toy.podWallet Toy.password "/"
           "a" false Samples.withDirectory) in
  fst (ContentItems.addEntryToDirectory Toy.conn Toy.podWallet Toy.password "/" "a"
         false w')
  = Throws (ErrorObj (ContentItems.alreadyUploaded "Directory" "/a")).
Proof.
  intros w'.
  destruct (removed_path_stays_taken "batch" Toy.podWallet Toy.password "/" "a" false
              Samples.withDirectory) as [_ Hadd];
    [discriminate | discriminate | vm_compute; reflexivity | vm_compute; congruence |].
  unfold w', Toy.conn. rewrite Hadd. reflexivity.
Defined.

(* ===================================================================== *)
(** * A failed upload *)
(* ===================================================================== *)

Section UploadFailure.
Context `{Externals}.



End UploadFailure.


(* ===================================================================== *)
(** * Downloads and the sizes of the manifest *)
(* ===================================================================== *)

Section BlockSizes.
Context `{Externals}.

(** When the fetched blocks outgrow the buffer, the loop stops with the
    range error of [set]. *)
Lemma downloadBlocks_overflow blocks datas result offset w :
  Forall2 (fun block data => chunks w !! block_reference block = Some data) blocks datas ->
  offset <= length result ->
  length result < offset + length (concat datas) ->
  fst (FileHandler.downloadBlocks swarmBee blocks result offset w)
  = Throws (ErrorObj "offset is out of bounds").
Proof.
  revert datas result offset w.
  induction blocks as [|block blocks IH]; intros datas result offset w Hall Hin Hover.
  - inversion Hall; subst. simpl in Hover. lia.
  - inversion Hall as [|? data ? datas' Hblock Hrest]; subst. simpl in Hover.
    rewrite length_app in Hover.
    simpl FileHandler.downloadBlocks. unfold bind at 1.
    rewrite downloadData_swarm, Hblock.
    destruct (decide (offset + length data <= length result)) as [Hfit|Hnofit].
    + rewrite Uint8Array_set_fits by exact Hfit. rewrite bind_lift_returns.
      apply (IH datas'); [exact Hrest | |];
        rewrite !length_app, length_take, length_drop; lia.
    + unfold Uint8Array_set. rewrite decide_False by exact Hnofit.
      now rewrite bind_lift_throws.
Qed.

Lemma drop_repeat {A} (x : A) (n k : nat) : drop k (repeat x n) = repeat x (n - k).
Proof.
  revert k. induction n as [|n IH]; intros [|k]; simpl; try reflexivity. apply IH.
Qed.

(** X11.  [downloadData] trusts the sizes recorded in the manifest only
    for the length of the buffer.  For a file without compression whose
    blocks are all stored: when the fetched blocks are together not longer
    than the recorded total, the result is their concatenation followed by
    zero bytes up to the recorded total; when they are longer, the
    download fails with the error of the write past the end of the
    buffer. *)
Theorem downloadData_block_lengths
  (fullPath : string) (owner : EthAddress) (podPassword : list byte) (w : Swarm)
  (meta : FileMetadata) (manifest : Blocks) (datas : list (list byte)) :
  let total := sumSizes (blocks manifest) in
  let fetched := length (concat datas) in
  fst (FileHandler.getFileMetadata swarmBee fullPath owner podPassword w) = Returns meta ->
  compression meta = EmptyString ->
  fst (FileUtils.downloadBlocksManifest swarmBee (blocksReference meta) w)
  = Returns manifest ->
  Forall2 (fun block data => chunks w !! block_reference block = Some data)
    (blocks manifest) datas ->
  (fetched <= total ->
   fst (FileHandler.downloadData swarmBee fullPath owner podPassword w)
   = Returns (concat datas ++ repeat x00 (total - fetched)))
  ∧ (total < fetched ->
     fst (FileHandler.downloadData swarmBee fullPath owner podPassword w)
     = Throws (ErrorObj "offset is out of bounds")).
Proof.
  intros total fetched Hmeta Hplain Hmanifest Hall.
  rewrite (downloadData_plain fullPath owner podPassword w meta Hmeta manifest Hplain
             Hmanifest).
  fold total. split.
  - intros Hfit. rewrite (downloadBlocks_swarm (blocks manifest) datas).
    + cbn [fst]. simpl take. fold fetched. unfold new_Uint8Array.
      rewrite drop_repeat. reflexivity.
    + exact Hall.
    + unfold new_Uint8Array. rewrite repeat_length. simpl. exact Hfit.
  - intros Hover. apply downloadBlocks_overflow with (datas := datas).
    + exact Hall.
    + lia.
    + unfold new_Uint8Array. rewrite repeat_length. simpl. exact Hover.
Qed.

End BlockSizes.

(** X11 on concrete stores: a block of two bytes for which the manifest
    records five bytes, and one byte. *)
Lemma downloadData_block_lengths_witness :
  fst (FileHandler.downloadData swarmBee "/g.bin" (address Toy.podWallet) Toy.password
         (Samples.misSized 5))
  = Returns [x61; x62; x00; x00; x00]
  ∧ fst (FileHandler.downloadData swarmBee "/g.bin" (address Toy.podWallet) Toy.password
           (Samples.misSized 1))
    = Throws (ErrorObj "offset is out of bounds").
Proof.
  split.
  - destruct (downloadData_block_lengths "/g.bin" (address Toy.podWallet) Toy.password
                (Samples.misSized 5) (Samples.misSizedMeta 5) (Samples.misSizedManifest 5)
                [Samples.blockData]) as [Hshort _];
      [vm_compute; reflexivity | reflexivity | vm_compute; reflexivity
      | constructor; [vm_compute; reflexivity | constructor] |].
    rewrite Hshort; [reflexivity | vm_compute; lia].
  - destruct (downloadData_block_lengths "/g.bin" (address Toy.podWallet) Toy.password
                (Samples.misSized 1) (Samples.misSizedMeta 1) (Samples.misSizedManifest 1)
                [Samples.blockData]) as [_ Hlong];
      [vm_compute; reflexivity | reflexivity | vm_compute; reflexivity
      | constructor; [vm_compute; reflexivity | constructor] |].
    rewrite Hlong; [reflexivity | vm_compute; lia].
Defined.

(* ===================================================================== *)
(** * Block names *)
(* ===================================================================== *)

Section BlockNames.

Lemma length_string_of_uint d :
  String.length (DecimalString.NilEmpty.string_of_uint d) = Decimal.nb_digits d.
Proof. induction d; simpl; congruence. Qed.

Lemma uint_of_padded (j : nat) (s : string) :
  DecimalString.NilEmpty.uint_of_string
    (String.string_of_list_ascii (repeat "0"%char j) +:+ s)
  = Nat.iter j Decimal.D0 <$> DecimalString.NilEmpty.uint_of_string s.
Proof.
  induction j as [|j IH].
  - change (String.string_of_list_ascii (repeat "0"%char 0) +:+ s) with s.
    now destruct (DecimalString.NilEmpty.uint_of_string s).
  - change (String.string_of_list_ascii (repeat "0"%char (S j)) +:+ s)
      with (String "0" (String.string_of_list_ascii (repeat "0"%char j) +:+ s)).
    simpl. rewrite IH. now destruct (DecimalString.NilEmpty.uint_of_string s).
Qed.

Lemma of_uint_iter_D0 (j : nat) d : Nat.of_uint (Nat.iter j Decimal.D0 d) = Nat.of_uint d.
Proof. induction j as [|j IH]; [reflexivity|]. simpl. exact IH. Qed.

Lemma padStart_number (n k : nat) :
  Nat.of_uint
  <$> DecimalString.NilEmpty.uint_of_string
        (FileHandler.padStart (FileHandler.toString n) k "0")
  = Some n.
Proof.
  unfold FileHandler.padStart, FileHandler.toString. rewrite uint_of_padded.
  rewrite DecimalString.NilEmpty.usu. simpl.
  now rewrite of_uint_iter_D0, Unsigned.of_to.
Qed.

Lemma of_uint_acc_lower d acc :
  acc * 10 ^ Decimal.nb_digits d <= Nat.of_uint_acc d acc.
Proof.
  revert acc. induction d as [|d IH|d IH|d IH|d IH|d IH|d IH|d IH|d IH|d IH|d IH];
    intros acc; cbn [Nat.of_uint_acc Decimal.nb_digits];
    [rewrite Nat.pow_0_r; lia | ..];
    (etransitivity; [|apply IH]); rewrite Nat.tail_mul_spec, Nat.pow_succ_r';
    generalize (10 ^ Decimal.nb_digits d); intros p; nia.
Qed.

Lemma normal_digits_lower d :
  Decimal.unorm d = d -> d ≠ Decimal.zero ->
  10 ^ (Decimal.nb_digits d - 1) <= Nat.of_uint d.
Proof.
  intros Hnorm Hnz. destruct d as [|d|d|d|d|d|d|d|d|d|d];
    try (unfold Nat.of_uint; cbn [Nat.of_uint_acc Decimal.nb_digits];
         replace (S (Decimal.nb_digits d) - 1) with (Decimal.nb_digits d) by lia;
         (etransitivity; [|apply of_uint_acc_lower]);
         rewrite Nat.tail_mul_spec;
         generalize (10 ^ Decimal.nb_digits d); intros p; nia).
  - discriminate.
  - exfalso. rewrite unorm_D0 in Hnorm.
    assert (Hd : d ≠ Decimal.Nil) by (intros ->; now apply Hnz).
    pose proof (nb_digits_unorm d Hd) as Hle. rewrite Hnorm in Hle. simpl in Hle. lia.
Qed.

Lemma toString_digits (n k : nat) :
  0 < k -> n < 10 ^ k -> String.length (FileHandler.toString n) <= k.
Proof.
  intros Hk Hn. unfold FileHandler.toString. rewrite length_string_of_uint.
  set (d := Nat.to_uint n).
  assert (Hof : Nat.of_uint d = n) by apply Unsigned.of_to.
  assert (Hnorm : Decimal.unorm d = d)
    by (rewrite <- (Unsigned.to_of d), Hof; reflexivity).
  destruct (Decimal.uint_eq_dec d Decimal.zero) as [->|Hnz]; [simpl; lia|].
  pose proof (normal_digits_lower d Hnorm Hnz) as Hlow.
  destruct (decide (Decimal.nb_digits d <= k)) as [|Hbig]; [assumption|].
  exfalso. assert (Hpow : 10 ^ k <= 10 ^ (Decimal.nb_digits d - 1))
    by (apply Nat.pow_le_mono_r; lia).
  lia.
Qed.

(** X12.  Block names.  [generateBlockName] gives different names to
    different block numbers; a name has at least 11 characters, and
    exactly 11 for the block numbers below 100000. *)
Theorem generateBlockName_names (a b : nat) :
  (FileHandler.generateBlockName a = FileHandler.generateBlockName b -> a = b)
  ∧ 11 <= String.length (FileHandler.generateBlockName a)
  ∧ (a < 10 ^ 5 -> String.length (FileHandler.generateBlockName a) = 11).
Proof.
  assert (Hlen : ∀ s : string,
            String.length (FileHandler.padStart s 5 "0")
            = (5 - String.length s) + String.length s).
  { intros s. unfold FileHandler.padStart.
    generalize (5 - String.length s). intros j.
    induction j as [|j IH]; [reflexivity|].
    change (String.string_of_list_ascii (repeat "0"%char (S j)) +:+ s)
      with (String "0" (String.string_of_list_ascii (repeat "0"%char j) +:+ s)).
    simpl. now rewrite IH. }
  split; [|split].
  - unfold FileHandler.generateBlockName. intros E. simpl in E.
    assert (E' : FileHandler.padStart (FileHandler.toString a) 5 "0"
                 = FileHandler.padStart (FileHandler.toString b) 5 "0")
      by (inversion E as [E0]; exact E0).
    pose proof (padStart_number a 5) as Ha. rewrite E', padStart_number in Ha.
    now inversion Ha.
  - unfold FileHandler.generateBlockName.
    change (String.length ("block-" +:+ ?s)) with (6 + String.length s).
    rewrite Hlen. lia.
  - intros Hsmall. unfold FileHandler.generateBlockName.
    change (String.length ("block-" +:+ ?s)) with (6 + String.length s).
    rewrite Hlen. pose proof (toString_digits a 5 ltac:(lia) Hsmall). lia.
Qed.

End BlockNames.

(** X12 at the block number 7. *)
Lemma generateBlockName_names_witness :
  FileHandler.generateBlockName 7 = "block-00007"
  ∧ String.length (FileHandler.generateBlockName 7) = 11.
Proof.
  split; [reflexivity|].
  apply (generateBlockName_names 7 7). apply Nat.ltb_lt. vm_compute. reflexivity.
Defined.

(* ===================================================================== *)
(** * Reading a directory *)
(* ===================================================================== *)

#[global] Instance onlyRead_preorder : PreOrder onlyRead.
Proof.
  split.
  - intros w. exists []. split; [destruct w; unfold logged; simpl; now rewrite app_nil_r|].
    constructor.
  - intros a b c (l1 & -> & F1) (l2 & -> & F2). exists (l1 ++ l2). split.
    + unfold logged. simpl. now rewrite app_assoc.
    + apply Forall_app. split; assumption.
Qed.

Section ReadDirectory.
Context `{Externals}.
Variables (address : EthAddress) (podPassword : list byte).

Lemma onlyRead_logged w l : lookupsOnly l -> onlyRead w (logged w l).
Proof. intros F. exists l. split; [reflexivity | exact F]. Qed.

Lemma onlyRead_getRawMetadata (path : string) :
  preserves onlyRead (ContentItems.getRawMetadata swarmBee path address podPassword).
Proof.
  intros w. rewrite getRawMetadata_swarm. apply onlyRead_logged. repeat constructor.
Qed.

Lemma onlyRead_readItems (path : string) isRecursive descend names :
  (∀ item, preserves onlyRead (descend item)) ->
  ∀ content,
    preserves onlyRead
      (DirectoryHandler.readItems swarmBee path address podPassword isRecursive descend
         names content).
Proof.
  intros Hdescend. induction names as [|name names IH]; intros content.
  - simpl. preserved.
  - simpl. destruct (String.prefix ContentItems.FILE_TOKEN name).
    + preserved; [apply onlyRead_getRawMetadata | apply IH].
    + destruct (String.prefix ContentItems.DIRECTORY_TOKEN name); [|apply IH].
      preserved; [apply onlyRead_getRawMetadata|].
      destruct isRecursive; [|apply IH].
      preserved; [apply Hdescend|].
      match goal with |- preserves _ (match ?x with _ => _ end) => destruct x end;
        [apply IH | preserved].
Qed.

Lemma onlyRead_readDirectory fuel (path : string) isRecursive :
  preserves onlyRead
    (DirectoryHandler.readDirectory fuel swarmBee path address podPassword isRecursive).
Proof.
  revert path. induction fuel as [|fuel IH]; intros path; simpl; [preserved|].
  preserved; [apply onlyRead_getRawMetadata|].
  match goal with |- preserves _ (match ?x with _ => _ end) => destruct x end;
    [|preserved].
  preserved. apply onlyRead_readItems. intros item. apply IH.
Qed.

Lemma onlyRead_getExtendedPods batch wlt seed (podName : string) :
  preserves onlyRead
    (PodUtils.getExtendedPodsListByAccountData
       (mkAccountData Swarm (swarmConnection batch) wlt seed) podName).
Proof.
  unfold PodUtils.getExtendedPodsListByAccountData. preserved.
  - intros w. cbn [connection bee swarmConnection]. rewrite getPodsList_swarm.
    apply onlyRead_logged. repeat constructor.
  - destruct (find _ _) as [pod|]; [|preserved].
    destruct (pod_password pod); preserved.
Qed.

Lemma contentAt_feeds w w' (path : string) names :
  feeds w' = feeds w ->
  contentAt w' address podPassword path names = contentAt w address podPassword path names.
Proof.
  intros F. induction names as [|name names IH]; [reflexivity|].
  simpl. rewrite !(rawMetadataAt_feeds w w') by exact F. now rewrite IH.
Qed.

(** Without recursion the loop answers with the listing of the store. *)
Lemma readItems_swarm (path : string) descend names content w :
  fst (DirectoryHandler.readItems swarmBee path address podPassword false descend names
         content w)
  = match contentAt w address podPassword path names with
    | Returns items => Returns (Some (content ++ items))
    | Throws e => Throws e
    end.
Proof.
  revert content w. induction names as [|name names IH]; intros content w.
  - simpl. now rewrite app_nil_r.
  - simpl DirectoryHandler.readItems. simpl contentAt.
    change (String.length ContentItems.FILE_TOKEN) with 3.
    change (String.length ContentItems.DIRECTORY_TOKEN) with 3.
    fold (childPath path name).
    destruct (String.prefix ContentItems.FILE_TOKEN name).
    + unfold bind at 1. rewrite getRawMetadata_swarm.
      destruct (rawMetadataAt w address podPassword (childPath path name)) as [raw|e];
        [|reflexivity].
      destruct (ContentItems.assertRawFileMetadata (ContentItems.metadata raw)) as [data|e].
      * rewrite bind_lift_returns, IH.
        rewrite (contentAt_feeds w) by reflexivity.
        destruct (contentAt w address podPassword path names); [|reflexivity].
        now rewrite <- app_assoc.
      * now rewrite bind_lift_throws.
    + destruct (String.prefix ContentItems.DIRECTORY_TOKEN name); [|apply IH].
      unfold bind at 1. rewrite getRawMetadata_swarm.
      destruct (rawMetadataAt w address podPassword (childPath path name)) as [raw|e];
        [|reflexivity].
      destruct (ContentItems.assertRawDirectoryMetadata (ContentItems.metadata raw))
        as [data|e].
      * rewrite bind_lift_returns, IH.
        rewrite (contentAt_feeds w) by reflexivity.
        destruct (contentAt w address podPassword path names); [|reflexivity].
        now rewrite <- app_assoc.
      * now rewrite bind_lift_throws.
Qed.

Lemma readDirectory_swarm fuel (path : string) w d epoch names :
  rawMetadataAt w address podPassword path
  = Returns (ContentItems.mkRawMetadataWithEpoch (inl d) epoch) ->
  FileOrDirNames d = Some names ->
  fst (DirectoryHandler.readDirectory (S fuel) swarmBee path address podPassword false w)
  = match contentAt w address podPassword path names with
    | Returns items => Returns (Some (DirectoryItem d items))
    | Throws e => Throws e
    end.
Proof.
  intros Hparent Hnames. simpl DirectoryHandler.readDirectory.
  unfold bind at 1. rewrite getRawMetadata_swarm, Hparent.
  cbn [ContentItems.metadata ContentItems.assertRawDirectoryMetadata].
  rewrite bind_lift_returns, Hnames. unfold bind.
  match goal with
  | |- context [DirectoryHandler.readItems ?b ?p ?a ?pw false ?dsc ?ns ?c ?w0] =>
      pose proof (readItems_swarm p dsc ns c w0) as Hitems;
      destruct (DirectoryHandler.readItems b p a pw false dsc ns c w0) as [r w1]
  end.
  simpl in Hitems. rewrite (contentAt_feeds w) in Hitems by reflexivity. subst r.
  destruct (contentAt w address podPassword path names); reflexivity.
Qed.

(** The listing of the store, item by item. *)
Lemma contentAt_listed w (path : string) names items :
  contentAt w address podPassword path names = Returns items
  ↔ Forall2 (listed w address podPassword path) (filter hasToken names) items.
Proof.
  revert items. induction names as [|name names IH]; intros items.
  - simpl. split.
    + intros E. inversion E. constructor.
    + intros F. inversion F. reflexivity.
  - simpl contentAt. unfold hasToken at 1.
    destruct (String.prefix ContentItems.FILE_TOKEN name) eqn:Efile.
    + rewrite filter_cons_True by (unfold hasToken; rewrite Efile; exact I).
      split.
      * destruct (rawMetadataAt w address podPassword (childPath path name))
          as [[[d|f] ep]|e] eqn:Eraw; simpl; try discriminate.
        destruct (contentAt w address podPassword path names) as [rest|e] eqn:Erest;
          [|discriminate].
        intros E. inversion E; subst. constructor.
        -- simpl. split; [exact Efile | eauto].
        -- now apply IH.
      * intros F. inversion F as [|? item ? rest Hitem Hrest]; subst.
        destruct item as [f|d c]; simpl in Hitem.
        -- destruct Hitem as [_ [ep Eraw]]. rewrite Eraw. simpl.
           apply IH in Hrest. now rewrite Hrest.
        -- destruct Hitem as [C _]. congruence.
    + destruct (String.prefix ContentItems.DIRECTORY_TOKEN name) eqn:Edir.
      * rewrite filter_cons_True by (unfold hasToken; rewrite Efile, Edir; exact I).
        split.
        -- destruct (rawMetadataAt w address podPassword (childPath path name))
             as [[[d|f] ep]|e] eqn:Eraw; simpl; try discriminate.
           destruct (contentAt w address podPassword path names) as [rest|e] eqn:Erest;
             [|discriminate].
           intros E. inversion E; subst. constructor.
           ++ simpl. repeat split; eauto.
           ++ now apply IH.
        -- intros F. inversion F as [|? item ? rest Hitem Hrest]; subst.
           destruct item as [f|d c]; simpl in Hitem.
           ++ destruct Hitem as [C _]. congruence.
           ++ destruct Hitem as (_ & _ & -> & ep & Eraw). rewrite Eraw. simpl.
              apply IH in Hrest. now rewrite Hrest.
      * rewrite filter_cons_False by (unfold hasToken; rewrite Efile, Edir; auto).
        apply IH.
Qed.

End ReadDirectory.

(** X13.  Reading a directory writes nothing: whatever the outcome and
    however deep the read goes, [readDirectory] and [Directory.read] leave
    the stored chunks and feeds as they were and send lookups only. *)
Theorem readDirectory_only_reads `{Externals} (fuel : nat) (path : string)
  (isRecursive : bool) (w : Swarm) :
  (∀ address podPassword,
     onlyRead w
       (snd (DirectoryHandler.readDirectory fuel swarmBee path address podPassword
               isRecursive w)))
  ∧ (∀ batch wlt seed podName,
       onlyRead w
         (snd (DirectoryClass.read fuel
                 (mkAccountData Swarm (swarmConnection batch) wlt seed) podName path
                 isRecursive w))).
Proof.
  split.
  - intros address podPassword. apply onlyRead_readDirectory.
  - intros batch wlt seed podName. revert w.
    change (preserves onlyRead
              (DirectoryClass.read fuel
                 (mkAccountData Swarm (swarmConnection batch) wlt seed) podName path
                 isRecursive)).
    unfold DirectoryClass.read, PodUtils.getReadablePodInfo. preserved.
    + apply onlyRead_getExtendedPods.
    + apply onlyRead_readDirectory.
Qed.

(** X14.  What a read without recursion returns.  For a directory whose
    record has a list of names, [readDirectory] returns the record with
    one item per name that starts with a token, in the order of the list:
    for a file token the file record stored at the child path, for a
    directory token the directory record stored there, with no content.
    Names without a token are passed over.  The read returns exactly when
    all these child records are stored and of the announced kind. *)
Theorem readDirectory_lists `{Externals} (fuel : nat) (path : string)
  (address : EthAddress) (podPassword : list byte) (w : Swarm)
  (d : RawDirectoryMetadata) (epoch : Epoch) (names : list string) :
  rawMetadataAt w address podPassword path
  = Returns (ContentItems.mkRawMetadataWithEpoch (inl d) epoch) ->
  FileOrDirNames d = Some names ->
  let outcome :=
    fst (DirectoryHandler.readDirectory (S fuel) swarmBee path address podPassword false w)
  in
  (∀ items,
     Forall2 (listed w address podPassword path) (filter hasToken names) items ->
     outcome = Returns (Some (DirectoryItem d items)))
  ∧ (∀ result,
       outcome = Returns result ->
       ∃ items,
         result = Some (DirectoryItem d items)
         ∧ Forall2 (listed w address podPassword path) (filter hasToken names) items).
Proof.
  intros Hparent Hnames outcome. unfold outcome.
  rewrite (readDirectory_swarm address podPassword fuel path w d epoch names Hparent Hnames).
  split.
  - intros items Hitems. apply contentAt_listed in Hitems. now rewrite Hitems.
  - intros result.
    destruct (contentAt w address podPassword path names) as [items|e] eqn:E;
      [|discriminate].
    intros R. inversion R. exists items. split; [reflexivity|].
    now apply contentAt_listed.
Qed.

(** X14 on a concrete store: the root of the pod [docs] lists the file
    [f.txt] and the directory [a]. *)
Lemma readDirectory_lists_witness :
  fst (DirectoryHandler.readDirectory 1 swarmBee "/" (address Toy.podWallet) Toy.password
         false Samples.withBoth)
  = Returns
      (Some
         (DirectoryItem
            (mkRawDirectoryMetadata
               (mkDirectoryMeta 2 EmptyString "/" 1700000000 1700000000 1700000000)
               (Some ["_F_f.txt"; "_D_a"]))
            [FileItem Samples.fileMeta;
             DirectoryItem
               (mkRawDirectoryMetadata
                  (mkDirectoryMeta 2 "/" "a" 1700000000 1700000000 1700000000) None)
               []])).
Proof.
  destruct (readDirectory_lists 0 "/" (address Toy.podWallet) Toy.password
              Samples.withBoth
              (mkRawDirectoryMetadata
                 (mkDirectoryMeta 2 EmptyString "/" 1700000000 1700000000 1700000000)
                 (Some ["_F_f.txt"; "_D_a"]))
              (mkEpoch 29 1700000000) ["_F_f.txt"; "_D_a"]) as [Hlists _];
    [vm_compute; reflexivity | reflexivity |].
  apply Hlists. constructor; [|constructor; [|constructor]].
  - split; [reflexivity|]. exists (mkEpoch 31 1700000000). vm_compute. reflexivity.
  - split; [reflexivity|]. split; [reflexivity|]. split; [reflexivity|].
    exists (mkEpoch 31 1700000000). vm_compute. reflexivity.
Defined.

Lemma substring_all (s : string) : String.substring 0 (String.length s) s = s.
Proof. induction s as [|c s IH]; [reflexivity|]. simpl. now rewrite IH. Qed.

Lemma substringFrom_directory (name : string) :
  substringFrom 3 (ContentItems.DIRECTORY_TOKEN +:+ name) = name.
Proof. unfold substringFrom. simpl. rewrite Nat.sub_0_r. apply substring_all. Qed.

Lemma substringFrom_file (name : string) :
  substringFrom 3 (ContentItems.FILE_TOKEN +:+ name) = name.
Proof. unfold substringFrom. simpl. rewrite Nat.sub_0_r. apply substring_all. Qed.

Lemma listed_frame `{Externals} w w' address podPassword (path : string) l items :
  Forall2 (listed w address podPassword path) l items ->
  (∀ n : string, n ∈ l ->
     rawMetadataAt w' address podPassword (childPath path n)
     = rawMetadataAt w address podPassword (childPath path n)) ->
  Forall2 (listed w' address podPassword path) l items.
Proof.
  induction 1 as [|n it l its Hit _ IH]; intros Hframe; constructor.
  - assert (Hn : rawMetadataAt w' address podPassword (childPath path n)
                 = rawMetadataAt w address podPassword (childPath path n))
      by (apply Hframe; left).
    destruct it as [f|d c]; cbn [listed] in Hit |- *; rewrite Hn; exact Hit.
  - apply IH. intros n' Hn'. apply Hframe. now right.
Qed.

Section ReadSteps.
Context `{Externals}.
Variables (address : EthAddress) (podPassword : list byte).

Lemma getRawMetadata_returns (path : string) w raw :
  rawMetadataAt w address podPassword path = Returns raw ->
  ContentItems.getRawMetadata swarmBee path address podPassword w
  = (Returns raw, logged w [ReqLookup address (bmtHashString path)]).
Proof. intros E. now rewrite getRawMetadata_swarm, E. Qed.

(** A directory without a listing is read with one lookup. *)
Lemma readDirectory_leaf fuel (path : string) isRecursive w d epoch :
  rawMetadataAt w address podPassword path
  = Returns (ContentItems.mkRawMetadataWithEpoch (inl d) epoch) ->
  FileOrDirNames d = None ->
  DirectoryHandler.readDirectory (S fuel) swarmBee path address podPassword isRecursive w
  = (Returns (Some (DirectoryItem d [])),
     logged w [ReqLookup address (bmtHashString path)]).
Proof.
  intros Hraw Hnone. cbn [DirectoryHandler.readDirectory].
  rewrite (bind_returns _ _ _ _ _ (getRawMetadata_returns path w _ Hraw)).
  cbn [ContentItems.metadata ContentItems.assertRawDirectoryMetadata].
  now rewrite bind_lift_returns, Hnone.
Qed.

(** One step of the loop with recursion, on a name that announces a
    directory. *)
Lemma readItems_directory (path : string) descend (name : string) rest content w d epoch
  sub w1 :
  String.prefix ContentItems.FILE_TOKEN name = false ->
  String.prefix ContentItems.DIRECTORY_TOKEN name = true ->
  rawMetadataAt w address podPassword (childPath path name)
  = Returns (ContentItems.mkRawMetadataWithEpoch (inl d) epoch) ->
  descend (childPath path name)
    (logged w [ReqLookup address (bmtHashString (childPath path name))])
  = (Returns (Some sub), w1) ->
  DirectoryHandler.readItems swarmBee path address podPassword true descend
    (name :: rest) content w
  = DirectoryHandler.readItems swarmBee path address podPassword true descend rest
      (content ++ [DirectoryItem d (item_content sub)]) w1.
Proof.
  intros Hfile Hdir Hraw Hsub. cbn [DirectoryHandler.readItems].
  rewrite Hfile, Hdir. change (String.length ContentItems.DIRECTORY_TOKEN) with 3.
  fold (childPath path name).
  rewrite (bind_returns _ _ _ _ _ (getRawMetadata_returns _ w _ Hraw)).
  cbn [ContentItems.metadata ContentItems.assertRawDirectoryMetadata].
  rewrite bind_lift_returns. now rewrite (bind_returns _ _ _ _ _ Hsub).
Qed.

End ReadSteps.

Section CreateThenRead.
Context `{Externals}.
Variables (batch : string) (wallet : HDNode) (podPassword : list byte).

Let owner : EthAddress := address wallet.

(** X15.  A created directory shows up in a read of its parent.  After a
    successful [createDirectory], a read of the parent without recursion
    returns the items it returned before followed by the new directory,
    empty; and when the parent listed nothing before, a recursive read
    returns the new directory, empty, as the only item. *)
Theorem createDirectory_then_read (fuel : nat) (fullPath : string) (w : Swarm)
  (parentData : RawDirectoryMetadata) (epoch : Epoch) (items : list Item) :
  let parts := getPathParts fullPath in
  let name := List.last parts EmptyString in
  let parentPath := getPathFromParts parts 1 in
  let probe := combine [parentPath; name] in
  let childTopic := combine (splitPath parentPath ++ [name]) in
  let names := default [] (FileOrDirNames parentData) in
  let item := ContentItems.DIRECTORY_TOKEN +:+ name in
  let listing :=
    mkRawDirectoryMetadata
      (ContentItems.setModificationTime (Meta parentData) getUnixTimestamp)
      (Some (names ++ [item])) in
  let child :=
    mkRawDirectoryMetadata
      (mkDirectoryMeta META_VERSION parentPath name getUnixTimestamp getUnixTimestamp
         getUnixTimestamp) None in
  cipherRoundTrip -> jsonRoundTrip ->
  assertPartsLength parts = Returns tt ->
  assertDirectoryName name = Returns tt ->
  parentPath ≠ EmptyString -> name ≠ EmptyString ->
  existsAt w owner probe = false ->
  rawMetadataAt w owner podPassword parentPath
  = Returns (ContentItems.mkRawMetadataWithEpoch (inl parentData) epoch) ->
  item ∉ names ->
  bmtHashString childTopic ≠ bmtHashString parentPath ->
  (∀ n : string, n ∈ names ->
     bmtHashString (childPath parentPath n) ≠ bmtHashString parentPath
     ∧ bmtHashString (childPath parentPath n) ≠ bmtHashString childTopic) ->
  Forall2 (listed w owner podPassword parentPath) (filter hasToken names) items ->
  ∃ w',
    DirectoryHandler.createDirectory (swarmConnection batch) fullPath wallet podPassword w
    = (Returns tt, w')
    ∧ fst (DirectoryHandler.readDirectory (S fuel) swarmBee parentPath owner podPassword
             false w')
      = Returns (Some (DirectoryItem listing (items ++ [DirectoryItem child []])))
    ∧ (names = [] ->
       fst (DirectoryHandler.readDirectory (S (S fuel)) swarmBee parentPath owner
              podPassword true w')
       = Returns (Some (DirectoryItem listing [DirectoryItem child []]))).
Proof.
  intros parts name parentPath probe childTopic names item listing child
    Hcipher Hjson Hparts Hname NP NE Hnew Hparent Hunlisted Hdistinct Hothers Hitems.
  pose proof (createDirectory_swarm batch wallet podPassword fullPath w parentData epoch
                Hparts Hname NP NE Hnew Hparent Hunlisted) as Hcreate.
  cbv zeta in Hcreate. fold owner parts name parentPath probe childTopic in Hcreate.
  fold names item listing child in Hcreate.
  set (nextEpoch := epoch_getNextEpoch epoch getUnixTimestamp) in *.
  set (w2 := logged w [ReqLookup owner (bmtHashString probe);
                       ReqLookup owner (bmtHashString parentPath)]) in *.
  set (w3 := snd (swarm_socUpload (privateKey wallet) batch
                    (feedIdentifier parentPath (Some nextEpoch))
                    (encryptBytes podPassword
                       (ContentItems.getRawDirectoryMetadataBytes listing)) w2)) in *.
  set (w4 := snd (swarm_socUpload (privateKey wallet) batch
                    (feedIdentifier childTopic None)
                    (encryptBytes podPassword
                       (ContentItems.getRawDirectoryMetadataBytes child)) w3)) in *.
  exists w4. split; [exact Hcreate|].
  assert (Hparent4 : rawMetadataAt w4 owner podPassword parentPath
                     = Returns (ContentItems.mkRawMetadataWithEpoch (inl listing) nextEpoch)).
  { unfold w4. rewrite rawMetadataAt_elsewhere.
    - now apply rawMetadataAt_written.
    - intros C. apply Hdistinct. now inversion C. }
  assert (Hchild4 : rawMetadataAt w4 owner podPassword childTopic
                    = Returns (ContentItems.mkRawMetadataWithEpoch (inl child)
                                 (mkEpoch HIGHEST_LEVEL getUnixTimestamp))).
  { unfold w4, rawMetadataAt. rewrite feedAnswer_socUpload.
    case_decide as E; [|exfalso; apply E; reflexivity].
    unfold decodeMetadata. cbn [la_data la_epoch]. rewrite Hcipher.
    unfold ContentItems.getRawDirectoryMetadataBytes. now rewrite Hjson. }
  assert (Hframe : ∀ n : string, n ∈ names ->
            rawMetadataAt w4 owner podPassword (childPath parentPath n)
            = rawMetadataAt w owner podPassword (childPath parentPath n)).
  { intros n Hn. destruct (Hothers n Hn) as [N1 N2].
    unfold w4. rewrite rawMetadataAt_elsewhere by (intros C; apply N2; now inversion C).
    unfold w3. rewrite rawMetadataAt_elsewhere by (intros C; apply N1; now inversion C).
    apply rawMetadataAt_logged. }
  split.
  2:{ intros Hempty.
      assert (Hlisting : FileOrDirNames listing = Some [item])
        by (unfold listing; now rewrite Hempty).
      assert (Hfile : String.prefix ContentItems.FILE_TOKEN item = false)
        by (unfold item, ContentItems.DIRECTORY_TOKEN, ContentItems.FILE_TOKEN; simpl;
            destruct name; reflexivity).
      assert (Hdir : String.prefix ContentItems.DIRECTORY_TOKEN item = true)
        by (unfold item, ContentItems.DIRECTORY_TOKEN; simpl; destruct name; reflexivity).
      assert (Hpath : childPath parentPath item = childTopic)
        by (unfold childPath, item; now rewrite substringFrom_directory).
      cbn [DirectoryHandler.readDirectory].
      rewrite (bind_returns _ _ _ _ _
                 (getRawMetadata_returns owner podPassword parentPath w4 _ Hparent4)).
      cbn [ContentItems.metadata ContentItems.assertRawDirectoryMetadata].
      rewrite bind_lift_returns, Hlisting.
      set (w5 := logged w4 [ReqLookup owner (bmtHashString parentPath)]).
      assert (Hchild5 : rawMetadataAt w5 owner podPassword (childPath parentPath item)
                        = Returns (ContentItems.mkRawMetadataWithEpoch (inl child)
                                     (mkEpoch HIGHEST_LEVEL getUnixTimestamp)))
        by (rewrite Hpath; exact Hchild4).
      unfold bind.
      erewrite (readItems_directory owner podPassword parentPath _ item [] [] w5 child _
                  (DirectoryItem child []) _ Hfile Hdir Hchild5).
      - reflexivity.
      - apply (readDirectory_leaf owner podPassword fuel _ true _ child
                 (mkEpoch HIGHEST_LEVEL getUnixTimestamp)); [|reflexivity].
        rewrite rawMetadataAt_logged. exact Hchild5. }
  rewrite (readDirectory_swarm owner podPassword fuel parentPath w4 listing nextEpoch
             (names ++ [item]) Hparent4 eq_refl).
  assert (Hall : contentAt w4 owner podPassword parentPath (names ++ [item])
                 = Returns (items ++ [DirectoryItem child []])).
  { apply contentAt_listed. rewrite list.filter_app. apply Forall2_app.
    - apply (listed_frame w); [exact Hitems|].
      intros n Hn. apply Hframe. apply list_elem_of_filter in Hn. tauto.
    - rewrite filter_cons_True
        by (unfold item, hasToken, ContentItems.DIRECTORY_TOKEN, ContentItems.FILE_TOKEN;
            simpl; destruct name; exact I).
      constructor; [|constructor].
      cbn [listed]. unfold childPath, item. rewrite substringFrom_directory.
      fold childTopic. split; [|split; [|split]].
      + unfold ContentItems.DIRECTORY_TOKEN, ContentItems.FILE_TOKEN. simpl.
        destruct name; reflexivity.
      + unfold ContentItems.DIRECTORY_TOKEN. simpl. destruct name; reflexivity.
      + reflexivity.
      + eexists. exact Hchild4. }
  now rewrite Hall.
Qed.

End CreateThenRead.

(** X15 on a concrete store: [/a] is created in the pod [docs], whose
    root listed nothing; the root is then read with recursion. *)
Lemma createDirectory_then_read_witness :
  ∃ w',
    DirectoryHandler.createDirectory Toy.conn "/a" Toy.podWallet Toy.password Toy.withPod
    = (Returns tt, w')
    ∧ fst (DirectoryHandler.readDirectory 2 swarmBee "/" (address Toy.podWallet)
             Toy.password true w')
      = Returns
          (Some
             (DirectoryItem
                (mkRawDirectoryMetadata
                   (mkDirectoryMeta 2 EmptyString "/" 1700000000 1700000000 1700000000)
                   (Some ["_D_a"]))
                [DirectoryItem
                   (mkRawDirectoryMetadata
                      (mkDirectoryMeta 2 "/" "a" 1700000000 1700000000 1700000000) None)
                   []])).
Proof.
  destruct (createDirectory_then_read "batch" Toy.podWallet Toy.password 0 "/a"
              Toy.withPod
              (mkRawDirectoryMetadata
                 (mkDirectoryMeta 2 EmptyString "/" 1700000000 1700000000 1700000000)
                 None)
              (mkEpoch 31 1700000000) [] toy_cipherRoundTrip toy_jsonRoundTrip)
    as (w' & Hcreate & _ & Hread);
    [vm_compute; reflexivity | vm_compute; reflexivity | vm_compute; congruence
    | vm_compute; congruence | vm_compute; reflexivity | vm_compute; reflexivity
    | intros Hin; apply list_elem_of_In in Hin; vm_compute in Hin; exact Hin
    | vm_compute; congruence
    | intros n Hin; apply list_elem_of_In in Hin; vm_compute in Hin; contradiction
    | constructor |].
  exists w'. split; [exact Hcreate|]. exact (Hread eq_refl).
Defined.

(* ===================================================================== *)
(** * Sharing a file *)
(* ===================================================================== *)

#[global] Instance noUpload_preorder : PreOrder noUpload.
Proof.
  split.
  - intros w. split; reflexivity.
  - intros a b c [C1 U1] [C2 U2]. split; congruence.
Qed.

Section Sharing.
Context `{Externals} `{SharingExternals}.
Variables (batch : string) (rootWallet : HDNode) (seed : PrivateKey).

Let acc : AccountData Swarm :=
  mkAccountData Swarm (swarmConnection batch) (Some rootWallet) seed.
Let podsLookup : Request :=
  ReqLookup (address rootWallet) (bmtHashString PodUtils.POD_TOPIC).

Lemma getExtendedPods_swarm (podName : string) w :
  snd (PodUtils.getExtendedPodsListByAccountData acc podName w) = logged w [podsLookup].
Proof.
  unfold PodUtils.getExtendedPodsListByAccountData, PodUtils.assertActiveAccount,
    PodUtils.assertWallet, acc.
  cbn [wallet connection bee swarmConnection]. rewrite bind_lift_returns.
  unfold bind, prepareEthAddress. rewrite getPodsList_swarm.
  destruct (podsInfoAt w (address rootWallet)) as [info|e]; [|reflexivity].
  destruct (find _ _) as [pod|]; [|reflexivity].
  destruct (pod_password pod); reflexivity.
Qed.

Lemma getExtendedPods_returns (podName : string) w found :
  fst (PodUtils.getExtendedPodsListByAccountData acc podName w) = Returns found ->
  PodUtils.getExtendedPodsListByAccountData acc podName w
  = (Returns found, logged w [podsLookup]).
Proof.
  intros E. rewrite <- getExtendedPods_swarm with (podName := podName), <- E.
  apply surjective_pairing.
Qed.

(** X16.  [File.share] sends three requests: the lookup of the pod list,
    the lookup of the file record, and one upload whose payload is the
    text of the share information, that is the file record with the pod
    password in hexadecimal as [shared_password], as plain bytes.  No feed
    is written; the returned reference is the address of that payload,
    and [getSharedInfo] of it gives back what the payload parses to. *)
Theorem share_uploads_plain_capsule (podName fullPath : string) (w : Swarm)
  (podWallet : HDNode) (pod : Pod) (podPassword : list byte)
  (meta : FileMetadata) (epoch : Epoch) :
  let capsule :=
    stringToBytes
      (stringifyShareInfo
         (mkFileShareInfo (FileClass.setSharedPassword meta (bytesToHex podPassword)))) in
  assertFullPathWithName fullPath = Returns tt ->
  PodUtils.assertPodName podName = Returns tt ->
  fst (PodUtils.getExtendedPodsListByAccountData acc podName w)
  = Returns (podWallet, pod, podPassword) ->
  rawMetadataAt w (address podWallet) podPassword fullPath
  = Returns (ContentItems.mkRawMetadataWithEpoch (inr meta) epoch) ->
  ∃ w',
    FileClass.share acc podName fullPath w = (Returns (dataAddress capsule), w')
    ∧ requests w'
      = requests w
        ++ [podsLookup; ReqLookup (address podWallet) (bmtHashString fullPath);
            ReqUploadData capsule]
    ∧ feeds w' = feeds w
    ∧ chunks w' !! dataAddress capsule = Some capsule
    ∧ ∀ info,
        parseShareInfo capsule = Some info ->
        assertEncryptedReference (dataAddress capsule) = Returns tt ->
        fst (FileClass.getSharedInfo acc (dataAddress capsule) w') = Returns info.
Proof.
  intros capsule Hpath Hpod Hfound Hmeta.
  set (w2 := logged w [podsLookup; ReqLookup (address podWallet) (bmtHashString fullPath)]).
  exists (stored w2 [capsule]).
  assert (Hchunk : chunks (stored w2 [capsule]) !! dataAddress capsule = Some capsule)
    by (simpl; now rewrite lookup_insert_eq).
  split; [|split; [|split; [|split]]].
  - unfold FileClass.share.
    change (PodUtils.assertAccount acc) with (Returns rootWallet).
    rewrite bind_lift_returns, Hpath, bind_lift_returns, Hpod, bind_lift_returns.
    rewrite (bind_returns _ _ _ _ _ (getExtendedPods_returns podName w _ Hfound)).
    cbn [fst snd]. change (bee (connection acc)) with swarmBee.
    unfold bind at 1. rewrite getRawMetadata_swarm, rawMetadataAt_logged, Hmeta.
    cbn [ContentItems.metadata ContentItems.assertRawFileMetadata].
    rewrite bind_lift_returns. fold capsule.
    change (connection acc) with (swarmConnection batch).
    rewrite uploadBytes_swarm, logged_logged. reflexivity.
  - simpl. rewrite <- app_assoc. reflexivity.
  - reflexivity.
  - exact Hchunk.
  - intros info Hparse Href. unfold FileClass.getSharedInfo.
    change (PodUtils.assertAccount acc) with (Returns rootWallet).
    rewrite bind_lift_returns, Href, bind_lift_returns.
    unfold FileClass.getSharedFileInfo, bind.
    change (bee (connection acc)) with swarmBee.
    rewrite downloadData_swarm, Hchunk, Hparse. reflexivity.
Qed.

Lemma noUpload_logged w l : uploadsOf l = [] -> noUpload w (logged w l).
Proof.
  intros U. split; [reflexivity|]. simpl. rewrite uploadsOf_app, U. apply app_nil_r.
Qed.

Lemma noUpload_feedOnly P w w' : feedOnly P w w' -> noUpload w w'.
Proof. intros F. split; [apply F | now apply (feedOnly_uploads P)]. Qed.

Lemma noUpload_saveShared (podName parentPath reference : string) (name : option string) :
  preserves noUpload (FileClass.saveShared acc podName parentPath reference name).
Proof.
  unfold FileClass.saveShared, FileClass.getSharedInfo, FileClass.getSharedFileInfo.
  preserved.
  - intros w. change (bee (connection acc)) with swarmBee. rewrite downloadData_swarm.
    now apply noUpload_logged.
  - match goal with |- preserves _ (match ?x with _ => _ end) => destruct x end; preserved.
  - intros w. apply (noUpload_feedOnly (fun _ => False)).
    apply feedOnly_getExtendedPods.
  - intros w. eapply noUpload_feedOnly. apply feedOnly_addEntryToDirectory.
  - intros w. eapply noUpload_feedOnly. apply feedOnly_writeFeedData.
Qed.

(** What a download answers is decided by the compression and the
    manifest reference of the metadata, and by the chunks. *)
Lemma downloadData_same_blocks (p1 p2 : string) owner1 owner2 pw1 pw2 w1 w2 m1 m2 :
  fst (FileHandler.getFileMetadata swarmBee p1 owner1 pw1 w1) = Returns m1 ->
  fst (FileHandler.getFileMetadata swarmBee p2 owner2 pw2 w2) = Returns m2 ->
  compression m1 = compression m2 ->
  blocksReference m1 = blocksReference m2 ->
  chunks w1 = chunks w2 ->
  fst (FileHandler.downloadData swarmBee p1 owner1 pw1 w1)
  = fst (FileHandler.downloadData swarmBee p2 owner2 pw2 w2).
Proof.
  intros H1 H2 Hc Hb C.
  unfold FileHandler.downloadData, bind.
  destruct (FileHandler.getFileMetadata swarmBee p1 owner1 pw1 w1) as [r1 v1] eqn:E1.
  destruct (FileHandler.getFileMetadata swarmBee p2 owner2 pw2 w2) as [r2 v2] eqn:E2.
  simpl in H1, H2. subst r1 r2.
  assert (C' : chunks v1 = chunks v2).
  { pose proof (getFileMetadata_swarm p1 owner1 pw1 w1) as G1. rewrite E1 in G1.
    pose proof (getFileMetadata_swarm p2 owner2 pw2 w2) as G2. rewrite E2 in G2.
    inversion G1. inversion G2. exact C. }
  rewrite Hc. destruct (decide (compression m2 ≠ EmptyString)); [reflexivity|].
  rewrite !downloadBlocksManifest_swarm, Hb, C'.
  destruct (chunks v2 !! blocksReference m2) as [data|]; [|reflexivity].
  destruct (parse data) as [[d|f|b|ps]|]; try reflexivity.
  apply downloadBlocks_chunks. simpl. exact C'.
Qed.

(** X17.  [File.saveShared] copies no data.  When the capsule is stored
    and parses, the pod is found and the target name is free in the
    parent, it returns the shared record re-targeted to the pod, the
    parent path and the name (the given one, or else the name in the
    capsule); no chunk is added and nothing is uploaded as data; the file
    record reads back at the new path; and a download of the new path
    returns what a download of any file with the same manifest reference
    and compression returned before. *)
Theorem saveShared_reuses_blocks
  (podName parentPath reference : string) (name : option string) (w : Swarm)
  (capsule : list byte) (info : FileShareInfo)
  (podWallet : HDNode) (pod : Pod) (podPassword : list byte)
  (parentData : RawDirectoryMetadata) (epoch : Epoch) :
  let owner := address podWallet in
  let fileName := default (fileName (si_meta info)) name in
  let fullPath := combine [parentPath; fileName] in
  let meta := updateFileMetadata (si_meta info) podName parentPath fileName owner in
  cipherRoundTrip -> jsonRoundTrip ->
  PodUtils.assertPodName podName = Returns tt ->
  assertEncryptedReference reference = Returns tt ->
  chunks w !! reference = Some capsule ->
  parseShareInfo capsule = Some info ->
  fst (PodUtils.getExtendedPodsListByAccountData acc podName w)
  = Returns (podWallet, pod, podPassword) ->
  parentPath ≠ EmptyString -> fileName ≠ EmptyString ->
  existsAt w owner fullPath = false ->
  rawMetadataAt w owner podPassword parentPath
  = Returns (ContentItems.mkRawMetadataWithEpoch (inl parentData) epoch) ->
  ContentItems.FILE_TOKEN +:+ fileName ∉ default [] (FileOrDirNames parentData) ->
  ∃ w',
    FileClass.saveShared acc podName parentPath reference name w = (Returns meta, w')
    ∧ chunks w' = chunks w
    ∧ uploadsOf (requests w') = uploadsOf (requests w)
    ∧ fst (FileHandler.getFileMetadata swarmBee fullPath owner podPassword w')
      = Returns meta
    ∧ ∀ (path0 : string) owner0 pw0 meta0,
        fst (FileHandler.getFileMetadata swarmBee path0 owner0 pw0 w) = Returns meta0 ->
        compression meta0 = compression meta ->
        blocksReference meta0 = blocksReference meta ->
        fst (FileHandler.downloadData swarmBee fullPath owner podPassword w')
        = fst (FileHandler.downloadData swarmBee path0 owner0 pw0 w).
Proof.
  intros owner fileName fullPath meta Hcipher Hjson Hpod Href Hcapsule Hparse Hfound
    NP NE Hnew Hparent Hunlisted.
  set (w1 := logged w [ReqDownloadData reference]).
  set (w2 := logged w1 [podsLookup]).
  set (listing :=
         mkRawDirectoryMetadata
           (ContentItems.setModificationTime (Meta parentData) getUnixTimestamp)
           (Some (default [] (FileOrDirNames parentData)
                  ++ [ContentItems.FILE_TOKEN +:+ fileName]))).
  set (w3 := snd (swarm_socUpload (privateKey podWallet) batch
                    (feedIdentifier parentPath
                       (Some (epoch_getNextEpoch epoch getUnixTimestamp)))
                    (encryptBytes podPassword
                       (ContentItems.getRawDirectoryMetadataBytes listing))
                    (logged w2 [ReqLookup owner (bmtHashString fullPath);
                                ReqLookup owner (bmtHashString parentPath)]))).
  set (w4 := snd (swarm_socUpload (privateKey podWallet) batch
                    (feedIdentifier fullPath None)
                    (encryptBytes podPassword (FileUtils.getFileMetadataRawBytes meta))
                    w3)).
  assert (Hrun :
    FileClass.saveShared acc podName parentPath reference name w = (Returns meta, w4)).
  { unfold FileClass.saveShared. rewrite Hpod, bind_lift_returns.
    assert (Hinfo : FileClass.getSharedInfo acc reference w = (Returns info, w1)).
    { unfold FileClass.getSharedInfo.
      change (PodUtils.assertAccount acc) with (Returns rootWallet).
      rewrite bind_lift_returns, Href, bind_lift_returns.
      unfold FileClass.getSharedFileInfo, bind.
      change (bee (connection acc)) with swarmBee.
      rewrite downloadData_swarm, Hcapsule, Hparse. reflexivity. }
    rewrite (bind_returns _ _ _ _ _ Hinfo).
    assert (Hfound1 :
      fst (PodUtils.getExtendedPodsListByAccountData acc podName w1)
      = Returns (podWallet, pod, podPassword)).
    { rewrite <- Hfound. unfold PodUtils.getExtendedPodsListByAccountData,
        PodUtils.assertActiveAccount, PodUtils.assertWallet, acc.
      cbn [wallet connection bee swarmConnection]. rewrite !bind_lift_returns.
      unfold bind. rewrite !getPodsList_swarm. unfold w1. rewrite podsInfoAt_logged.
      destruct (podsInfoAt w _) as [i|e]; [|reflexivity].
      destruct (find _ _) as [p|]; [|reflexivity].
      destruct (pod_password p); reflexivity. }
    rewrite (bind_returns _ _ _ _ _ (getExtendedPods_returns podName w1 _ Hfound1)).
    cbn [fst snd]. fold w2 owner fileName meta fullPath.
    change (connection acc) with (swarmConnection batch).
    assert (Hadd :
      ContentItems.addEntryToDirectory (swarmConnection batch) podWallet podPassword
        parentPath fileName true w2
      = (Returns (socAddress owner
                    (feedIdentifier parentPath
                       (Some (epoch_getNextEpoch epoch getUnixTimestamp)))), w3)).
    { rewrite addEntryToDirectory_swarm; [|exact NP | exact NE | exact Hnew].
      fold owner. unfold w2, w1. rewrite !rawMetadataAt_logged, Hparent.
      cbv zeta. rewrite bool_decide_eq_false_2 by exact Hunlisted. reflexivity. }
    rewrite (bind_returns _ _ _ _ _ Hadd).
    unfold bind. rewrite writeFeedData_swarm. reflexivity. }
  assert (Hmeta : fst (FileHandler.getFileMetadata swarmBee fullPath owner podPassword w4)
                  = Returns meta).
  { rewrite getFileMetadata_swarm. cbn [fst]. unfold rawMetadataAt, w4.
    rewrite feedAnswer_socUpload. case_decide as E; [|exfalso; apply E; reflexivity].
    unfold decodeMetadata. cbn [la_data la_epoch]. rewrite Hcipher.
    unfold FileUtils.getFileMetadataRawBytes. rewrite Hjson. reflexivity. }
  exists w4. split; [exact Hrun|].
  pose proof (noUpload_saveShared podName parentPath reference name w) as [C U].
  rewrite Hrun in C, U. cbn [snd] in C, U.
  split; [exact C|]. split; [exact U|]. split; [exact Hmeta|].
  intros path0 owner0 pw0 meta0 Hmeta0 Hc Hb.
  apply (downloadData_same_blocks fullPath path0 owner owner0 podPassword pw0 w4 w meta
           meta0 Hmeta Hmeta0); [now symmetry | now symmetry | exact C].
Qed.

End Sharing.

(** X16 on a concrete store: the file [/f.txt] of the pod [docs] is
    shared; the capsule carries the password of the pod. *)
Lemma share_uploads_plain_capsule_witness :
  let info :=
    mkFileShareInfo
      (FileClass.setSharedPassword Samples.fileMeta (bytesToHex Toy.password)) in
  let capsule := stringToBytes (stringifyShareInfo info) in
  ∃ w',
    Samples.shared = (Returns (dataAddress capsule), w')
    ∧ feeds w' = feeds Samples.withFile
    ∧ fst (FileClass.getSharedInfo Toy.account (dataAddress capsule) w') = Returns info.
Proof.
  intros info capsule.
  destruct (share_uploads_plain_capsule "batch" (mkHDNode "root-key") "root-key" "docs"
              "/f.txt" Samples.withFile Toy.podWallet (mkPod "docs" 1 (Some Toy.password))
              Toy.password Samples.fileMeta (mkEpoch 31 1700000000))
    as (w' & Hshare & _ & Hfeeds & _ & Hinfo);
    [vm_compute; reflexivity | vm_compute; reflexivity | vm_compute; reflexivity
    | vm_compute; reflexivity |].
  exists w'. split; [exact Hshare|]. split; [exact Hfeeds|].
  apply Hinfo; vm_compute; reflexivity.
Defined.

(** X17 on a concrete store: the shared file is saved as [/copy.txt] of
    the same pod, and downloaded from there. *)
Lemma saveShared_reuses_blocks_witness :
  let capsule :=
    stringToBytes
      (stringifyShareInfo
         (mkFileShareInfo
            (FileClass.setSharedPassword Samples.fileMeta (bytesToHex Toy.password)))) in
  let w := snd Samples.shared in
  ∃ meta w',
    FileClass.saveShared Toy.account "docs" "/" (dataAddress capsule) (Some "copy.txt") w
    = (Returns meta, w')
    ∧ chunks w' = chunks w
    ∧ fst (FileHandler.downloadData swarmBee "/copy.txt" (address Toy.podWallet)
             Toy.password w')
      = Returns [x61; x62; x63; x64; x65].
Proof.
  intros capsule w.
  destruct (saveShared_reuses_blocks "batch" (mkHDNode "root-key") "root-key" "docs" "/"
              (dataAddress capsule) (Some "copy.txt") w capsule
              (mkFileShareInfo
                 (FileClass.setSharedPassword Samples.fileMeta (bytesToHex Toy.password)))
              Toy.podWallet (mkPod "docs" 1 (Some Toy.password)) Toy.password
              (mkRawDirectoryMetadata
                 (mkDirectoryMeta 2 EmptyString "/" 1700000000 1700000000 1700000000)
                 (Some ["_F_f.txt"]))
              (mkEpoch 30 1700000000) toy_cipherRoundTrip toy_jsonRoundTrip)
    as (w' & Hsave & Hchunks & _ & _ & Hdown);
    [vm_compute; reflexivity | vm_compute; reflexivity
    | apply (bool_decide_unpack _); vm_compute; exact I
    | vm_compute; reflexivity | vm_compute; reflexivity | discriminate | discriminate
    | vm_compute; reflexivity | vm_compute; reflexivity
    | intros Hin; apply list_elem_of_In in Hin; vm_compute in Hin; intuition congruence |].
  eexists _, w'. split; [exact Hsave|]. split; [exact Hchunks|].
  transitivity
    (fst (FileHandler.downloadData swarmBee "/f.txt" (address Toy.podWallet) Toy.password
            w)); [|vm_compute; reflexivity].
  apply (Hdown "/f.txt" (address Toy.podWallet) Toy.password Samples.fileMeta);
    [vm_compute; reflexivity | vm_compute; reflexivity | vm_compute; reflexivity].
Defined.

(* ===================================================================== *)
(** * The encrypted mnemonic and the postage batches *)
(* ===================================================================== *)

Section Mnemonic.
Context `{Externals} `{AccountExternals}.


End Mnemonic.

Section BatchFacts.
Context {W : Type}.

(** X19.  [getBatchId] answers for the last batch of the list only.
    With no batch it throws "Postage batch not exists"; when the last
    batch has an empty identifier it throws "Incorrect batch id found",
    whatever the other batches are; otherwise it returns the identifier
    of the last batch, and [isBatchUsable] is the [usable] flag that the
    node reports for that identifier.  [isBatchUsable] fails the same way
    as [getBatchId]. *)
Theorem isBatchUsable_asks_last_batch (beeDebug : BeeDebug W) (w w1 : W)
  (batches : list PostageBatch) :
  getAllPostageBatch beeDebug w = (Returns batches, w1) ->
  (batches = [] ->
   Batch.getBatchId beeDebug w = (Throws (ErrorObj "Postage batch not exists"), w1)
   ∧ Batch.isBatchUsable beeDebug w = (Throws (ErrorObj "Postage batch not exists"), w1))
  ∧ (∀ front batch,
       batches = front ++ [batch] ->
       (batchID batch = EmptyString ->
        Batch.getBatchId beeDebug w = (Throws (ErrorObj "Incorrect batch id found"), w1)
        ∧ Batch.isBatchUsable beeDebug w
          = (Throws (ErrorObj "Incorrect batch id found"), w1))
       ∧ (batchID batch ≠ EmptyString ->
          Batch.getBatchId beeDebug w = (Returns (batchID batch), w1)
          ∧ Batch.isBatchUsable beeDebug w
            = (match fst (getPostageBatch beeDebug (batchID batch) w1) with
               | Returns answer => Returns (usable answer)
               | Throws e => Throws e
               end,
               snd (getPostageBatch beeDebug (batchID batch) w1)))).
Proof.
  intros Hall. split.
  - intros ->.
    assert (Hid : Batch.getBatchId beeDebug w
                  = (Throws (ErrorObj "Postage batch not exists"), w1))
      by (unfold Batch.getBatchId; now rewrite (bind_returns _ _ _ _ _ Hall)).
    split; [exact Hid|]. unfold Batch.isBatchUsable. now rewrite (bind_throws _ _ _ _ _ Hid).
  - intros front batch ->.
    assert (Hlen : length (front ++ [batch]) ≠ 0) by (rewrite length_app; simpl; lia).
    split.
    + intros Hempty.
      assert (Hid : Batch.getBatchId beeDebug w
                    = (Throws (ErrorObj "Incorrect batch id found"), w1)).
      { unfold Batch.getBatchId. rewrite (bind_returns _ _ _ _ _ Hall).
        rewrite decide_False by exact Hlen. rewrite last_snoc. simpl.
        now rewrite decide_True by exact Hempty. }
      split; [exact Hid|]. unfold Batch.isBatchUsable.
      now rewrite (bind_throws _ _ _ _ _ Hid).
    + intros Hid0.
      assert (Hid : Batch.getBatchId beeDebug w = (Returns (batchID batch), w1)).
      { unfold Batch.getBatchId. rewrite (bind_returns _ _ _ _ _ Hall).
        rewrite decide_False by exact Hlen. rewrite last_snoc. simpl.
        now rewrite decide_False by exact Hid0. }
      split; [exact Hid|]. unfold Batch.isBatchUsable.
      rewrite (bind_returns _ _ _ _ _ Hid). unfold bind.
      destruct (getPostageBatch beeDebug (batchID batch) w1) as [[answer|e] w2];
        reflexivity.
Qed.

End BatchFacts.


(** X19 on a concrete node: of two batches the first is usable, the last
    is not. *)
Lemma isBatchUsable_asks_last_batch_witness :
  let node :=
    Samples.beeDebug [mkPostageBatch "b1" true; mkPostageBatch "b2" false] in
  fst (Batch.getBatchId node tt) = Returns "b2"
  ∧ fst (Batch.isBatchUsable node tt) = Returns false.
Proof.
  intros node.
  destruct (isBatchUsable_asks_last_batch node tt tt
              [mkPostageBatch "b1" true; mkPostageBatch "b2" false] eq_refl)
    as [_ Hlast].
  destruct (Hlast [mkPostageBatch "b1" true] (mkPostageBatch "b2" false) eq_refl)
    as [_ Hsome].
  destruct Hsome as [Hid Husable]; [discriminate|].
  rewrite Hid, Husable. split; reflexivity.
Defined.

(* ===================================================================== *)
(** * Uploading a directory *)
(* ===================================================================== *)

Section UploadDirectory.
Context `{Externals} `{UploadExternals}.
Variables (batch : string) (rootWallet : HDNode) (seed : PrivateKey).

Let acc : AccountData Swarm :=
  mkAccountData Swarm (swarmConnection batch) (Some rootWallet) seed.
Let podsLookup : Request :=
  ReqLookup (address rootWallet) (bmtHashString PodUtils.POD_TOPIC).

Lemma createDirectory_throws (fullPath : string) wallet podPassword w message w' :
  assertPartsLength (getPathParts fullPath) = Returns tt ->
  assertDirectoryName (List.last (getPathParts fullPath) EmptyString) = Returns tt ->
  ContentItems.addEntryToDirectory (swarmConnection batch) wallet podPassword
    (getPathFromParts (getPathParts fullPath) 1)
    (List.last (getPathParts fullPath) EmptyString) false w
  = (Throws (ErrorObj message), w') ->
  DirectoryHandler.createDirectory (swarmConnection batch) fullPath wallet podPassword w
  = (Throws (ErrorObj message), w').
Proof.
  intros Hparts Hname Hadd. unfold DirectoryHandler.createDirectory.
  rewrite Hparts, bind_lift_returns, Hname, bind_lift_returns.
  unfold bind at 1. rewrite Hadd. reflexivity.
Qed.

(** X20.  [Directory.upload] and directories that exist.  When the first
    directory to create is already stored, the upload throws "Directory
    ... already uploaded to the network" after two lookups (the pod list,
    the probe of the directory): no other directory is created and no
    file is read or uploaded.  The one failure the upload passes over is
    "already listed in the parent directory list", raised when nothing is
    stored at the directory but the parent lists it: the upload then goes
    on with the remaining directories and the files after three
    lookups, and the record of that directory is not written. *)
Theorem upload_stops_at_stored_directory (podName : string) (filesSource : FilesSource)
  (options : option UploadDirectoryOptions) (w : Swarm) podWallet pod podPassword
  (files0 : list FileInfo) (directory : string) (rest : list string) :
  let isRecursive := default true (options ≫= udo_isRecursive) in
  let excludeDotFiles := default false (options ≫= udo_excludeDotFiles) in
  let isIncludeDirectoryName := default true (options ≫= udo_isIncludeDirectoryName) in
  let uploadOptions := default DEFAULT_UPLOAD_OPTIONS (options ≫= udo_uploadOptions) in
  let isNodePath :=
    match filesSource with NodePath _ => true | BrowserFiles _ => false end in
  let files := if excludeDotFiles then filterDotFiles files0 else files0 in
  let owner := address podWallet in
  let parts := getPathParts directory in
  let name := List.last parts EmptyString in
  let parentPath := getPathFromParts parts 1 in
  let probe := combine [parentPath; name] in
  PodUtils.assertPodName podName = Returns tt ->
  fst (PodUtils.getExtendedPodsListByAccountData acc podName w)
  = Returns (podWallet, pod, podPassword) ->
  negb isNode && isNodePath = false ->
  DirectoryClass.sourceFiles filesSource isRecursive = Returns files0 ->
  getDirectoriesToCreate
    (map (fun item =>
            if isIncludeDirectoryName then relativePathWithBase item
            else relativePath item) files)
  = directory :: rest ->
  assertPartsLength parts = Returns tt ->
  assertDirectoryName name = Returns tt ->
  parentPath ≠ EmptyString -> name ≠ EmptyString ->
  (existsAt w owner probe = true ->
   includesString DirectoryClass.ALREADY_LISTED
     (ContentItems.alreadyUploaded "Directory" probe) = false ->
   DirectoryClass.upload acc podName filesSource options w
   = (Throws (ErrorObj (ContentItems.alreadyUploaded "Directory" probe)),
      logged w [podsLookup; ReqLookup owner (bmtHashString probe)]))
  ∧ (∀ parentData epoch,
       existsAt w owner probe = false ->
       rawMetadataAt w owner podPassword parentPath
       = Returns (ContentItems.mkRawMetadataWithEpoch (inl parentData) epoch) ->
       ContentItems.DIRECTORY_TOKEN +:+ name ∈ default [] (FileOrDirNames parentData) ->
       DirectoryClass.upload acc podName filesSource options w
       = (let* _ :=
            DirectoryClass.createDirectories (swarmConnection batch) podWallet
              podPassword rest in
          DirectoryClass.uploadFiles acc podName isNodePath isIncludeDirectoryName
            uploadOptions files)
           (logged w [podsLookup; ReqLookup owner (bmtHashString probe);
                      ReqLookup owner (bmtHashString parentPath)])).
Proof.
  intros isRecursive excludeDotFiles isIncludeDirectoryName uploadOptions isNodePath
    files owner parts name parentPath probe Hpod Hfound Henv Hsource Hdirs Hparts Hname
    NP NE.
  apply getExtendedPods_returns in Hfound. fold acc podsLookup in Hfound.
  assert (Hstart :
    DirectoryClass.upload acc podName filesSource options w
    = (let* _ :=
         DirectoryClass.createDirectories (swarmConnection batch) podWallet podPassword
           (directory :: rest) in
       DirectoryClass.uploadFiles acc podName isNodePath isIncludeDirectoryName
         uploadOptions files) (logged w [podsLookup])).
  { unfold DirectoryClass.upload, PodUtils.assertAccount, PodUtils.getWritablePodInfo.
    change (PodUtils.assertWallet (wallet acc)) with (Returns rootWallet).
    rewrite bind_lift_returns.
    rewrite Hpod, bind_lift_returns.
    rewrite (bind_returns _ _ _ _ _ Hfound). cbn [fst snd].
    fold isRecursive excludeDotFiles isIncludeDirectoryName uploadOptions isNodePath.
    rewrite Henv. cbv iota. rewrite Hsource. rewrite bind_lift_returns. fold files. rewrite Hdirs. reflexivity. }
  rewrite Hstart. clear Hstart. split.
  - intros Hthere Hmsg.
    pose proof (addEntryToDirectory_exists batch podWallet podPassword parentPath name
                  false (logged w [podsLookup]) NP NE) as Hadd.
    rewrite existsAt_logged in Hadd. specialize (Hadd Hthere).
    apply (createDirectory_throws directory) in Hadd; [|assumption..].
    unfold bind at 1. cbn [DirectoryClass.createDirectories].
    unfold bind at 1. unfold tryCatch. rewrite Hadd.
    fold probe. rewrite Hmsg. unfold throw. rewrite logged_logged. reflexivity.
  - intros parentData epoch Hnew Hparent Hlisted.
    pose proof (addEntryToDirectory_swarm batch podWallet podPassword parentPath name
                  false (logged w [podsLookup]) NP NE) as Hadd.
    cbv zeta in Hadd. rewrite existsAt_logged, rawMetadataAt_logged in Hadd.
    specialize (Hadd Hnew). fold owner in Hadd. rewrite Hparent in Hadd.
    rewrite bool_decide_eq_true_2 in Hadd by exact Hlisted.
    apply (createDirectory_throws directory) in Hadd; [|assumption..].
    cbn [DirectoryClass.createDirectories].
    unfold bind at 1. unfold bind at 1. unfold bind at 1. unfold tryCatch. rewrite Hadd.
    change (includesString DirectoryClass.ALREADY_LISTED
              ("Directory" +:+ " already listed in the parent directory list"))
      with true. cbn [ret]. rewrite logged_logged. reflexivity.
Qed.

End UploadDirectory.

(** X20 on concrete stores: the directory [a] with one file is uploaded
    to the pod [docs] where [/a] exists, and where [/a] is only listed. *)
Lemma upload_stops_at_stored_directory_witness :
  DirectoryClass.upload Toy.account "docs" Samples.picked None Samples.withDirectory
  = (Throws (ErrorObj (ContentItems.alreadyUploaded "Directory" "/a")),
     logged Samples.withDirectory
       [ReqLookup (address (mkHDNode "root-key")) (bmtHashString PodUtils.POD_TOPIC);
        ReqLookup (address Toy.podWallet) (bmtHashString "/a")])
  ∧ fst (DirectoryClass.upload Toy.account "docs" Samples.picked None Samples.listedOnly)
    = Throws (ErrorObj "Parent directory does not exist").
Proof.
  split.
  - destruct (upload_stops_at_stored_directory "batch" (mkHDNode "root-key") "root-key"
                "docs" Samples.picked None Samples.withDirectory Toy.podWallet
                (mkPod "docs" 1 (Some Toy.password)) Toy.password
                [Samples.mkLocalFile "a" "f.txt" [x61; x62; x63]] "/a" [])
      as [Hstored _];
      [vm_compute; reflexivity | vm_compute; reflexivity | reflexivity | reflexivity
      | vm_compute; reflexivity | vm_compute; reflexivity | vm_compute; reflexivity
      | vm_compute; congruence | vm_compute; congruence |].
    apply Hstored; vm_compute; reflexivity.
  - destruct (upload_stops_at_stored_directory "batch" (mkHDNode "root-key") "root-key"
                "docs" Samples.picked None Samples.listedOnly Toy.podWallet
                (mkPod "docs" 1 (Some Toy.password)) Toy.password
                [Samples.mkLocalFile "a" "f.txt" [x61; x62; x63]] "/a" [])
      as [_ Hlisted];
      [vm_compute; reflexivity | vm_compute; reflexivity | reflexivity | reflexivity
      | vm_compute; reflexivity | vm_compute; reflexivity | vm_compute; reflexivity
      | vm_compute; congruence | vm_compute; congruence |].
    unfold Toy.account, Toy.conn.
    rewrite (Hlisted
               (mkRawDirectoryMetadata
                  (mkDirectoryMeta 2 EmptyString "/" 1700000000 1700000000 1700000000)
                  (Some ["_D_a"]))
               (mkEpoch 30 1700000000));
      [vm_compute; reflexivity | vm_compute; reflexivity | vm_compute; reflexivity
      | apply (bool_decide_unpack _); vm_compute; exact I].
Defined.

(* ===================================================================== *)
(** * The reading operations *)
(* ===================================================================== *)

Section ReadsOnly.
Context `{Externals} `{SharingExternals} `{AccountExternals}.

Lemma onlyRead_downloadData reference :
  preserves onlyRead (bee_downloadData swarmBee reference).
Proof.
  intros w. rewrite downloadData_swarm. apply onlyRead_logged. repeat constructor.
Qed.

Lemma onlyRead_getFeedData (topic : string) address :
  preserves onlyRead (FeedRaw.getFeedData swarmBee topic address).
Proof.
  intros w. rewrite getFeedData_swarm. apply onlyRead_logged. repeat constructor.
Qed.

Lemma onlyRead_downloadBlocks blocks :
  ∀ result offset,
    preserves onlyRead (FileHandler.downloadBlocks swarmBee blocks result offset).
Proof.
  induction blocks as [|block blocks IH]; intros result offset; simpl; preserved.
  - apply onlyRead_downloadData.
  - apply IH.
Qed.

Lemma onlyRead_handler_downloadData (path : string) address podPassword :
  preserves onlyRead (FileHandler.downloadData swarmBee path address podPassword).
Proof.
  unfold FileHandler.downloadData, FileHandler.getFileMetadata,
    FileUtils.downloadBlocksManifest.
  preserved.
  - apply onlyRead_getRawMetadata.
  - match goal with |- preserves _ (if ?c then _ else _) => destruct c end; preserved.
    + apply onlyRead_downloadData.
    + match goal with |- preserves _ (match ?x with _ => _ end) => destruct x as [[]|] end;
        preserved.
    + apply onlyRead_downloadBlocks.
Qed.

(** X21.  The reading operations write nothing.  Whatever their outcome,
    [downloadData] of file/handler, [File.downloadData],
    [File.getSharedInfo], [PersonalStorage.list] and
    [getEncryptedMnemonic] leave the stored chunks and feeds as they were:
    the store receives lookups and downloads only. *)
Theorem reads_write_nothing batch wlt seed (w : Swarm) :
  let acc := mkAccountData Swarm (swarmConnection batch) wlt seed in
  (∀ (path : string) address podPassword,
     onlyRead w (snd (FileHandler.downloadData swarmBee path address podPassword w)))
  ∧ (∀ podName fullPath : string,
       onlyRead w (snd (FileClass.downloadData acc podName fullPath w)))
  ∧ (∀ reference : string, onlyRead w (snd (FileClass.getSharedInfo acc reference w)))
  ∧ onlyRead w (snd (PersonalStorage.list_ acc w))
  ∧ (∀ (username : string) address,
       onlyRead w (snd (AccountApi.getEncryptedMnemonic swarmBee username address w))).
Proof.
  intros acc. split; [|split; [|split; [|split]]].
  - intros path address podPassword. apply onlyRead_handler_downloadData.
  - intros podName fullPath. revert w.
    change (preserves onlyRead (FileClass.downloadData acc podName fullPath)).
    unfold FileClass.downloadData. preserved.
    + apply onlyRead_getExtendedPods.
    + apply onlyRead_handler_downloadData.
  - intros reference. revert w.
    change (preserves onlyRead (FileClass.getSharedInfo acc reference)).
    unfold FileClass.getSharedInfo, FileClass.getSharedFileInfo. preserved.
    + apply onlyRead_downloadData.
    + match goal with |- preserves _ (match ?x with _ => _ end) => destruct x end;
        preserved.
  - revert w. change (preserves onlyRead (PersonalStorage.list_ acc)).
    unfold PersonalStorage.list_. preserved.
    intros w. cbn [connection bee swarmConnection acc]. rewrite getPodsList_swarm.
    apply onlyRead_logged. repeat constructor.
  - intros username address. revert w.
    change (preserves onlyRead (AccountApi.getEncryptedMnemonic swarmBee username address)).
    unfold AccountApi.getEncryptedMnemonic. preserved. apply onlyRead_getFeedData.
Qed.

End ReadsOnly.

(* ===================================================================== *)
(** * Reads after a delete and after an upload *)
(* ===================================================================== *)

Section DeleteThenRead.
Context `{Externals}.
Variables (batch : string) (rootWallet : HDNode) (seed : PrivateKey).

Let acc : AccountData Swarm :=
  mkAccountData Swarm (swarmConnection batch) (Some rootWallet) seed.

(** X22.  A deleted entry is no longer listed.  After a successful
    [File.delete] (or [Directory.delete]) of a path whose parent record has
    a list of names, a read of the parent without recursion returns the
    parent record with the token-prefixed name filtered out of the list,
    and, for the names that remain, the same items as the stored records
    gave before. *)
Theorem delete_then_read (fuel : nat) (isFile : bool) (podName fullPath : string)
  (w : Swarm) podWallet pod podPassword (parentData : RawDirectoryMetadata)
  (epoch : Epoch) (names : list string) (items : list Item) :
  let owner := address podWallet in
  let parentPath := pi_path (extractPathInfo fullPath) in
  let item :=
    (if isFile then ContentItems.FILE_TOKEN else ContentItems.DIRECTORY_TOKEN)
      +:+ pi_filename (extractPathInfo fullPath) in
  let kept := filter (fun name => name ≠ item) names in
  let delete :=
    if isFile then FileClass.delete acc podName fullPath
    else DirectoryClass.delete acc podName fullPath in
  cipherRoundTrip -> jsonRoundTrip ->
  PodUtils.assertPodName podName = Returns tt ->
  (isFile = true -> assertFullPathWithName fullPath = Returns tt) ->
  fst (PodUtils.getExtendedPodsListByAccountData acc podName w)
  = Returns (podWallet, pod, podPassword) ->
  rawMetadataAt w owner podPassword parentPath
  = Returns (ContentItems.mkRawMetadataWithEpoch (inl parentData) epoch) ->
  FileOrDirNames parentData = Some names ->
  (∀ n : string, n ∈ kept ->
     bmtHashString (childPath parentPath n) ≠ bmtHashString parentPath) ->
  Forall2 (listed w owner podPassword parentPath) (filter hasToken kept) items ->
  ∃ w',
    delete w = (Returns tt, w')
    ∧ fst (DirectoryHandler.readDirectory (S fuel) swarmBee parentPath owner podPassword
             false w')
      = Returns (Some (DirectoryItem
                         (mkRawDirectoryMetadata (Meta parentData) (Some kept)) items))
    ∧ (item ∉ kept).
Proof.
  intros owner parentPath item kept delete Hcipher Hjson Hpod Hpath Hfound Hparent Hnames
    Hothers Hitems.
  apply getExtendedPods_returns in Hfound. fold acc in Hfound.
  set (w1 := logged w [ReqLookup (address rootWallet) (bmtHashString PodUtils.POD_TOPIC)])
    in Hfound.
  set (written := mkRawDirectoryMetadata (Meta parentData) (Some kept)).
  set (nextEpoch := epoch_getNextEpoch epoch getUnixTimestamp).
  set (w' := snd (swarm_socUpload (privateKey podWallet) batch
                    (feedIdentifier parentPath (Some nextEpoch))
                    (encryptBytes podPassword
                       (ContentItems.getRawDirectoryMetadataBytes written))
                    (logged w1 [ReqLookup owner (bmtHashString parentPath)]))).
  assert (Hremove :
    ContentItems.removeEntryFromDirectory (swarmConnection batch) podWallet podPassword
      parentPath (pi_filename (extractPathInfo fullPath)) isFile w1
    = (Returns (socAddress owner (feedIdentifier parentPath (Some nextEpoch))), w')).
  { rewrite (removeEntryFromDirectory_swarm batch podWallet podPassword parentPath _
               isFile w1 parentData epoch) by (unfold w1; rewrite rawMetadataAt_logged; exact Hparent).
    rewrite Hnames. reflexivity. }
  exists w'. split; [|split].
  - unfold delete. destruct isFile.
    + unfold FileClass.delete, PodUtils.assertAccount.
      change (PodUtils.assertWallet (wallet acc)) with (Returns rootWallet).
      rewrite bind_lift_returns, (Hpath eq_refl), bind_lift_returns, Hpod,
        bind_lift_returns.
      rewrite (bind_returns _ _ _ _ _ Hfound). cbn [fst snd].
      change (connection acc) with (swarmConnection batch).
      fold parentPath. now rewrite (bind_returns _ _ _ _ _ Hremove).
    + unfold DirectoryClass.delete, PodUtils.assertAccount, PodUtils.getWritablePodInfo.
      change (PodUtils.assertWallet (wallet acc)) with (Returns rootWallet).
      rewrite bind_lift_returns, Hpod, bind_lift_returns.
      rewrite (bind_returns _ _ _ _ _ Hfound). cbn [fst snd].
      change (connection acc) with (swarmConnection batch).
      fold parentPath. now rewrite (bind_returns _ _ _ _ _ Hremove).
  - assert (Hparent' : rawMetadataAt w' owner podPassword parentPath
                       = Returns (ContentItems.mkRawMetadataWithEpoch (inl written)
                                    nextEpoch))
      by (now apply rawMetadataAt_written).
    rewrite (readDirectory_swarm owner podPassword fuel parentPath w' written nextEpoch
               kept Hparent' eq_refl).
    assert (Hall : contentAt w' owner podPassword parentPath kept = Returns items).
    { apply contentAt_listed. apply (listed_frame w); [exact Hitems|].
      intros n Hn. apply list_elem_of_filter in Hn. destruct Hn as [_ Hn].
      unfold w'. rewrite rawMetadataAt_elsewhere
        by (intros C; apply (Hothers n Hn); now inversion C).
      unfold w1. now rewrite !rawMetadataAt_logged. }
    now rewrite Hall.
  - unfold kept. rewrite list_elem_of_filter. intros [C _]. now apply C.
Qed.

End DeleteThenRead.

(** X22 on a concrete store: the root of the pod [docs] lists the file
    [f.txt] and the directory [a]; the file is deleted. *)
Lemma delete_then_read_witness :
  ∃ w',
    FileClass.delete Toy.account "docs" "/f.txt" Samples.withBoth = (Returns tt, w')
    ∧ fst (DirectoryHandler.readDirectory 1 swarmBee "/" (address Toy.podWallet)
             Toy.password false w')
      = Returns
          (Some
             (DirectoryItem
                (mkRawDirectoryMetadata
                   (mkDirectoryMeta 2 EmptyString "/" 1700000000 1700000000 1700000000)
                   (Some ["_D_a"]))
                [DirectoryItem
                   (mkRawDirectoryMetadata
                      (mkDirectoryMeta 2 "/" "a" 1700000000 1700000000 1700000000) None)
                   []])).
Proof.
  destruct (delete_then_read "batch" (mkHDNode "root-key") "root-key" 0 true "docs"
              "/f.txt" Samples.withBoth Toy.podWallet (mkPod "docs" 1 (Some Toy.password))
              Toy.password
              (mkRawDirectoryMetadata
                 (mkDirectoryMeta 2 EmptyString "/" 1700000000 1700000000 1700000000)
                 (Some ["_F_f.txt"; "_D_a"]))
              (mkEpoch 29 1700000000) ["_F_f.txt"; "_D_a"]
              [DirectoryItem
                 (mkRawDirectoryMetadata
                    (mkDirectoryMeta 2 "/" "a" 1700000000 1700000000 1700000000) None)
                 []]
              toy_cipherRoundTrip toy_jsonRoundTrip)
    as (w' & Hdelete & Hread & _);
    [vm_compute; reflexivity | intros _; vm_compute; reflexivity
    | vm_compute; reflexivity | vm_compute; reflexivity | reflexivity
    | intros n Hn; apply list_elem_of_In in Hn; vm_compute in Hn;
      destruct Hn as [<-|[]]; vm_compute; congruence
    | constructor; [|constructor] |].
  - split; [reflexivity|]. split; [reflexivity|]. split; [reflexivity|].
    exists (mkEpoch 31 1700000000). vm_compute. reflexivity.
  - exists w'. split; [exact Hdelete | exact Hread].
Defined.

Section UploadThenRead.
Context `{Externals}.
Variables (batch : string) (rootWallet : HDNode) (seed : PrivateKey).

Let acc : AccountData Swarm :=
  mkAccountData Swarm (swarmConnection batch) (Some rootWallet) seed.

Lemma rawMetadataAt_same_topic w owner podPassword (p q : string) :
  bmtHashString p = bmtHashString q ->
  rawMetadataAt w owner podPassword p = rawMetadataAt w owner podPassword q.
Proof. intros E. unfold rawMetadataAt, feedAnswer. now rewrite E. Qed.

Lemma rawMetadataAt_file_written batch0 wallet podPassword (topic : string) epoch
  (meta : FileMetadata) w :
  cipherRoundTrip -> jsonRoundTrip ->
  ∃ epoch',
    rawMetadataAt
      (snd (swarm_socUpload (privateKey wallet) batch0 (feedIdentifier topic epoch)
              (encryptBytes podPassword (FileUtils.getFileMetadataRawBytes meta)) w))
      (address wallet) podPassword topic
    = Returns (ContentItems.mkRawMetadataWithEpoch (inr meta) epoch').
Proof.
  intros Hcipher Hjson. eexists. unfold rawMetadataAt. rewrite feedAnswer_socUpload.
  case_decide as E; [|exfalso; apply E; reflexivity].
  unfold decodeMetadata. cbn [la_data la_epoch]. rewrite Hcipher.
  unfold FileUtils.getFileMetadataRawBytes. now rewrite Hjson.
Qed.

(** X23.  An uploaded file shows up in a read of its directory.  After a
    successful [uploadData] of file/handler, a read of the parent
    directory without recursion returns the parent record, with the
    token-prefixed file name appended to its list and the current time as
    modification time, and as items the ones it returned before followed
    by the file with the metadata that [uploadData] returned. *)
Theorem upload_then_read (fuel : nat) (podName fullPath : string)
  (data : list byte + string) (options : FileUtils.DataUploadOptions) (w w' : Swarm)
  (meta : FileMetadata) podWallet pod podPassword (parentData : RawDirectoryMetadata)
  (epoch : Epoch) (items : list Item) :
  let owner := address podWallet in
  let parentPath := pi_path (extractPathInfo fullPath) in
  let fileName := pi_filename (extractPathInfo fullPath) in
  let names := default [] (FileOrDirNames parentData) in
  let item := ContentItems.FILE_TOKEN +:+ fileName in
  let listing :=
    mkRawDirectoryMetadata
      (ContentItems.setModificationTime (Meta parentData) getUnixTimestamp)
      (Some (names ++ [item])) in
  cipherRoundTrip -> jsonRoundTrip ->
  FileHandler.uploadData podName fullPath data acc options w = (Returns meta, w') ->
  fst (PodUtils.getExtendedPodsListByAccountData acc podName w)
  = Returns (podWallet, pod, podPassword) ->
  rawMetadataAt w owner podPassword parentPath
  = Returns (ContentItems.mkRawMetadataWithEpoch (inl parentData) epoch) ->
  bmtHashString (combine (splitPath parentPath ++ [fileName])) = bmtHashString fullPath ->
  bmtHashString fullPath ≠ bmtHashString parentPath ->
  (∀ n : string, n ∈ names ->
     bmtHashString (childPath parentPath n) ≠ bmtHashString parentPath
     ∧ bmtHashString (childPath parentPath n) ≠ bmtHashString fullPath) ->
  Forall2 (listed w owner podPassword parentPath) (filter hasToken names) items ->
  fst (DirectoryHandler.readDirectory (S fuel) swarmBee parentPath owner podPassword
         false w')
  = Returns (Some (DirectoryItem listing (items ++ [FileItem meta]))).
Proof.
  intros owner parentPath fileName names item listing Hcipher Hjson E Hfound Hparent Hlaw
    Hdistinct Hothers Hitems.
  apply getExtendedPods_returns in Hfound. fold acc in Hfound.
  unfold FileHandler.uploadData in E.
  do 4 invert_lift E.
  rewrite (bind_returns _ _ _ _ _ Hfound) in E. cbn [fst snd] in E.
  change (connection acc) with (swarmConnection batch) in E.
  change (bee (swarmConnection batch)) with swarmBee in E.
  unfold prepareEthAddress in E. fold owner in E.
  set (w1 := logged w [ReqLookup (address rootWallet) (bmtHashString PodUtils.POD_TOPIC)])
    in *.
  destruct (getCreationPathInfo_swarm fullPath owner w1) as [info Hinfo].
  rewrite (bind_returns _ _ _ _ _ Hinfo) in E.
  rewrite (bind_returns _ _ _ _ _ (uploadBlocks_swarm batch _ _ _ 0 [] _)) in E.
  rewrite (bind_returns _ _ _ _ _ (uploadBytes_swarm batch _ _)) in E.
  fold parentPath fileName in E.
  invert_bind E r1 w5 Hadd.
  match type of Hadd with
  | ContentItems.addEntryToDirectory _ _ _ _ _ _ ?s4 = _ => set (w4 := s4) in *
  end.
  assert (Hfeeds4 : feeds w4 = feeds w) by (unfold w4; now rewrite !feeds_stored).
  assert (NP : parentPath ≠ EmptyString).
  { intros C. unfold ContentItems.addEntryToDirectory in Hadd.
    rewrite decide_True in Hadd by exact C. discriminate. }
  assert (NE : fileName ≠ EmptyString).
  { intros C. unfold ContentItems.addEntryToDirectory in Hadd.
    rewrite decide_False in Hadd by exact NP.
    rewrite decide_True in Hadd by exact C. discriminate. }
  assert (Hnew : existsAt w4 owner (combine [parentPath; fileName]) = false).
  { destruct (existsAt w4 owner (combine [parentPath; fileName])) eqn:X; [|reflexivity].
    rewrite (addEntryToDirectory_exists batch podWallet podPassword parentPath fileName
               true w4 NP NE X) in Hadd. discriminate. }
  rewrite (addEntryToDirectory_swarm batch podWallet podPassword parentPath fileName true
             w4 NP NE Hnew) in Hadd.
  fold owner in Hadd.
  rewrite (rawMetadataAt_feeds w w4) in Hadd by exact Hfeeds4. rewrite Hparent in Hadd.
  cbv zeta in Hadd. fold names item in Hadd.
  destruct (bool_decide (item ∈ names)); [discriminate|].
  fold listing in Hadd.
  set (nextEpoch := epoch_getNextEpoch epoch getUnixTimestamp) in Hadd.
  pose proof (f_equal snd Hadd) as Hw5. cbn [snd] in Hw5. clear Hadd.
  invert_bind E r2 w6 Hwrite. unfold ret in E. inversion E; subst meta w6. clear E.
  rewrite writeFeedData_api_swarm in Hwrite.
  pose proof (f_equal snd Hwrite) as Hw6. cbn [snd] in Hw6. clear Hwrite.
  assert (Hparent' : rawMetadataAt w' owner podPassword parentPath
                     = Returns (ContentItems.mkRawMetadataWithEpoch (inl listing) nextEpoch)).
  { rewrite <- Hw6. rewrite rawMetadataAt_elsewhere
      by (intros C; apply Hdistinct; now inversion C).
    rewrite <- Hw5. now apply rawMetadataAt_written. }
  match type of Hw6 with
  | snd (swarm_socUpload _ _ _
           (encryptBytes _ (FileUtils.getFileMetadataRawBytes ?m)) _) = _ =>
      set (meta := m) in *
  end.
  assert (Hfile : ∃ epoch',
            rawMetadataAt w' owner podPassword (childPath parentPath item)
            = Returns (ContentItems.mkRawMetadataWithEpoch (inr meta) epoch')).
  { rewrite (rawMetadataAt_same_topic w' owner podPassword _ fullPath)
      by (unfold childPath, item; now rewrite substringFrom_file).
    rewrite <- Hw6. apply rawMetadataAt_file_written; assumption. }
  assert (Hframe : ∀ n : string, n ∈ names ->
            rawMetadataAt w' owner podPassword (childPath parentPath n)
            = rawMetadataAt w owner podPassword (childPath parentPath n)).
  { intros n Hn. destruct (Hothers n Hn) as [N1 N2].
    rewrite <- Hw6. rewrite rawMetadataAt_elsewhere by (intros C; apply N2; now inversion C).
    rewrite <- Hw5. rewrite rawMetadataAt_elsewhere by (intros C; apply N1; now inversion C).
    rewrite rawMetadataAt_logged. now apply rawMetadataAt_feeds. }
  rewrite (readDirectory_swarm owner podPassword fuel parentPath w' listing nextEpoch
             (names ++ [item]) Hparent' eq_refl).
  assert (Hall : contentAt w' owner podPassword parentPath (names ++ [item])
                 = Returns (items ++ [FileItem meta])).
  { apply contentAt_listed. rewrite list.filter_app. apply Forall2_app.
    - apply (listed_frame w); [exact Hitems|].
      intros n Hn. apply Hframe. apply list_elem_of_filter in Hn. tauto.
    - rewrite filter_cons_True
        by (unfold item, hasToken, ContentItems.FILE_TOKEN; simpl;
            destruct fileName; exact I).
      constructor; [|constructor].
      cbn [listed]. split; [|exact Hfile].
      unfold item, ContentItems.FILE_TOKEN. simpl. destruct fileName; reflexivity. }
  now rewrite Hall.
Qed.

End UploadThenRead.

(** X23 on a concrete store: the upload of [/f.txt] to the pod [docs],
    whose root listed nothing. *)
Lemma upload_then_read_witness :
  fst Toy.sampleUpload = Returns Samples.fileMeta
  ∧ fst (DirectoryHandler.readDirectory 1 swarmBee "/" (address Toy.podWallet)
           Toy.password false (snd Toy.sampleUpload))
    = Returns
        (Some
           (DirectoryItem
              (mkRawDirectoryMetadata
                 (mkDirectoryMeta 2 EmptyString "/" 1700000000 1700000000 1700000000)
                 (Some ["_F_f.txt"]))
              [FileItem Samples.fileMeta])).
Proof.
  assert (Hfst : fst Toy.sampleUpload = Returns Samples.fileMeta)
    by (vm_compute; reflexivity).
  split; [exact Hfst|].
  apply (upload_then_read "batch" (mkHDNode "root-key") "root-key" 0 "docs" "/f.txt"
           (inl [x61; x62; x63; x64; x65]) (FileUtils.mkDataUploadOptions (Some 2) None)
           Toy.withPod (snd Toy.sampleUpload) Samples.fileMeta Toy.podWallet
           (mkPod "docs" 1 (Some Toy.password)) Toy.password
           (mkRawDirectoryMetadata
              (mkDirectoryMeta 2 EmptyString "/" 1700000000 1700000000 1700000000) None)
           (mkEpoch 31 1700000000) [] toy_cipherRoundTrip toy_jsonRoundTrip
           (surjective_pairing_returns Toy.sampleUpload Samples.fileMeta Hfst));
    [vm_compute; reflexivity | vm_compute; reflexivity | vm_compute; reflexivity
    | vm_compute; congruence
    | intros n Hn; apply list_elem_of_In in Hn; vm_compute in Hn; contradiction
    | constructor].
Defined.
